(** * junit2html_simple: JUnit XML to a single HTML report

    A shallow embedding of [junit2html_simple.py] and the properties its
    specification states about it.

    Conventions of the embedding.
    - A Python [str] is a Rocq [string] holding its UTF-8 encoding (the
      encoding the report is written in).  Only ASCII characters are ever
      inspected by the program, apart from [str.strip].
    - A Python [int] is a [Z].
    - A Python [float] is an IEEE 754 binary64 value, [spec_float] with
      [prec = 53] and [emax = 1024], and the arithmetic is the correctly
      rounded one of [SpecFloat].
    - An exception is a value of [exn]; code that may raise returns a
      [result].
    - The objects of the [junitparser] library are records holding what
      their attributes evaluate to; how the library reads the attributes
      of a suite element, omitted ones included, is the subject of the
      last part. *)

From Stdlib Require Import ZArith List String Ascii Bool Lia Arith.
From Stdlib Require Import Permutation DecimalString QArith Qround Sorted.
From Stdlib Require Import Floats.SpecFloat.
Import ListNotations.

Local Open Scope string_scope.
Local Open Scope Z_scope.

(* ================================================================= *)
(** ** Exceptions *)

Inductive exn : Type :=
| ParseError (path : string)     (* JUnitXml.fromfile failed on [path] *)
| ValueError                     (* int(nan) *)
| OverflowError                  (* int(inf), float(huge int) *)
| ZeroDivisionError
| IOError (path : string).       (* open(path, "w") failed *)

Inductive result (A : Type) : Type :=
| Ok (a : A)
| Raise (e : exn).

Arguments Ok {A} a.
Arguments Raise {A} e.

Definition bind {A B : Type} (r : result A) (k : A -> result B) : result B :=
  match r with
  | Ok a => k a
  | Raise e => Raise e
  end.

Notation "x <- r ;; k" := (bind r (fun x => k))
  (at level 61, r at next level, right associativity).

(* ================================================================= *)
(** ** Strings *)

Definition dq : string := String "034"%char EmptyString.
Definition nl : string := String "010"%char EmptyString.

(** [str(i)] and [f"{i}"] for an int. *)
Definition str_of_int (z : Z) : string :=
  NilZero.string_of_int (Z.to_int z).

Fixpoint has_slash (p : string) : bool :=
  match p with
  | EmptyString => false
  | String c rest => if Ascii.eqb c "/" then true else has_slash rest
  end.

(** [os.path.basename]: what follows the last slash. *)
Fixpoint basename (p : string) : string :=
  match p with
  | EmptyString => EmptyString
  | String c rest =>
      if has_slash rest then basename rest
      else if Ascii.eqb c "/" then rest else p
  end.

(** [x or d] for a string attribute that may be [None]. *)
Definition or_str (x : option string) (d : string) : string :=
  match x with
  | Some EmptyString => d
  | Some s => s
  | None => d
  end.

(** [x or d] for an int attribute that may be [None]. *)
Definition or_int (x : option Z) (d : Z) : Z :=
  match x with
  | Some v => if v =? 0 then d else v
  | None => d
  end.

(* ================================================================= *)
(** ** Floats *)

Definition float : Type := spec_float.

Module PyFloat.

Definition prec : Z := 53.
Definition emax : Z := 1024.

(** The representations the arithmetic produces, and the only ones a
    Python float has. *)
Definition valid (x : float) : bool := valid_binary prec emax x.

Definition add : float -> float -> float := SFadd prec emax.
Definition sub : float -> float -> float := SFsub prec emax.
Definition div : float -> float -> float := SFdiv prec emax.
Definition ltb : float -> float -> bool := SFltb.
Definition leb : float -> float -> bool := SFleb.
Definition eqb : float -> float -> bool := SFeqb.

Definition zero : float := S754_zero false.

(** Truth value of a float: false for [0.0] and [-0.0] only. *)
Definition truthy (x : float) : bool :=
  match x with
  | S754_zero _ => false
  | _ => true
  end.

Definition is_finite (x : float) : bool :=
  match x with
  | S754_zero _ | S754_finite _ _ _ => true
  | _ => false
  end.

(** The float nearest to the int [z] (ties to even), infinite when out
    of range. *)
Definition lit (z : Z) : float := binary_normalize prec emax z 0 false.

(** [float(z)] for an int [z], as the arithmetic operators convert an
    int operand: [OverflowError] when out of range. *)
Definition of_int (z : Z) : result float :=
  match lit z with
  | S754_infinity _ => Raise OverflowError
  | x => Ok x
  end.

Definition one : float := lit 1.
Definition half : float := div (lit 1) (lit 2).

(** [int(x)]: truncation towards zero. *)
Definition to_int (x : float) : result Z :=
  match x with
  | S754_nan => Raise ValueError
  | S754_infinity _ => Raise OverflowError
  | S754_zero _ => Ok 0
  | S754_finite s m e =>
      Ok (cond_Zopp s
            (match e with
             | Zneg p => Z.shiftr (Zpos m) (Zpos p)
             | _ => Z.shiftl (Zpos m) e
             end))
  end.

(** C's [floor]. *)
Definition floor (x : float) : float :=
  match x with
  | S754_finite s m (Zneg p) =>
      match Z.shiftr (cond_Zopp s (Zpos m)) (Zpos p) with
      | Z0 => S754_zero s
      | n => binary_normalize prec emax n 0 false
      end
  | _ => x
  end.

(** C's [fmod]: the exact remainder of the division truncated towards
    zero; it has the sign of [x]. *)
Definition fmod (x y : float) : float :=
  match x, y with
  | S754_nan, _ | _, S754_nan => S754_nan
  | S754_infinity _, _ => S754_nan
  | _, S754_zero _ => S754_nan
  | _, S754_infinity _ => x
  | S754_zero _, _ => x
  | S754_finite sx mx ex, S754_finite _ my ey =>
      let e := Z.min ex ey in
      let r := Z.rem (Z.shiftl (Zpos mx) (ex - e)) (Z.shiftl (Zpos my) (ey - e)) in
      binary_normalize prec emax (cond_Zopp sx r) e sx
  end.

Definition sign_bit (x : float) : bool :=
  match x with
  | S754_zero s | S754_infinity s | S754_finite s _ _ => s
  | S754_nan => false
  end.

(** [copysign(0.0, y)]. *)
Definition zero_with_sign_of (y : float) : float := S754_zero (sign_bit y).

(** [vx // wx], CPython's [float_floor_div]. *)
Definition floor_div (vx wx : float) : result float :=
  if eqb wx zero then Raise ZeroDivisionError
  else
    let mod_ := fmod vx wx in
    let div0 := div (sub vx mod_) wx in
    let div1 :=
      if truthy mod_ && xorb (ltb wx zero) (ltb mod_ zero)
      then sub div0 one else div0 in
    if truthy div1 then
      let floordiv := floor div1 in
      Ok (if ltb half (sub div1 floordiv) then add floordiv one else floordiv)
    else Ok (zero_with_sign_of (div vx wx)).

(** [n / d] rounded to the nearest integer, ties to even ([0 < d]). *)
Definition div_round_even (n d : Z) : Z :=
  let q := n / d in
  let r := n mod d in
  match 2 * r ?= d with
  | Lt => q
  | Gt => q + 1
  | Eq => if Z.even q then q else q + 1
  end.

(** The number of hundredths nearest to [|x|], ties to even. *)
Definition hundredths (x : float) : Z :=
  match x with
  | S754_finite _ m (Zneg p) => div_round_even (100 * Zpos m) (Z.pow_pos 2 p)
  | S754_finite _ m e => 100 * Z.shiftl (Zpos m) e
  | _ => 0
  end.

Definition two_digits (n : Z) : string :=
  str_of_int (n / 10) ++ str_of_int (n mod 10).

(** [f"{x:.2f}"]: the decimal with two fractional digits nearest to
    the exact value of [x]. *)
Definition fmt_2f (x : float) : string :=
  match x with
  | S754_nan => "nan"
  | S754_infinity s => if s then "-inf" else "inf"
  | _ =>
      let h := hundredths x in
      (if sign_bit x then "-" else "") ++
      str_of_int (h / 100) ++ "." ++ two_digits (h mod 100)
  end.

End PyFloat.

(** [x or 0.0] for a float attribute that may be [None]. *)
Definition or_float (x : option float) : float :=
  match x with
  | Some v => if PyFloat.truthy v then v else PyFloat.zero
  | None => PyFloat.zero
  end.

(* ================================================================= *)
(** ** The junitparser object model *)

(** The records below hold what the attribute reads of the program
    return.  junitparser converts the text of a numeric attribute when it
    is read; a text that does not convert makes that read raise
    ValueError, and an element with such an attribute has no record
    here.  A numeric attribute of a suite reads as [None] only when it is
    present with an empty text: an attribute that the element omits is
    computed by the library from the test cases of the suite (see
    [read_suite] below). *)

(** The class of a result entry of a test case.  [OtherResult] stands for
    an entry that is none of the three classes the program tests for. *)
Inductive ResultKind : Type := Failure | Error | Skipped | OtherResult.

Record Result : Type := {
  r_kind : ResultKind;
  r_message : option string;    (* r.message *)
  r_text : option string        (* r.text *)
}.

Record TestCase : Type := {
  tc_classname : option string;
  tc_name : option string;
  tc_time : option float;
  tc_result : list Result       (* case.result *)
}.

(** What iterating over a suite yields. *)
Inductive SuiteChild : Type :=
| CaseElem (c : TestCase)
| OtherElem.

Record TestSuite : Type := {
  ts_name : option string;
  ts_tests : option Z;
  ts_failures : option Z;
  ts_errors : option Z;
  ts_skipped : option Z;        (* getattr(suite, "skipped", 0) *)
  ts_disabled : option Z;       (* getattr(suite, "disabled", 0) *)
  ts_time : option float;
  ts_children : list SuiteChild (* list(suite) *)
}.

(* ================================================================= *)
(** ** The data model of the report *)

Inductive Status : Type := St_ok | St_fail | St_err | St_skip.

Definition Status_eqb (a b : Status) : bool :=
  match a, b with
  | St_ok, St_ok | St_fail, St_fail | St_err, St_err | St_skip, St_skip => true
  | _, _ => false
  end.

Definition status_str (s : Status) : string :=
  match s with
  | St_ok => "ok"
  | St_fail => "fail"
  | St_err => "err"
  | St_skip => "skip"
  end.

Record TestCaseRecord : Type := {
  c_suite : string;
  c_classname : string;
  c_name : string;
  c_time : float;
  c_status : Status;
  c_message : string;
  c_detail : string
}.

Record SuiteSummary : Type := {
  s_name : string;
  s_tests : Z;
  s_failures : Z;
  s_errors : Z;
  s_skipped : Z;
  s_time : float;
  s_file : string
}.

Record ReportTotals : Type := {
  t_suites : Z;
  t_tests : Z;
  t_failures : Z;
  t_errors : Z;
  t_skipped : Z;
  t_time : float;
  t_passed : Z
}.

Record ReportData : Type := {
  suites : list SuiteSummary;
  cases : list TestCaseRecord;
  totals : ReportTotals
}.

(* ================================================================= *)
(** ** Reading a test case *)

(** The loop of [_get_test_status]: the first entry that is a [Failure],
    an [Error] or a [Skipped] decides. *)
Fixpoint status_loop (rs : list Result) : Status :=
  match rs with
  | [] => St_ok
  | r :: rest =>
      match r_kind r with
      | Failure => St_fail
      | Error => St_err
      | Skipped => St_skip
      | OtherResult => status_loop rest
      end
  end.

Definition _get_test_status (case : TestCase) : Status :=
  status_loop (tc_result case).

Definition _get_test_message (case : TestCase) : string :=
  match tc_result case with
  | r :: _ => or_str (r_message r) ""
  | [] => ""
  end.

Definition _get_test_detail (case : TestCase) : string :=
  match tc_result case with
  | r :: _ => or_str (r_text r) ""
  | [] => ""
  end.

(* ================================================================= *)
(** ** parse_files *)

(** The sums of [totals]: [sum] starts from the int [0]. *)
Definition sum_int (l : list Z) : Z := fold_left Z.add l 0.

(** A sum of floats, added from left to right starting from [0].  The
    int [0] an empty sum evaluates to is only ever used through
    [float(...)] or in a further sum, hence as [0.0]. *)
Definition sum_float (l : list float) : float :=
  fold_left PyFloat.add l PyFloat.zero.

Definition len {A : Type} (l : list A) : Z := Z.of_nat (List.length l).

Definition suite_name (p : string) (suite : TestSuite) : string :=
  or_str (ts_name suite) (basename p).

Definition suite_summary (p : string) (suite : TestSuite) : SuiteSummary :=
  {| s_name := suite_name p suite;
     s_tests := or_int (ts_tests suite) (len (ts_children suite));
     s_failures := or_int (ts_failures suite) 0;
     s_errors := or_int (ts_errors suite) 0;
     s_skipped :=
       match ts_skipped suite with
       | Some v => if v =? 0 then or_int (ts_disabled suite) 0 else v
       | None => or_int (ts_disabled suite) 0
       end;
     s_time := or_float (ts_time suite);
     s_file := basename p |}.

Definition case_record (sname : string) (case : TestCase) : TestCaseRecord :=
  {| c_suite := sname;
     c_classname := or_str (tc_classname case) "";
     c_name := or_str (tc_name case) "";
     c_time := or_float (tc_time case);
     c_status := _get_test_status case;
     c_message := _get_test_message case;
     c_detail := _get_test_detail case |}.

(** One turn of [for case in suite]. *)
Definition case_step (sname : string) (case_rows : list TestCaseRecord)
    (child : SuiteChild) : list TestCaseRecord :=
  match child with
  | CaseElem case => (case_rows ++ [case_record sname case])%list
  | OtherElem => case_rows
  end.

(** One turn of [for suite in xml]. *)
Definition suite_step (p : string)
    (acc : list SuiteSummary * list TestCaseRecord) (suite : TestSuite)
    : list SuiteSummary * list TestCaseRecord :=
  let '(suites_data, case_rows) := acc in
  ((suites_data ++ [suite_summary p suite])%list,
   fold_left (case_step (suite_name p suite)) (ts_children suite) case_rows).

(** The files the program may read: [JUnitXml.fromfile p] yields the
    suites of [p], or raises.  The suites are given by the values their
    attributes read as, so that the loop below has no read that raises:
    that a read of a numeric attribute raises ValueError on a text that
    does not convert is outside this model. *)
Definition Files : Type := string -> option (list TestSuite).

(** [for p in paths]. *)
Fixpoint parse_loop (fromfile : Files) (paths : list string)
    (acc : list SuiteSummary * list TestCaseRecord)
    : result (list SuiteSummary * list TestCaseRecord) :=
  match paths with
  | [] => Ok acc
  | p :: rest =>
      match fromfile p with
      | None => Raise (ParseError p)
      | Some xml => parse_loop fromfile rest (fold_left (suite_step p) xml acc)
      end
  end.

Definition make_totals (suites_data : list SuiteSummary) : ReportTotals :=
  let tests := sum_int (map s_tests suites_data) in
  let failures := sum_int (map s_failures suites_data) in
  let errors := sum_int (map s_errors suites_data) in
  let skipped := sum_int (map s_skipped suites_data) in
  {| t_suites := len suites_data;
     t_tests := tests;
     t_failures := failures;
     t_errors := errors;
     t_skipped := skipped;
     t_time := sum_float (map s_time suites_data);
     t_passed := tests - failures - errors - skipped |}.

Definition parse_files (fromfile : Files) (paths : list string)
    : result ReportData :=
  acc <- parse_loop fromfile paths ([], []) ;;
  let '(suites_data, case_rows) := acc in
  Ok {| suites := suites_data;
        cases := case_rows;
        totals := make_totals suites_data |}.

(* ================================================================= *)
(** ** seconds_fmt *)

Definition seconds_fmt (sec : float) : result string :=
  if PyFloat.leb (PyFloat.lit 60) sec then
    q <- PyFloat.floor_div sec (PyFloat.lit 60) ;;
    m <- PyFloat.to_int q ;;
    m60 <- PyFloat.of_int (m * 60) ;;
    let s := PyFloat.sub sec m60 in
    Ok (str_of_int m ++ "m" ++ PyFloat.fmt_2f s ++ "s")
  else Ok (PyFloat.fmt_2f sec ++ "s").

(* ================================================================= *)
(** ** Text helpers of the renderer *)

Definition nonempty (s : string) : bool :=
  match s with
  | EmptyString => false
  | _ => true
  end.

(** [s or d] for a string. *)
Definition or_s (s d : string) : string := if nonempty s then s else d.

Definition escape_char (c : ascii) : string :=
  if Ascii.eqb c "&" then "&amp;"
  else if Ascii.eqb c "<" then "&lt;"
  else if Ascii.eqb c ">" then "&gt;"
  else if Ascii.eqb c "034" then "&quot;"
  else if Ascii.eqb c "'" then "&#x27;"
  else String c EmptyString.

(** [html.escape(x, quote=True)]. *)
Fixpoint _escape_html (x : string) : string :=
  match x with
  | EmptyString => EmptyString
  | String c rest => escape_char c ++ _escape_html rest
  end.

Definition label_of (status : Status) : string :=
  match status with
  | St_ok => "PASS"
  | St_fail => "FAIL"
  | St_err => "ERROR"
  | St_skip => "SKIP"
  end.

(** *** [str.strip]

    The white space of Python: U+0009..U+000D, U+001C..U+0020, U+0085,
    U+00A0, U+1680, U+2000..U+200A, U+2028, U+2029, U+202F, U+205F and
    U+3000, here in their UTF-8 encoding. *)

Definition ws1 (c : ascii) : bool :=
  let n := N_of_ascii c in
  ((9 <=? n) && (n <=? 13) || (28 <=? n) && (n <=? 32))%N.

Definition ws2 (c1 c2 : ascii) : bool :=
  let a := N_of_ascii c1 in
  let b := N_of_ascii c2 in
  ((a =? 194) && ((b =? 133) || (b =? 160)))%N.

Definition ws3 (c1 c2 c3 : ascii) : bool :=
  let a := N_of_ascii c1 in
  let b := N_of_ascii c2 in
  let c := N_of_ascii c3 in
  ((a =? 225) && (b =? 154) && (c =? 128)
   || (a =? 226) && (b =? 128) && ((128 <=? c) && (c <=? 138) || (c =? 168) || (c =? 169) || (c =? 175))
   || (a =? 226) && (b =? 129) && (c =? 159)
   || (a =? 227) && (b =? 128) && (c =? 128))%N.

(** Drops the white space at the front of [s]; with [back], [s] is a
    reversed string and the bytes of a character come last byte first. *)
Fixpoint drop_ws (back : bool) (s : string) : string :=
  match s with
  | EmptyString => s
  | String c1 r1 =>
      if ws1 c1 then drop_ws back r1
      else
        match r1 with
        | EmptyString => s
        | String c2 r2 =>
            if (if back then ws2 c2 c1 else ws2 c1 c2) then drop_ws back r2
            else
              match r2 with
              | EmptyString => s
              | String c3 r3 =>
                  if (if back then ws3 c3 c2 c1 else ws3 c1 c2 c3)
                  then drop_ws back r3
                  else s
              end
        end
  end.

Fixpoint rev_string (acc s : string) : string :=
  match s with
  | EmptyString => acc
  | String c rest => rev_string (String c acc) rest
  end.

Definition strip (s : string) : string :=
  rev_string "" (drop_ws true (rev_string "" (drop_ws false s))).

(* ================================================================= *)
(** ** Dictionaries

    A [dict] keeps its keys in the order of their first insertion. *)

Section Dict.
Context {V : Type}.

Definition dict : Type := list (string * V).

Fixpoint dict_mem (d : dict) (k : string) : bool :=
  match d with
  | [] => false
  | (k', _) :: rest => if String.eqb k k' then true else dict_mem rest k
  end.

(** [d[k]], for a key that is present ([dflt] otherwise). *)
Fixpoint dict_get (dflt : V) (d : dict) (k : string) : V :=
  match d with
  | [] => dflt
  | (k', v) :: rest => if String.eqb k k' then v else dict_get dflt rest k
  end.

(** [d[k] = v]. *)
Fixpoint dict_set (d : dict) (k : string) (v : V) : dict :=
  match d with
  | [] => [(k, v)]
  | (k', v') :: rest =>
      if String.eqb k k' then (k', v) :: rest
      else (k', v') :: dict_set rest k v
  end.

Definition dict_keys (d : dict) : list string := map fst d.
Definition dict_values (d : dict) : list V := map snd d.
End Dict.

Arguments dict : clear implicits.

(** [sorted(l, key=key)]: stable, ascending. *)
Fixpoint insert_by {A : Type} (key : A -> string) (x : A) (l : list A) : list A :=
  match l with
  | [] => [x]
  | y :: rest =>
      if String.ltb (key x) (key y) then x :: y :: rest
      else y :: insert_by key x rest
  end.

Definition sorted_by {A : Type} (key : A -> string) (l : list A) : list A :=
  fold_left (fun acc x => insert_by key x acc) l [].

Definition sorted (l : list string) : list string := sorted_by (fun k => k) l.

(** A [for] loop whose body may raise. *)
Fixpoint for_each {A S : Type} (l : list A) (body : S -> A -> result S)
    (acc : S) : result S :=
  match l with
  | [] => Ok acc
  | x :: rest => acc' <- body acc x ;; for_each rest body acc'
  end.

(* ================================================================= *)
(** ** _build_row_html *)

Definition need_details (c : TestCaseRecord) : bool :=
  match c_status c with
  | St_fail | St_err => true
  | St_skip => nonempty (c_message c) || nonempty (c_detail c)
  | St_ok => false
  end.

Definition details_html_of (c : TestCaseRecord) : string :=
  let status := c_status c in
  let pill_class := status_str status in
  "
      <div class=" ++ dq ++ "case-details" ++ dq ++ ">
        <div class=" ++ dq ++ "detail-head" ++ dq ++ ">
          <span class=" ++ dq ++ "pill " ++ pill_class ++ dq ++ ">" ++ label_of status ++ "</span>
          <span class=" ++ dq ++ "detail-msg" ++ dq ++ ">" ++ _escape_html (or_s (c_message c) "(no message)") ++ "</span>
        </div>
        <pre>" ++ _escape_html (strip (or_s (c_detail c) "")) ++ "</pre>
      </div>
        ".

Definition _build_row_html (c : TestCaseRecord) : result string :=
  let status := c_status c in
  let pill_class := status_str status in
  let row_extra_cls := if need_details c then " has-details" else "" in
  let details_html := if need_details c then details_html_of c else "" in
  elapsed <- seconds_fmt (c_time c) ;;
  Ok ("
    <div class=" ++ dq ++ "row" ++ row_extra_cls ++ dq ++ " tabindex=" ++ dq ++ "0" ++ dq ++ " aria-expanded=" ++ dq ++ "false" ++ dq ++ " 
         data-suite=" ++ dq ++ _escape_html (c_suite c) ++ dq ++ " data-classname=" ++ dq ++ _escape_html (c_classname c) ++ dq ++ " 
         data-name=" ++ dq ++ _escape_html (c_name c) ++ dq ++ ">
      <div class=" ++ dq ++ "status " ++ pill_class ++ dq ++ ">" ++ label_of status ++ "</div>
      <div class=" ++ dq ++ "nowrap" ++ dq ++ " title=" ++ dq ++ _escape_html (c_name c) ++ dq ++ ">" ++ _escape_html (c_name c) ++ "</div>
      <div class=" ++ dq ++ "nowrap" ++ dq ++ " title=" ++ dq ++ _escape_html (c_classname c) ++ dq ++ ">" ++ _escape_html (c_classname c) ++ "</div>
      <div class=" ++ dq ++ "nowrap" ++ dq ++ " title=" ++ dq ++ _escape_html (c_suite c) ++ dq ++ ">" ++ _escape_html (c_suite c) ++ "</div>
      <div>" ++ elapsed ++ "</div>
      " ++ details_html ++ "
    </div>
    ").

(* ================================================================= *)
(** ** _build_main_content *)

Definition Structure (A : Type) : Type := dict (dict (list A)).

(** The grouping both builders start with: [x] is appended to
    [structure[suite][classname]], either level created on demand. *)
Definition group_step {A : Type} (suite classname : string) (x : A)
    (structure : Structure A) : Structure A :=
  let structure :=
    if dict_mem structure suite then structure else dict_set structure suite [] in
  let by_class := dict_get [] structure suite in
  let by_class :=
    if dict_mem by_class classname then by_class else dict_set by_class classname [] in
  dict_set structure suite
    (dict_set by_class classname (dict_get [] by_class classname ++ [x])%list).

Definition class_key (case : TestCaseRecord) : string :=
  or_s (c_classname case) "Default".

Definition group_cases (cases : list TestCaseRecord) : Structure TestCaseRecord :=
  fold_left (fun st case => group_step (c_suite case) (class_key case) case st)
    cases [].

Record Subtotals : Type := {
  st_tests : Z;
  st_passed : Z;
  st_failures : Z;
  st_errors : Z;
  st_skipped : Z;
  st_time : float
}.

Definition count_status (s : Status) (cs : list TestCaseRecord) : Z :=
  len (filter (fun c => Status_eqb (c_status c) s) cs).

(** [suite_totals] and [class_totals]. *)
Definition subtotals_of (cs : list TestCaseRecord) : Subtotals :=
  {| st_tests := len cs;
     st_passed := count_status St_ok cs;
     st_failures := count_status St_fail cs;
     st_errors := count_status St_err cs;
     st_skipped := count_status St_skip cs;
     st_time := sum_float (map c_time cs) |}.

Definition suite_cases_of (structure : Structure TestCaseRecord) (suite : string)
    : list TestCaseRecord :=
  List.concat (dict_values (dict_get [] structure suite)).

Definition class_cases_of (structure : Structure TestCaseRecord)
    (suite classname : string) : list TestCaseRecord :=
  dict_get [] (dict_get [] structure suite) classname.

Definition suite_header (suite : string) (suite_totals : Subtotals)
    (elapsed : string) : string :=
  "
    <div class=" ++ dq ++ "suite-section" ++ dq ++ " data-suite=" ++ dq ++ _escape_html suite ++ dq ++ ">
      <div class=" ++ dq ++ "suite-header" ++ dq ++ " data-type=" ++ dq ++ "suite" ++ dq ++ " data-suite=" ++ dq ++ _escape_html suite ++ dq ++ ">
        <div class=" ++ dq ++ "suite-title" ++ dq ++ ">
          <span class=" ++ dq ++ "collapse-icon" ++ dq ++ ">‚ñº</span>
          <span class=" ++ dq ++ "item-icon" ++ dq ++ ">üìÅ</span>
          <span class=" ++ dq ++ "item-text" ++ dq ++ ">" ++ _escape_html suite ++ "</span>
        </div>
        <div class=" ++ dq ++ "suite-summary" ++ dq ++ ">
          <span class=" ++ dq ++ "pill" ++ dq ++ ">Tests: " ++ str_of_int (st_tests suite_totals) ++ "</span>
          <span class=" ++ dq ++ "pill ok" ++ dq ++ ">PASS: " ++ str_of_int (st_passed suite_totals) ++ "</span>
          <span class=" ++ dq ++ "pill fail" ++ dq ++ ">FAIL: " ++ str_of_int (st_failures suite_totals) ++ "</span>
          <span class=" ++ dq ++ "pill err" ++ dq ++ ">ERROR: " ++ str_of_int (st_errors suite_totals) ++ "</span>
          <span class=" ++ dq ++ "pill skip" ++ dq ++ ">SKIP: " ++ str_of_int (st_skipped suite_totals) ++ "</span>
          <span class=" ++ dq ++ "pill" ++ dq ++ ">Time: " ++ elapsed ++ "</span>
        </div>
      </div>
      <div class=" ++ dq ++ "suite-content" ++ dq ++ ">
".

Definition class_header (suite classname : string) (class_totals : Subtotals)
    (elapsed : string) : string :=
  "
        <div class=" ++ dq ++ "class-section" ++ dq ++ " data-suite=" ++ dq ++ _escape_html suite ++ dq ++ " data-classname=" ++ dq ++ _escape_html classname ++ dq ++ ">
          <div class=" ++ dq ++ "class-header" ++ dq ++ " data-type=" ++ dq ++ "class" ++ dq ++ " data-suite=" ++ dq ++ _escape_html suite ++ dq ++ " data-classname=" ++ dq ++ _escape_html classname ++ dq ++ ">
            <div class=" ++ dq ++ "class-title" ++ dq ++ ">
              <span class=" ++ dq ++ "collapse-icon" ++ dq ++ ">‚ñº</span>
              <span class=" ++ dq ++ "item-icon" ++ dq ++ ">üì¶</span>
              <span class=" ++ dq ++ "item-text" ++ dq ++ ">" ++ _escape_html classname ++ "</span>
            </div>
            <div class=" ++ dq ++ "class-summary" ++ dq ++ ">
              <span class=" ++ dq ++ "pill" ++ dq ++ ">Tests: " ++ str_of_int (st_tests class_totals) ++ "</span>
              <span class=" ++ dq ++ "pill ok" ++ dq ++ ">PASS: " ++ str_of_int (st_passed class_totals) ++ "</span>
              <span class=" ++ dq ++ "pill fail" ++ dq ++ ">FAIL: " ++ str_of_int (st_failures class_totals) ++ "</span>
              <span class=" ++ dq ++ "pill err" ++ dq ++ ">ERROR: " ++ str_of_int (st_errors class_totals) ++ "</span>
              <span class=" ++ dq ++ "pill skip" ++ dq ++ ">SKIP: " ++ str_of_int (st_skipped class_totals) ++ "</span>
              <span class=" ++ dq ++ "pill" ++ dq ++ ">Time: " ++ elapsed ++ "</span>
            </div>
          </div>
          <div class=" ++ dq ++ "class-content" ++ dq ++ ">
            <div class=" ++ dq ++ "class-grid" ++ dq ++ ">
              <div>Status</div>
              <div>TestName</div>
              <div>Category / Suite</div>
              <div>SuiteName</div>
              <div>Elapse Time</div>
            </div>
".

Definition class_footer : string :=
  "
          </div>
        </div>
".

Definition suite_footer : string :=
  "
      </div>
    </div>
".

Definition rows_loop (class_cases : list TestCaseRecord) (main_html : string)
    : result string :=
  for_each (sorted_by c_name class_cases)
    (fun main_html case => row <- _build_row_html case ;; Ok (main_html ++ row))
    main_html.

Definition class_loop (structure : Structure TestCaseRecord) (suite : string)
    (main_html : string) : result string :=
  for_each (sorted (dict_keys (dict_get [] structure suite)))
    (fun main_html classname =>
       let class_cases := class_cases_of structure suite classname in
       let class_totals := subtotals_of class_cases in
       elapsed <- seconds_fmt (st_time class_totals) ;;
       main_html <- rows_loop class_cases
                      (main_html ++ class_header suite classname class_totals elapsed) ;;
       Ok (main_html ++ class_footer))
    main_html.

Definition suite_loop (structure : Structure TestCaseRecord) (main_html : string)
    : result string :=
  for_each (sorted (dict_keys structure))
    (fun main_html suite =>
       let suite_cases := suite_cases_of structure suite in
       let suite_totals := subtotals_of suite_cases in
       elapsed <- seconds_fmt (st_time suite_totals) ;;
       main_html <- class_loop structure suite
                      (main_html ++ suite_header suite suite_totals elapsed) ;;
       Ok (main_html ++ suite_footer))
    main_html.

Definition _build_main_content (data : ReportData) : result string :=
  suite_loop (group_cases (cases data)) "".

(* ================================================================= *)
(** ** _build_sidebar *)

Definition group_names (cases : list TestCaseRecord) : Structure string :=
  fold_left
    (fun st case => group_step (c_suite case) (class_key case) (c_name case) st)
    cases [].

Definition sidebar_open (title : string) : string :=
  "<div class=" ++ dq ++ "sidebar" ++ dq ++ ">" ++ nl ++
    "<div class=" ++ dq ++ "sidebar-header" ++ dq ++ ">" ++ nl ++
    "<div class=" ++ dq ++ "sidebar-title" ++ dq ++ ">Test Structure</div>" ++ nl ++
    "<div class=" ++ dq ++ "sidebar-search" ++ dq ++ ">" ++ nl ++
    "<input type=" ++ dq ++ "search" ++ dq ++ " placeholder=" ++ dq ++ "Search " ++ _escape_html title ++ "..." ++ dq ++ " />" ++ nl ++
    "</div>" ++ nl ++
    "<div class=" ++ dq ++ "sidebar-content" ++ dq ++ ">" ++ nl.

Definition sidebar_suite_open (suite : string) : string :=
  "<div class=" ++ dq ++ "sidebar-item suite-item" ++ dq ++ " " ++ "data-suite=" ++ dq ++ _escape_html suite ++ dq ++ ">" ++ nl ++
    "  <div class=" ++ dq ++ "sidebar-label" ++ dq ++ " data-type=" ++ dq ++ "suite" ++ dq ++ " " ++ "data-suite=" ++ dq ++ _escape_html suite ++ dq ++ ">" ++ nl ++
    "    <span class=" ++ dq ++ "collapse-icon" ++ dq ++ ">‚ñº</span>" ++ nl ++
    "    <span class=" ++ dq ++ "item-icon" ++ dq ++ ">üìÅ</span>" ++ nl ++
    "    <span class=" ++ dq ++ "item-text" ++ dq ++ ">" ++ _escape_html suite ++ "</span>" ++ nl ++
    "  </div>" ++ nl ++
    "  <div class=" ++ dq ++ "sidebar-children suite-children" ++ dq ++ ">" ++ nl.

Definition sidebar_class_open (suite classname : string) : string :=
  "    <div class=" ++ dq ++ "sidebar-item class-item" ++ dq ++ " " ++ "data-suite=" ++ dq ++ _escape_html suite ++ dq ++ " " ++ "data-classname=" ++ dq ++ _escape_html classname ++ dq ++ ">" ++ nl ++
    "      <div class=" ++ dq ++ "sidebar-label" ++ dq ++ " data-type=" ++ dq ++ "class" ++ dq ++ " " ++ "data-suite=" ++ dq ++ _escape_html suite ++ dq ++ " " ++ "data-classname=" ++ dq ++ _escape_html classname ++ dq ++ ">" ++ nl ++
    "        <span class=" ++ dq ++ "collapse-icon" ++ dq ++ ">‚ñº</span>" ++ nl ++
    "        <span class=" ++ dq ++ "item-icon" ++ dq ++ ">üì¶</span>" ++ nl ++
    "        <span class=" ++ dq ++ "item-text" ++ dq ++ ">" ++ _escape_html classname ++ "</span>" ++ nl ++
    "      </div>" ++ nl ++
    "      <div class=" ++ dq ++ "sidebar-children class-children" ++ dq ++ ">" ++ nl.

Definition sidebar_case (suite classname name : string) : string :=
  "        <div class=" ++ dq ++ "sidebar-item case-item" ++ dq ++ " " ++ "data-suite=" ++ dq ++ _escape_html suite ++ dq ++ " " ++ "data-classname=" ++ dq ++ _escape_html classname ++ dq ++ " " ++ "data-name=" ++ dq ++ _escape_html name ++ dq ++ ">" ++ nl ++
    "          <div class=" ++ dq ++ "sidebar-label" ++ dq ++ " data-type=" ++ dq ++ "case" ++ dq ++ " " ++ "data-suite=" ++ dq ++ _escape_html suite ++ dq ++ " " ++ "data-classname=" ++ dq ++ _escape_html classname ++ dq ++ " " ++ "data-name=" ++ dq ++ _escape_html name ++ dq ++ ">" ++ nl ++
    "            <span class=" ++ dq ++ "item-icon" ++ dq ++ ">üß™</span>" ++ nl ++
    "            <span class=" ++ dq ++ "item-text" ++ dq ++ ">" ++ _escape_html name ++ "</span>" ++ nl ++
    "          </div>" ++ nl ++
    "        </div>" ++ nl.

Definition sidebar_class_close : string :=
  "      </div>" ++ nl ++
    "    </div>" ++ nl.

Definition sidebar_suite_close : string :=
  "  </div>" ++ nl ++
    "</div>" ++ nl.

Definition sidebar_close : string :=
  "</div>" ++ nl ++
    "</div>" ++ nl.

Definition sidebar_names (suite classname : string) (names : list string)
    (sidebar_html : string) : string :=
  fold_left (fun sidebar_html name => sidebar_html ++ sidebar_case suite classname name)
    (sorted names) sidebar_html.

Definition sidebar_classes (structure : Structure string) (suite : string)
    (sidebar_html : string) : string :=
  fold_left
    (fun sidebar_html classname =>
       sidebar_names suite classname
         (dict_get [] (dict_get [] structure suite) classname)
         (sidebar_html ++ sidebar_class_open suite classname)
       ++ sidebar_class_close)
    (sorted (dict_keys (dict_get [] structure suite))) sidebar_html.

Definition sidebar_suites (structure : Structure string) (sidebar_html : string)
    : string :=
  fold_left
    (fun sidebar_html suite =>
       sidebar_classes structure suite (sidebar_html ++ sidebar_suite_open suite)
       ++ sidebar_suite_close)
    (sorted (dict_keys structure)) sidebar_html.

Definition _build_sidebar (data : ReportData) (title : string) : string :=
  sidebar_suites (group_names (cases data)) (sidebar_open title) ++ sidebar_close.

(* ================================================================= *)
(** ** render_html

    The page template, cut at its interpolations. *)

Definition page_head : string :=
  "<!doctype html>
<html lang=" ++ dq ++ "zh-Hant" ++ dq ++ ">
<head>
<meta charset=" ++ dq ++ "utf-8" ++ dq ++ " />
<meta name=" ++ dq ++ "viewport" ++ dq ++ " content=" ++ dq ++ "width=device-width,initial-scale=1" ++ dq ++ " />
<title>".

Definition page_style : string :=
  "</title>
<style>
  :root { --ok:#2e7d32; --skip:#8d6e63; --fail:#c62828; --err:#6a1b9a; --fg:#1f2937; --muted:#6b7280; }
  body { font-family: ui-sans-serif, system-ui, -apple-system, " ++ dq ++ "Noto Sans TC" ++ dq ++ ", Arial, " ++ dq ++ "Segoe UI" ++ dq ++ "; color: var(--fg); margin: 0; }

  /* Layout */
  .container {
    display: flex !important;
    min-height: 100vh;
    flex-direction: row !important;
    width: 100%;
    background: #f0f0f0;
  }
  .sidebar {
    width: 300px !important;
    min-width: 300px !important;
    background: #f8fafc;
    border-right: 2px solid #e2e8f0;
    overflow-y: auto;
    flex-shrink: 0 !important;
    flex-grow: 0 !important;
  }
  .main-content {
    flex: 1 !important;
    flex-grow: 1 !important;
    padding: 24px;
    overflow-x: auto;
    min-width: 0;
    background: #ffffff;
  }

  /* Sidebar Styles */
  .sidebar-header {
    padding: 16px;
    border-bottom: 1px solid #e2e8f0;
    background: #f8fafc;
  }
  .sidebar-title {
    font-weight: 600;
    font-size: 16px;
    color: #334155;
    margin-bottom: 12px;
  }
  .sidebar-search {
    position: relative;
  }
  .sidebar-search input {
    width: 100%;
    padding: 10px 12px;
    border: 1px solid #d1d5db;
    border-radius: 8px;
    background: #fff;
    font-size: 13px;
    color: #374151;
    transition: all 0.2s ease;
    box-sizing: border-box;
    font-family: inherit;
  }
  .sidebar-search input:focus {
    border-color: #2563eb;
    box-shadow: 0 0 0 3px rgba(37,99,235,0.15);
    outline: none;
    background: #fafbfc;
  }
  .sidebar-search input::placeholder {
    color: #9ca3af;
    font-style: italic;
  }
  .sidebar-content { padding: 8px; }
  .sidebar-item { margin: 2px 0; }
  .sidebar-label {
    display: flex;
    align-items: center;
    padding: 8px 12px;
    cursor: pointer;
    border-radius: 6px;
    font-size: 13px;
    transition: all 0.2s ease;
    user-select: none;
    border: 1px solid transparent;
  }
  .sidebar-label:hover {
    background: #f1f5f9;
    border-color: #e2e8f0;
  }
  .sidebar-label:active {
    background: #e2e8f0;
    transform: translateY(1px);
  }

  .collapse-icon {
    width: 16px;
    height: 16px;
    display: flex;
    align-items: center;
    justify-content: center;
    font-size: 10px;
    color: #64748b;
    margin-right: 8px;
    transition: transform 0.2s ease;
    flex-shrink: 0;
  }
  .sidebar-item.collapsed .collapse-icon {
    transform: rotate(-90deg);
  }
  .case-item .collapse-icon {
    visibility: hidden;
  }

  .item-icon {
    margin-right: 8px;
    font-size: 14px;
    flex-shrink: 0;
  }
  .item-text {
    flex: 1;
    overflow: hidden;
    text-overflow: ellipsis;
    white-space: nowrap;
    font-weight: 500;
  }

  .sidebar-children {
    margin-left: 20px;
    overflow: hidden;
    transition: all 0.3s cubic-bezier(0.4, 0, 0.2, 1);
    border-left: 2px solid #e2e8f0;
    margin-top: 4px;
    padding-left: 12px;
  }
  .sidebar-item.collapsed .sidebar-children {
    max-height: 0;
    opacity: 0;
    margin-top: 0;
    padding-top: 0;
    padding-bottom: 0;
  }

  .suite-item .sidebar-label {
    font-weight: 600;
    color: #1e40af;
    background: linear-gradient(135deg, #eff6ff 0%, #dbeafe 100%);
    border-color: #bfdbfe;
  }
  .suite-item .sidebar-label:hover {
    background: linear-gradient(135deg, #dbeafe 0%, #bfdbfe 100%);
    border-color: #93c5fd;
  }

  .class-item .sidebar-label {
    font-weight: 600;
    color: #059669;
    background: linear-gradient(135deg, #f0fdf4 0%, #dcfce7 100%);
    border-color: #bbf7d0;
  }
  .class-item .sidebar-label:hover {
    background: linear-gradient(135deg, #dcfce7 0%, #bbf7d0 100%);
    border-color: #86efac;
  }

  .case-item .sidebar-label {
    color: #374151;
    padding-left: 28px;
    background: #fff;
    border-color: #f1f5f9;
  }
  .case-item .sidebar-label:hover {
    background: #f8fafc;
    border-color: #e2e8f0;
  }

  /* Main Content Styles */
  h1 { font-size: 20px; margin: 0 0 12px; }
  .pill { padding:4px 10px; border-radius:999px; font-size:12px; background:#eef2ff; }
  .pill.ok { background:#e8f5e9; color:var(--ok); }
  .pill.fail { background:#ffebee; color:var(--fail); }
  .pill.err { background:#f3e5f5; color:var(--err); }
  .pill.skip { background:#efebe9; color:var(--skip); }
  .muted { color: var(--muted); font-size:12px; }

  /* Suite and Class Section Styles */
  .suite-section {
    margin-bottom: 24px;
    border: 1px solid #e2e8f0;
    border-radius: 12px;
    overflow: hidden;
    background: #ffffff;
    box-shadow: 0 1px 3px rgba(0,0,0,0.1);
  }

  .suite-header {
    display: flex;
    justify-content: space-between;
    align-items: center;
    padding: 16px 20px;
    background: linear-gradient(135deg, #eff6ff 0%, #dbeafe 100%);
    border-bottom: 1px solid #bfdbfe;
    cursor: pointer;
    transition: all 0.2s ease;
  }
  .suite-header:hover {
    background: linear-gradient(135deg, #dbeafe 0%, #bfdbfe 100%);
  }

  .suite-title {
    display: flex;
    align-items: center;
    font-weight: 600;
    font-size: 16px;
    color: #1e40af;
  }

  .suite-summary {
    display: flex;
    gap: 8px;
    flex-wrap: wrap;
  }

  .suite-content {
    overflow: hidden;
    transition: all 0.3s cubic-bezier(0.4, 0, 0.2, 1);
  }
  .suite-section.collapsed .suite-content {
    max-height: 0;
    opacity: 0;
    padding-top: 0;
    padding-bottom: 0;
  }

  .class-section {
    margin: 16px;
    border: 1px solid #e2e8f0;
    border-radius: 8px;
    overflow: hidden;
    background: #f8fafc;
  }

  .class-header {
    display: flex;
    justify-content: space-between;
    align-items: center;
    padding: 12px 16px;
    background: linear-gradient(135deg, #f0fdf4 0%, #dcfce7 100%);
    border-bottom: 1px solid #bbf7d0;
    cursor: pointer;
    transition: all 0.2s ease;
  }
  .class-header:hover {
    background: linear-gradient(135deg, #dcfce7 0%, #bbf7d0 100%);
  }

  .class-title {
    display: flex;
    align-items: center;
    font-weight: 600;
    font-size: 14px;
    color: #059669;
  }

  .class-summary {
    display: flex;
    gap: 6px;
    flex-wrap: wrap;
  }

  .class-content {
    overflow: hidden;
    transition: all 0.3s cubic-bezier(0.4, 0, 0.2, 1);
  }
  .class-section.collapsed .class-content {
    max-height: 0;
    opacity: 0;
    padding-top: 0;
    padding-bottom: 0;
  }

  .suite-grid, .class-grid {
    display: grid;
    grid-template-columns: 80px 2fr 1fr 1fr 100px;
    gap: 8px;
    margin: 12px 20px 4px;
    font-weight: 600;
    font-size: 13px;
    color: #374151;
    padding: 8px 12px;
    background: #f9fafb;
    border-radius: 6px;
  }

  .row {
    display: grid;
    grid-template-columns: 80px 2fr 1fr 1fr 100px;
    gap: 8px;
    padding: 10px 12px;
    border-bottom: 1px solid #e5e7eb;
    align-items: start;
    margin: 0 20px;
    background: #ffffff;
    border-radius: 4px;
    margin-bottom: 4px;
  }
  .row:hover { background:#f9fafb; }
  .row.highlighted { background: #fef3c7; border-left: 3px solid #f59e0b; }
  .status.ok { color:var(--ok); font-weight:600; }
  .status.fail { color:var(--fail); font-weight:600; }
  .status.err { color:var(--err); font-weight:600; }
  .status.skip { color:var(--skip); font-weight:600; }
  details { grid-column: 1 / -1; background:#fff; border:1px solid #e5e7eb; border-radius:8px; padding:8px 10px; }
  details pre { overflow:auto; white-space:pre-wrap; word-break:break-word; margin:10px 0 0; }
  .summary { display:flex; gap:8px; align-items:center; flex-wrap:wrap; }
  .totals { display:flex; gap:8px; flex-wrap:wrap; }
  .small { font-size:12px; }
  .nowrap { white-space:nowrap; overflow:hidden; text-overflow:ellipsis; }
  .controls { display:flex; gap:8px; flex-wrap:wrap; align-items:center; margin: 8px 0 16px; }

  /* Search and Filter Styles */
  input[type=" ++ dq ++ "search" ++ dq ++ "] {
    padding: 6px 10px;
    border: 1px solid #d1d5db;
    border-radius: 6px;
    background-color: #fff;
    font-family: inherit;
    font-size: 14px;
    color: #374151;
    line-height: 1.5;
    transition: border-color 0.2s, box-shadow 0.2s;
  }

  input[type=" ++ dq ++ "search" ++ dq ++ "]:focus {
    border-color: #2563eb;
    box-shadow: 0 0 0 2px rgba(37,99,235,0.2);
    outline: none;
  }

  input[type=" ++ dq ++ "search" ++ dq ++ "]:hover {
    border-color: #9ca3af;
  }

  select {
    padding: 6px 28px 6px 10px;
    border: 1px solid #d1d5db;
    border-radius: 6px;
    background-color: #fff;
    font-family: inherit;
    font-size: 14px;
    color: #374151;
    line-height: 1.5;
    appearance: none;
    -webkit-appearance: none;
    -moz-appearance: none;
    background-image: url(" ++ dq ++ "data:image/svg+xml;base64,PHN2ZyBmaWxsPSJub25lIiBzdHJva2U9IiM2YjcyODAiIHN0cm9rZS13aWR0aD0iMiIgdmlld0JveD0iMCAwIDI0IDI0IiB4bWxucz0iaHR0cDovL3d3dy53My5vcmcvMjAwMC9zdmciPjxwYXRoIGQ9Ik02IDlsNiA2IDYtNiIvPjwvc3ZnPg==" ++ dq ++ ");
    background-repeat: no-repeat;
    background-position: right 8px center;
    background-size: 16px;
    transition: border-color 0.2s, box-shadow 0.2s;
  }

  select:focus {
    border-color: #2563eb;
    box-shadow: 0 0 0 2px rgba(37,99,235,0.2);
    outline: none;
  }

  select:hover {
    border-color: #9ca3af;
  }

  select option {
    padding: 6px 10px;
    font-size: 14px;
  }

  select option:hover {
    background-color: #f3f4f6;
  }

  /* Row Details */
  .row.has-details { cursor: pointer; }
  .row.has-details:focus { outline: 2px solid #c7d2fe; outline-offset: 2px; }
  .case-details { display:none; grid-column: 1 / -1; background:#fff; border:1px solid #e5e7eb; border-radius:8px; padding:10px 12px; margin-top:8px; }
  .row.expanded .case-details { display:block; }
  .case-details pre { overflow:auto; white-space:pre-wrap; word-break:break-word; margin:10px 0 0; }
  .detail-head { display:flex; gap:8px; align-items:center; flex-wrap:wrap; font-weight:600; }
  .detail-msg { color:#374151; }

  /* Responsive */
  @media (max-width: 768px) {
    .container { flex-direction: column; }
    .sidebar { width: 100%; max-height: 200px; }
    .main-content { padding: 16px; }
    .suite-header, .class-header {
      flex-direction: column;
      align-items: flex-start;
      gap: 8px;
    }
    .suite-summary, .class-summary {
      justify-content: flex-start;
    }
  }
</style>
</head>
<body>
  <div class=" ++ dq ++ "container" ++ dq ++ ">
    ".

Definition page_body_open : string :=
  "

  </div>
  <div class=" ++ dq ++ "main-content" ++ dq ++ ">
    <h1>".

Definition page_title_close : string :=
  "</h1>
    <div class=" ++ dq ++ "muted small" ++ dq ++ ">Generate Time : ".

Definition page_totals_open : string :=
  "</div>

    <div class=" ++ dq ++ "totals" ++ dq ++ " style=" ++ dq ++ "margin-top:10px;" ++ dq ++ ">
      <span class=" ++ dq ++ "pill" ++ dq ++ ">Suite : ".

Definition pill_tests : string :=
  "</span>
      <span class=" ++ dq ++ "pill" ++ dq ++ ">Test : ".

Definition pill_pass : string :=
  "</span>
      <span class=" ++ dq ++ "pill ok" ++ dq ++ ">PASS : ".

Definition pill_fail : string :=
  "</span>
      <span class=" ++ dq ++ "pill fail" ++ dq ++ ">FAIL : ".

Definition pill_err : string :=
  "</span>
      <span class=" ++ dq ++ "pill err" ++ dq ++ ">ERROR : ".

Definition pill_skip : string :=
  "</span>
      <span class=" ++ dq ++ "pill skip" ++ dq ++ ">SKIP : ".

Definition pill_time : string :=
  "</span>
      <span class=" ++ dq ++ "pill" ++ dq ++ ">Elapse Time : ".

Definition page_controls : string :=
  "</span>
    </div>
    <div class=" ++ dq ++ "controls" ++ dq ++ ">
      <input id=" ++ dq ++ "search" ++ dq ++ " type=" ++ dq ++ "search" ++ dq ++ " placeholder=" ++ dq ++ "Search : Category/Name/Message..." ++ dq ++ " />
      <select id=" ++ dq ++ "status-filter" ++ dq ++ " title=" ++ dq ++ "Status Filter" ++ dq ++ ">
        <option value=" ++ dq ++ dq ++ ">ALL</option>
        <option value=" ++ dq ++ "ok" ++ dq ++ ">PASS</option>
        <option value=" ++ dq ++ "fail" ++ dq ++ ">FAIL</option>
        <option value=" ++ dq ++ "err" ++ dq ++ ">ERROR</option>
        <option value=" ++ dq ++ "skip" ++ dq ++ ">SKIP</option>
      </select>
      <select id=" ++ dq ++ "sort" ++ dq ++ " title=" ++ dq ++ "Sort" ++ dq ++ ">
        <option value=" ++ dq ++ "status" ++ dq ++ ">Status</option>
        <option value=" ++ dq ++ "time" ++ dq ++ ">Elapse Time(Long -> Short)</option>
        <option value=" ++ dq ++ "name" ++ dq ++ ">TestName</option>
      </select>
    </div>

    <div id=" ++ dq ++ "content" ++ dq ++ ">
      ".

Definition page_script : string :=
  "
    </div>
  </div>

<script>
(function(){
  const searchEl = document.getElementById('search');
  const filterEl = document.getElementById('status-filter');
  const sortEl = document.getElementById('sort');
  const contentEl = document.getElementById('content');

  // collect all rows into an in-memory array for filtering/sorting
  const rows = [...contentEl.querySelectorAll('.row')].map(r => {
    const cells = r.querySelectorAll(':scope > div');
    const container = r.closest('.class-content');
    const statusKey = labelToKey(cells[0].textContent.trim());
    return {
      el: r,
      container: container,
      statusKey: statusKey,
      status: cells[0].textContent.trim(),
      name: cells[1].textContent.trim().toLowerCase(),
      classname: cells[2].textContent.trim().toLowerCase(),
      suite: cells[3].textContent.trim().toLowerCase(),
      time: parseFloat(cells[4].textContent.trim().replace('s','')) || 0
    };
  });

  function labelToKey(s){ return s==='PASS'?'ok': s==='FAIL'?'fail' : s==='ERROR'?'err' : s==='SKIP'?'skip':''; }

  function apply(){
    const q = (searchEl.value || '').trim().toLowerCase();
    const statusFilter = filterEl.value;
    const sortBy = sortEl.value;

    // switch
    rows.forEach(r => {
      const inSearch = !q || (r.name.includes(q) || r.classname.includes(q) || r.suite.includes(q) || (r.el.textContent || '').toLowerCase().includes(q));
      const inStatus = !statusFilter || r.statusKey === statusFilter;
      r.el.style.display = (inSearch && inStatus) ? '' : 'none';
    });

    // aquire
    const containers = new Set(rows.map(r => r.container));

    // sort in vis
    containers.forEach(container => {
      if (!container) return;

      // gain rows
      const visibleRows = rows.filter(r => r.container === container && r.el.style.display !== 'none');

      // sort
      visibleRows.sort((a, b) => {
        if (sortBy === 'time') return (b.time || 0) - (a.time || 0);
        if (sortBy === 'name') return (a.name || '').localeCompare(b.name || '');
        // status sortÔºöERROR(0) < FAIL(1) < SKIP(2) < PASS(3)
        const statusOrder = { 'err': 0, 'fail': 1, 'skip': 2, 'ok': 3 };
        return (statusOrder[a.statusKey] - statusOrder[b.statusKey]) || (b.time - a.time);
      });

      // reduce reflow
      const fragment = document.createDocumentFragment();
      visibleRows.forEach(row => fragment.appendChild(row.el));
      container.appendChild(fragment);
    });

    // collapse
    document.querySelectorAll('.class-section').forEach(classSection => {
      const hasVisibleRows = classSection.querySelectorAll('.row[style*=" ++ dq ++ "display: none" ++ dq ++ "]').length <
                            classSection.querySelectorAll('.row').length;

      if (hasVisibleRows) {
        classSection.style.display = '';
        classSection.classList.remove('collapsed');
      } else {
        classSection.style.display = 'none';
      }
    });

    // suite-section vis
    document.querySelectorAll('.suite-section').forEach(suiteSection => {
      const hasVisibleClassSections = suiteSection.querySelectorAll('.class-section[style*=" ++ dq ++ "display: none" ++ dq ++ "]').length <
                                     suiteSection.querySelectorAll('.class-section').length;

      if (hasVisibleClassSections) {
        suiteSection.style.display = '';
        suiteSection.classList.remove('collapsed');
      } else {
        suiteSection.style.display = 'none';
      }
    });
  }

  function bindRowToggle() {
    const rowEls = contentEl.querySelectorAll('.row.has-details');
    rowEls.forEach(r => {
      const toggle = () => {
        const expanded = r.classList.toggle('expanded');
        r.setAttribute('aria-expanded', expanded ? 'true' : 'false');
      };
      r.addEventListener('click', (e) => {
        if (e.target.closest('.case-details')) return;
        toggle();
      });
      r.addEventListener('keydown', (e) => {
        if (e.key === 'Enter' || e.key === ' ') {
          e.preventDefault();
          toggle();
        }
      });
    });
  }

  function bindMainContentCollapse() {
    // Handle suite collapse/expand
    const suiteHeaders = document.querySelectorAll('.suite-header');
    suiteHeaders.forEach(header => {
      header.addEventListener('click', (e) => {
        e.stopPropagation();
        const suiteSection = header.closest('.suite-section');
        suiteSection.classList.toggle('collapsed');
      });
    });

    // Handle class collapse/expand
    const classHeaders = document.querySelectorAll('.class-header');
    classHeaders.forEach(header => {
      header.addEventListener('click', (e) => {
        e.stopPropagation();
        const classSection = header.closest('.class-section');
        classSection.classList.toggle('collapsed');
      });
    });
  }

  function bindSidebarNavigation() {
    const sidebarItems = document.querySelectorAll('.sidebar-item');

    sidebarItems.forEach(item => {
      item.addEventListener('click', (e) => {
        e.stopPropagation();

        // Handle collapse/expand for suite and class items
        const label = e.target.closest('.sidebar-label');
        if (label && (label.getAttribute('data-type') === 'suite' || label.getAttribute('data-type') === 'class')) {
          const parentItem = label.closest('.sidebar-item');
          parentItem.classList.toggle('collapsed');
          return;
        }

        // Handle navigation for all items
        // Remove previous highlights
        document.querySelectorAll('.row.highlighted').forEach(row => {
          row.classList.remove('highlighted');
        });

        const suite = item.getAttribute('data-suite');
        const classname = item.getAttribute('data-classname');
        const name = item.getAttribute('data-name');

        // Find matching rows
        document.querySelectorAll('.row').forEach(row => {
          const rowSuite = row.getAttribute('data-suite');
          const rowClassname = row.getAttribute('data-classname');
          const rowName = row.getAttribute('data-name');

          let match = false;
          if (name && classname && suite) {
            // Test case level
            match = rowSuite === suite && rowClassname === classname && rowName === name;
          } else if (classname && suite) {
            // Class level
            match = rowSuite === suite && rowClassname === classname;
          } else if (suite) {
            // Suite level
            match = rowSuite === suite;
          }

          if (match) {
            row.classList.add('highlighted');
            row.scrollIntoView({ behavior: 'smooth', block: 'center' });
          }
        });
      });
    });
  }

  function bindSidebarSearch() {
    const searchInput = document.querySelector('.sidebar-search input');
    const sidebarItems = document.querySelectorAll('.sidebar-item');
    const suiteSections = document.querySelectorAll('.suite-section');
    const classSections = document.querySelectorAll('.class-section');
    const rows = document.querySelectorAll('.row');

    searchInput.addEventListener('input', (e) => {
      const query = e.target.value.toLowerCase().trim();

      // Reset all sections to visible first
      suiteSections.forEach(section => {
        section.style.display = '';
        section.classList.remove('collapsed');
      });

      classSections.forEach(section => {
        section.style.display = '';
        section.classList.remove('collapsed');
      });

      // Reset sidebar items
      sidebarItems.forEach(item => {
        item.style.display = '';
        item.classList.remove('collapsed');
      });

      // Reset all rows to visible
      rows.forEach(row => {
        row.style.display = '';
      });

      if (query === '') {
        // If no search query, show everything
        return;
      }

      // Track which suites, classes, and cases have matches
      const matchingSuites = new Set();
      const matchingClasses = new Set();
      const matchingCases = new Set();

      // Check sidebar items for matches
      sidebarItems.forEach(item => {
        const label = item.querySelector('.sidebar-label');
        const text = label.textContent.toLowerCase();
        const hasMatch = text.includes(query);

        if (hasMatch) {
          const suite = item.getAttribute('data-suite');
          const classname = item.getAttribute('data-classname');
          const name = item.getAttribute('data-name');

          if (suite) {
            matchingSuites.add(suite);
            if (classname) {
              matchingClasses.add(suite + ':' + classname);
              if (name) {
                matchingCases.add(suite + ':' + classname + ':' + name);
              }
            }
          }
        }
      });

      // Check main content rows for matches
      rows.forEach(row => {
        const suite = row.getAttribute('data-suite');
        const classname = row.getAttribute('data-classname');
        const name = row.getAttribute('data-name');
        const rowText = row.textContent.toLowerCase();
        const hasMatch = rowText.includes(query);

        if (hasMatch && suite && classname) {
          matchingSuites.add(suite);
          matchingClasses.add(suite + ':' + classname);
          if (name) {
            matchingCases.add(suite + ':' + classname + ':' + name);
          }
        }
      });

      // Show/hide suite sections based on matches
      suiteSections.forEach(section => {
        const suiteName = section.getAttribute('data-suite');
        const hasMatch = matchingSuites.has(suiteName);

        if (hasMatch) {
          section.style.display = '';
          section.classList.remove('collapsed');
        } else {
          section.style.display = 'none';
        }
      });

      // Show/hide class sections based on matches
      classSections.forEach(section => {
        const suiteName = section.getAttribute('data-suite');
        const className = section.getAttribute('data-classname');
        const classKey = suiteName + ':' + className;
        const hasMatch = matchingClasses.has(classKey);

        if (hasMatch) {
          section.style.display = '';
          section.classList.remove('collapsed');
        } else {
          section.style.display = 'none';
        }
      });

      // Show/hide rows based on matches
      rows.forEach(row => {
        const suite = row.getAttribute('data-suite');
        const classname = row.getAttribute('data-classname');
        const name = row.getAttribute('data-name');

        let shouldShow = false;

        if (suite && classname && name) {
          // Case level: only show if case matches
          const caseKey = suite + ':' + classname + ':' + name;
          shouldShow = matchingCases.has(caseKey);
        } else if (suite && classname) {
          // Class level: show all cases in this class
          const classKey = suite + ':' + classname;
          shouldShow = matchingClasses.has(classKey);
        } else if (suite) {
          // Suite level: show all cases in this suite
          shouldShow = matchingSuites.has(suite);
        }

        // Hide the row if it shouldn't be shown
        if (!shouldShow) {
          row.style.display = 'none';
        } else {
          row.style.display = '';
          // Ensure the row is visible within its proper structure
          const parentClassSection = row.closest('.class-section');
          if (parentClassSection) {
            parentClassSection.style.display = '';
            parentClassSection.classList.remove('collapsed');
          }
          const parentSuiteSection = row.closest('.suite-section');
          if (parentSuiteSection) {
            parentSuiteSection.style.display = '';
            parentSuiteSection.classList.remove('collapsed');
          }
        }
      });

      // Update sidebar visibility
      sidebarItems.forEach(item => {
        const suite = item.getAttribute('data-suite');
        const classname = item.getAttribute('data-classname');
        const name = item.getAttribute('data-name');

        let shouldShow = false;

        if (item.classList.contains('suite-item')) {
          shouldShow = matchingSuites.has(suite);
        } else if (item.classList.contains('class-item')) {
          const classKey = suite + ':' + classname;
          shouldShow = matchingClasses.has(classKey);
        } else if (item.classList.contains('case-item')) {
          const caseKey = suite + ':' + classname + ':' + name;
          shouldShow = matchingCases.has(caseKey);
        }

        if (shouldShow) {
          item.style.display = '';
          // Show parent items
          let parent = item.parentElement.closest('.sidebar-item');
          while (parent) {
            parent.style.display = '';
            parent.classList.remove('collapsed');
            parent = parent.parentElement.closest('.sidebar-item');
          }
        } else {
          item.style.display = 'none';
        }
      });
    });
  }

  // Initialize
  bindRowToggle();
  bindMainContentCollapse();
  bindSidebarNavigation();
  bindSidebarSearch();

  searchEl.addEventListener('input', apply);
  document.querySelector('.sidebar-search input').addEventListener('input', apply);
  filterEl.addEventListener('change', apply);
  sortEl.addEventListener('change', apply);
})();
</script>

</body>
</html>
".

(** [now] is [datetime.now()] formatted, read once per rendering. *)
Definition render_html (now : string) (data : ReportData) (title : string)
    : result string :=
  let t := totals data in
  main_content_html <- _build_main_content data ;;
  let sidebar_html := _build_sidebar data title in
  elapsed <- seconds_fmt (t_time t) ;;
  Ok (page_head ++ _escape_html title ++ page_style ++ sidebar_html ++ page_body_open ++ _escape_html title ++ page_title_close ++ _escape_html now ++ page_totals_open ++ str_of_int (t_suites t) ++ pill_tests ++ str_of_int (t_tests t) ++ pill_pass ++ str_of_int (t_passed t) ++ pill_fail ++ str_of_int (t_failures t) ++ pill_err ++ str_of_int (t_errors t) ++ pill_skip ++ str_of_int (t_skipped t) ++ pill_time ++ elapsed ++ page_controls ++ main_content_html ++ page_script).

(* ================================================================= *)
(** ** main *)

(** The parsed command line. *)
Record Args : Type := {
  inputs : list string;
  output : string;     (* -o/--output, default junit-report.html *)
  title : string       (* --title, default JUnit Report *)
}.

(** What the run depends on: the input files, the clock, and whether a
    path can be opened for writing. *)
Record World : Type := {
  fromfile : Files;
  now : string;
  can_write : string -> bool
}.

(** What the run does to the outside. *)
Inductive Event : Type :=
| FileWritten (path content : string)
| Printed (line : string).

Definition summary_line (totals : ReportTotals) : string :=
  let passed := t_tests totals - t_failures totals - t_errors totals - t_skipped totals in
  "Suites: " ++ str_of_int (t_suites totals) ++ ", Tests: " ++ str_of_int (t_tests totals) ++ ", " ++
  "Passed: " ++ str_of_int passed ++ ", Failures: " ++ str_of_int (t_failures totals) ++ ", " ++
  "Errors: " ++ str_of_int (t_errors totals) ++ ", Skipped: " ++ str_of_int (t_skipped totals).

(** The events of the run, in order, and the exception that ended it, if
    any.  Opening the output for writing and writing the whole text are
    taken as one step: a write or a print that fails once the file is
    open is outside this model, as is a read of an attribute that raises
    during the parse (see [Files]).  What the model keeps is the order of
    the source: parse, render, and only then open. *)
Definition main (w : World) (args : Args) : list Event * option exn :=
  match parse_files (fromfile w) (inputs args) with
  | Raise e => ([], Some e)
  | Ok data =>
      match render_html (now w) data (title args) with
      | Raise e => ([], Some e)
      | Ok html_str =>
          if can_write w (output args) then
            ([FileWritten (output args) html_str;
              Printed ("[V] Wrote " ++ output args);
              Printed (summary_line (totals data))], None)
          else ([], Some (IOError (output args)))
      end
  end.

(* ================================================================= *)
(** * Properties *)

(* ================================================================= *)
(** ** What parse_files computes *)

(** The records of the test cases of one suite, in document order. *)
Definition suite_records (p : string) (suite : TestSuite) : list TestCaseRecord :=
  flat_map (fun child =>
              match child with
              | CaseElem case => [case_record (suite_name p suite) case]
              | OtherElem => []
              end) (ts_children suite).

Definition file_summaries (px : string * list TestSuite) : list SuiteSummary :=
  map (suite_summary (fst px)) (snd px).

Definition file_records (px : string * list TestSuite) : list TestCaseRecord :=
  flat_map (suite_records (fst px)) (snd px).

(** Every path with its suites, when every path can be read. *)
Fixpoint load (fromfile : Files) (paths : list string)
    : option (list (string * list TestSuite)) :=
  match paths with
  | [] => Some []
  | p :: rest =>
      match fromfile p, load fromfile rest with
      | Some xml, Some pxs => Some ((p, xml) :: pxs)
      | _, _ => None
      end
  end.

Lemma case_loop_spec sname children case_rows :
  fold_left (case_step sname) children case_rows =
  (case_rows ++ flat_map (fun child =>
                            match child with
                            | CaseElem case => [case_record sname case]
                            | OtherElem => []
                            end) children)%list.
Proof.
  revert case_rows.
  induction children as [|child children IH]; intros case_rows; simpl.
  - now rewrite app_nil_r.
  - rewrite IH. destruct child; simpl.
    + now rewrite <- app_assoc.
    + reflexivity.
Qed.

Lemma suite_loop_spec p xml suites_data case_rows :
  fold_left (suite_step p) xml (suites_data, case_rows) =
  ((suites_data ++ file_summaries (p, xml))%list,
   (case_rows ++ file_records (p, xml))%list).
Proof.
  revert suites_data case_rows.
  induction xml as [|suite xml IH]; intros suites_data case_rows.
  - unfold file_summaries, file_records. simpl. now rewrite !app_nil_r.
  - cbn [fold_left suite_step]. rewrite case_loop_spec, IH.
    unfold file_summaries, file_records, suite_records. simpl.
    now rewrite <- !app_assoc.
Qed.

Lemma parse_loop_ok fromfile paths pxs suites_data case_rows :
  load fromfile paths = Some pxs ->
  parse_loop fromfile paths (suites_data, case_rows) =
  Ok ((suites_data ++ flat_map file_summaries pxs)%list,
      (case_rows ++ flat_map file_records pxs)%list).
Proof.
  revert pxs suites_data case_rows.
  induction paths as [|p paths IH]; intros pxs suites_data case_rows Hload.
  - injection Hload as <-. simpl. now rewrite !app_nil_r.
  - simpl in Hload. simpl.
    destruct (fromfile p) as [xml|]; [|discriminate].
    destruct (load fromfile paths) as [pxs'|]; [|discriminate].
    injection Hload as <-.
    rewrite suite_loop_spec, (IH pxs') by reflexivity.
    simpl. now rewrite <- !app_assoc.
Qed.

Lemma parse_loop_raise fromfile paths acc :
  load fromfile paths = None ->
  exists p, In p paths /\ fromfile p = None /\
            parse_loop fromfile paths acc = Raise (ParseError p).
Proof.
  revert acc.
  induction paths as [|p paths IH]; intros acc Hload; [discriminate|].
  simpl in Hload. simpl.
  destruct (fromfile p) as [xml|] eqn:Hp.
  - destruct (load fromfile paths) as [pxs'|] eqn:Hl; [discriminate|].
    destruct (IH (fold_left (suite_step p) xml acc) eq_refl) as (q & Hin & Hq & Hr).
    exists q. auto.
  - exists p. auto.
Qed.

Lemma load_some_iff fromfile paths :
  (exists pxs, load fromfile paths = Some pxs) <->
  (forall p, In p paths -> fromfile p <> None).
Proof.
  induction paths as [|p paths IH]; simpl.
  - split; [intros _ q []|eauto].
  - split.
    + intros (pxs & H) q [<-|Hq].
      * destruct (fromfile p); [discriminate|].
        discriminate.
      * destruct (fromfile p); [|discriminate].
        destruct (load fromfile paths) as [pxs'|]; [|discriminate].
        apply IH; eauto.
    + intros H. destruct (fromfile p) as [xml|] eqn:Hp.
      * destruct (proj2 IH) as (pxs' & ->); eauto.
      * exfalso. apply (H p); auto.
Qed.

(** [parse_files] returns the summaries and the records of all the suites
    in the order of the paths, or raises on the first unreadable path. *)
Lemma parse_files_ok fromfile paths pxs :
  load fromfile paths = Some pxs ->
  parse_files fromfile paths =
  Ok {| suites := flat_map file_summaries pxs;
        cases := flat_map file_records pxs;
        totals := make_totals (flat_map file_summaries pxs) |}.
Proof.
  intros H. unfold parse_files.
  now rewrite (parse_loop_ok _ _ _ _ _ H).
Qed.

Lemma parse_files_raise fromfile paths :
  load fromfile paths = None ->
  exists p, In p paths /\ fromfile p = None /\
            parse_files fromfile paths = Raise (ParseError p).
Proof.
  intros H. unfold parse_files.
  destruct (parse_loop_raise fromfile paths ([], []) H) as (p & Hin & Hp & ->).
  exists p. auto.
Qed.

Lemma parse_files_inv fromfile paths data :
  parse_files fromfile paths = Ok data ->
  exists pxs, load fromfile paths = Some pxs /\
    data = {| suites := flat_map file_summaries pxs;
              cases := flat_map file_records pxs;
              totals := make_totals (flat_map file_summaries pxs) |}.
Proof.
  intros H. destruct (load fromfile paths) as [pxs|] eqn:Hl.
  - exists pxs. split; [reflexivity|].
    rewrite (parse_files_ok _ _ _ Hl) in H. now injection H.
  - destruct (parse_files_raise _ _ Hl) as (p & _ & _ & Hr).
    rewrite Hr in H. discriminate.
Qed.

(* ================================================================= *)
(** ** Status classification *)

Definition kind_eqb (a b : ResultKind) : bool :=
  match a, b with
  | Failure, Failure | Error, Error | Skipped, Skipped
  | OtherResult, OtherResult => true
  | _, _ => false
  end.

Definition has_kind (k : ResultKind) (rs : list Result) : bool :=
  existsb (fun r => kind_eqb (r_kind r) k) rs.

(** The precedence in the spec's words: any failure, else any error,
    else skipped, else pass. *)
Definition precedence_status (rs : list Result) : Status :=
  if has_kind Failure rs then St_fail
  else if has_kind Error rs then St_err
  else if has_kind Skipped rs then St_skip
  else St_ok.

(** An entry the loop of [_get_test_status] returns on. *)
Definition decisive (r : Result) : bool :=
  match r_kind r with
  | OtherResult => false
  | _ => true
  end.

Definition status_of_kind (k : ResultKind) : Status :=
  match k with
  | Failure => St_fail
  | Error => St_err
  | Skipped => St_skip
  | OtherResult => St_ok
  end.

Definition plain_result (k : ResultKind) : Result :=
  {| r_kind := k; r_message := None; r_text := None |}.

(** A test case with an [<error>] child followed by a [<failure>] child. *)
Definition error_then_failure : TestCase :=
  {| tc_classname := Some "pkg.T"; tc_name := Some "t";
     tc_time := None;
     tc_result := [plain_result Error; plain_result Failure] |}.

Lemma status_loop_first rs :
  status_loop rs =
  match find decisive rs with
  | Some r => status_of_kind (r_kind r)
  | None => St_ok
  end.
Proof.
  induction rs as [|r rs IH]; simpl; [reflexivity|].
  unfold decisive at 1.
  destruct (r_kind r) eqn:E; simpl; rewrite ?E; auto.
Qed.

(** C2, as stated, fails: with an error entry before a failure entry the
    status is [err], although a failure is present. *)
Lemma C2_error_listed_first :
  has_kind Failure (tc_result error_then_failure) = true /\
  has_kind Error (tc_result error_then_failure) = true /\
  _get_test_status error_then_failure = St_err /\
  _get_test_status error_then_failure
    <> precedence_status (tc_result error_then_failure).
Proof.
  repeat split; try reflexivity. discriminate.
Qed.

(** C2, amended: the status of a case is decided by its first result
    entry that is a failure, an error or a skip (fail, err and skip
    respectively), and is pass when there is none; for a case with at
    most one result entry this is the precedence the spec states. *)
Theorem C2_first_result_decides (case : TestCase) :
  _get_test_status case =
    match find decisive (tc_result case) with
    | Some r => status_of_kind (r_kind r)
    | None => St_ok
    end
  /\ ((List.length (tc_result case) <= 1)%nat ->
      _get_test_status case = precedence_status (tc_result case)).
Proof.
  split.
  - apply status_loop_first.
  - unfold _get_test_status. destruct (tc_result case) as [|r [|r' rs]]; simpl.
    + reflexivity.
    + intros _. unfold precedence_status, has_kind. simpl.
      destruct (r_kind r); reflexivity.
    + intros H. inversion H as [|? H']. inversion H'.
Qed.

Lemma C2_first_result_decides_witness :
  _get_test_status error_then_failure = St_err /\
  ((List.length (tc_result (Build_TestCase None None None [plain_result Skipped])) <= 1)%nat /\
   _get_test_status (Build_TestCase None None None [plain_result Skipped]) = St_skip).
Proof.
  split.
  - exact (proj1 (C2_first_result_decides error_then_failure)).
  - split; [simpl; lia|].
    apply (proj2 (C2_first_result_decides
                    (Build_TestCase None None None [plain_result Skipped]))).
    simpl; lia.
Defined.

(* ================================================================= *)
(** ** A suite whose numeric attributes are empty *)

(** A suite named bare with two test cases, all of whose numeric
    attributes read as [None] (each is present, with an empty text). *)
Definition bare_suite : TestSuite :=
  {| ts_name := Some "bare"; ts_tests := None; ts_failures := None;
     ts_errors := None; ts_skipped := None; ts_disabled := None;
     ts_time := None;
     ts_children :=
       [CaseElem (Build_TestCase None (Some "t1") None []);
        CaseElem (Build_TestCase None (Some "t2") None [plain_result Failure])] |}.

Definition bare_files : Files :=
  fun p => if String.eqb p "bare.xml" then Some [bare_suite] else None.

(* ================================================================= *)
(** ** A failed parse leaves nothing behind *)

Definition one_bad_world : World :=
  {| fromfile := bare_files; now := "2025-01-01 00:00:00";
     can_write := fun _ => true |}.

Definition one_bad_args : Args :=
  {| inputs := ["bare.xml"; "missing.xml"]; output := "junit-report.html";
     title := "JUnit Report" |}.

(** C9: when an input path cannot be parsed the run ends with the parse
    error of such a path and has had no effect: no file was written and
    nothing was printed.  In every run, either there is no effect at all,
    or the complete rendered report was written, once, to the output
    path. *)
Theorem C9_parse_failure_is_atomic (w : World) (args : Args) :
  ((exists p, In p (inputs args) /\ fromfile w p = None) ->
   exists p, In p (inputs args) /\ fromfile w p = None /\
             main w args = ([], Some (ParseError p)))
  /\ (fst (main w args) = []
      \/ exists data html_str,
           parse_files (fromfile w) (inputs args) = Ok data /\
           render_html (now w) data (title args) = Ok html_str /\
           main w args =
             ([FileWritten (output args) html_str;
               Printed ("[V] Wrote " ++ output args);
               Printed (summary_line (totals data))], None)).
Proof.
  split.
  - intros (p & Hin & Hp).
    destruct (load (fromfile w) (inputs args)) as [pxs|] eqn:Hl.
    + exfalso. revert Hp.
      apply (proj1 (load_some_iff (fromfile w) (inputs args))); eauto.
    + destruct (parse_files_raise _ _ Hl) as (q & Hq & Hnone & Hr).
      exists q. unfold main. rewrite Hr. repeat split; assumption.
  - unfold main.
    destruct (parse_files (fromfile w) (inputs args)) as [data|e] eqn:Hparse.
    2: { left. reflexivity. }
    destruct (render_html (now w) data (title args)) as [html_str|e] eqn:Hrender.
    2: { left. reflexivity. }
    destruct (can_write w (output args)).
    2: { left. reflexivity. }
    right. exists data, html_str. repeat split. exact Hrender.
Qed.

Lemma C9_parse_failure_is_atomic_witness :
  (exists p, In p (inputs one_bad_args) /\ fromfile one_bad_world p = None)
  /\ (exists p, In p (inputs one_bad_args) /\ fromfile one_bad_world p = None /\
                main one_bad_world one_bad_args = ([], Some (ParseError p))).
Proof.
  assert (H : exists p, In p (inputs one_bad_args) /\ fromfile one_bad_world p = None).
  { exists "missing.xml". split; [simpl; auto|reflexivity]. }
  split; [exact H|].
  exact (proj1 (C9_parse_failure_is_atomic one_bad_world one_bad_args) H).
Defined.

(* ================================================================= *)
(** ** Dictionaries and the grouping of the cases *)

Section DictFacts.
Context {V : Type}.
Implicit Types (d : dict V) (k : string) (v : V).

Lemma dict_get_set_same dflt d k v : dict_get dflt (dict_set d k v) k = v.
Proof.
  induction d as [|[k' v'] d IH]; simpl.
  - now rewrite String.eqb_refl.
  - destruct (String.eqb k k') eqn:E; simpl; rewrite E; auto.
Qed.

Lemma dict_get_set_other dflt d k k' v :
  k <> k' -> dict_get dflt (dict_set d k v) k' = dict_get dflt d k'.
Proof.
  intros Hne. induction d as [|[k0 v0] d IH]; simpl.
  - destruct (String.eqb k' k) eqn:E; [|reflexivity].
    apply String.eqb_eq in E. congruence.
  - destruct (String.eqb k k0) eqn:E; simpl.
    + apply String.eqb_eq in E. subst k0.
      destruct (String.eqb k' k) eqn:E'; [|reflexivity].
      apply String.eqb_eq in E'. congruence.
    + now rewrite IH.
Qed.

Lemma dict_mem_In d k : dict_mem d k = true <-> In k (dict_keys d).
Proof.
  induction d as [|[k' v'] d IH]; simpl.
  - split; [discriminate|tauto].
  - destruct (String.eqb k k') eqn:E.
    + apply String.eqb_eq in E. subst. tauto.
    + apply String.eqb_neq in E. rewrite IH. split; [tauto|].
      intros [H|H]; [congruence|assumption].
Qed.

Lemma dict_mem_false d k : dict_mem d k = false <-> ~ In k (dict_keys d).
Proof.
  rewrite <- dict_mem_In. destruct (dict_mem d k); split; congruence.
Qed.

Lemma dict_get_absent dflt d k : dict_mem d k = false -> dict_get dflt d k = dflt.
Proof.
  induction d as [|[k' v'] d IH]; simpl; [reflexivity|].
  destruct (String.eqb k k'); [discriminate|assumption].
Qed.

Lemma dict_keys_set d k v :
  dict_keys (dict_set d k v) =
  if dict_mem d k then dict_keys d else (dict_keys d ++ [k])%list.
Proof.
  induction d as [|[k' v'] d IH]; simpl; [reflexivity|].
  destruct (String.eqb k k') eqn:E; simpl; [reflexivity|].
  rewrite IH. now destruct (dict_mem d k).
Qed.

Lemma dict_set_set d k v v' : dict_set (dict_set d k v) k v' = dict_set d k v'.
Proof.
  induction d as [|[k' v0] d IH]; simpl.
  - now rewrite String.eqb_refl.
  - destruct (String.eqb k k') eqn:E; simpl; rewrite E; [reflexivity|].
    now rewrite IH.
Qed.

Lemma dict_keys_set_NoDup d k v :
  NoDup (dict_keys d) -> NoDup (dict_keys (dict_set d k v)).
Proof.
  intros H. rewrite dict_keys_set. destruct (dict_mem d k) eqn:E; [assumption|].
  apply dict_mem_false in E.
  apply NoDup_rev in H. rewrite <- (rev_involutive (_ ++ _)%list).
  apply NoDup_rev. rewrite rev_app_distr. simpl. constructor; [|assumption].
  now rewrite <- in_rev.
Qed.

Lemma dict_keys_set_In d k v k' :
  In k' (dict_keys (dict_set d k v)) <-> In k' (dict_keys d) \/ k' = k.
Proof.
  rewrite dict_keys_set. destruct (dict_mem d k) eqn:E.
  - apply dict_mem_In in E. split; [tauto|]. intros [H| ->]; assumption.
  - rewrite in_app_iff. simpl. split; [intros [H|[H|[]]]; auto|].
    intros [H|H]; auto.
Qed.

End DictFacts.

(** The value of a two-level lookup, [[]] for an absent key. *)
Definition lookup2 {A : Type} (st : Structure A) (suite classname : string)
    : list A :=
  dict_get [] (dict_get [] st suite) classname.

(** The effect of [group_step], either level created on demand. *)
Definition add2 {A : Type} (st : Structure A) (s c : string) (x : A)
    : Structure A :=
  dict_set st s (dict_set (dict_get [] st s) c (lookup2 st s c ++ [x])%list).

(** The grouping loop, from any structure, storing [val case]. *)
Definition group_with {A : Type} (val : TestCaseRecord -> A)
    (cases : list TestCaseRecord) (st : Structure A) : Structure A :=
  fold_left (fun st case => group_step (c_suite case) (class_key case) (val case) st)
    cases st.

Definition in_suite (s : string) (x : TestCaseRecord) : bool :=
  String.eqb (c_suite x) s.

Definition in_class (s c : string) (x : TestCaseRecord) : bool :=
  String.eqb (c_suite x) s && String.eqb (class_key x) c.

Lemma group_step_add2 {A : Type} (s c : string) (x : A) (st : Structure A) :
  group_step s c x st = add2 st s c x.
Proof.
  unfold group_step, add2, lookup2.
  destruct (dict_mem st s) eqn:Hs.
  - destruct (dict_mem (dict_get [] st s) c) eqn:Hc; [reflexivity|].
    rewrite dict_get_set_same, dict_set_set.
    now rewrite (dict_get_absent _ _ _ Hc).
  - rewrite dict_get_set_same, dict_set_set.
    rewrite (dict_get_absent _ _ _ Hs). simpl.
    now rewrite String.eqb_refl.
Qed.

Lemma group_cases_with cases : group_cases cases = group_with (fun c => c) cases [].
Proof. reflexivity. Qed.

Lemma group_names_with cases : group_names cases = group_with c_name cases [].
Proof. reflexivity. Qed.

Lemma lookup2_add2 {A : Type} (st : Structure A) s c (x : A) s' c' :
  lookup2 (add2 st s c x) s' c' =
  if String.eqb s s' && String.eqb c c'
  then (lookup2 st s c ++ [x])%list else lookup2 st s' c'.
Proof.
  unfold add2, lookup2.
  destruct (String.eqb s s') eqn:Es; simpl.
  - apply String.eqb_eq in Es. subst s'. rewrite dict_get_set_same.
    destruct (String.eqb c c') eqn:Ec.
    + apply String.eqb_eq in Ec. subst c'. now rewrite dict_get_set_same.
    + apply String.eqb_neq in Ec. now rewrite dict_get_set_other.
  - apply String.eqb_neq in Es. now rewrite dict_get_set_other.
Qed.

Lemma lookup2_group_with {A : Type} (val : TestCaseRecord -> A) cases st s c :
  lookup2 (group_with val cases st) s c =
  (lookup2 st s c ++ map val (filter (in_class s c) cases))%list.
Proof.
  revert st. induction cases as [|x cases IH]; intros st; simpl.
  - now rewrite app_nil_r.
  - unfold group_with in *. simpl. rewrite IH, group_step_add2, lookup2_add2.
    unfold in_class at 2.
    destruct (String.eqb (c_suite x) s) eqn:Es; simpl.
    + destruct (String.eqb (class_key x) c) eqn:Ec; simpl; [|reflexivity].
      apply String.eqb_eq in Es, Ec. subst. now rewrite <- app_assoc.
    + reflexivity.
Qed.

Lemma suite_keys_add2 {A : Type} (st : Structure A) s c (x : A) s' :
  In s' (dict_keys (add2 st s c x)) <-> In s' (dict_keys st) \/ s' = s.
Proof. apply dict_keys_set_In. Qed.

Lemma class_keys_add2 {A : Type} (st : Structure A) s c (x : A) s' c' :
  In c' (dict_keys (dict_get [] (add2 st s c x) s')) <->
  In c' (dict_keys (dict_get [] st s')) \/ (s' = s /\ c' = c).
Proof.
  unfold add2. destruct (String.eqb s s') eqn:Es.
  - apply String.eqb_eq in Es. subst s'.
    rewrite dict_get_set_same, dict_keys_set_In. intuition.
  - apply String.eqb_neq in Es. rewrite dict_get_set_other by assumption.
    intuition congruence.
Qed.

Lemma suite_keys_group_with {A : Type} (val : TestCaseRecord -> A) cases st s :
  In s (dict_keys (group_with val cases st)) <->
  In s (dict_keys st) \/ exists x, In x cases /\ c_suite x = s.
Proof.
  revert st. induction cases as [|x cases IH]; intros st; simpl.
  - split; [auto|]. intros [H|(x & [] & _)]; assumption.
  - unfold group_with in *. simpl. rewrite IH, group_step_add2, suite_keys_add2.
    split.
    + intros [[H|H]|(y & Hy & E)]; eauto.
    + intros [H|(y & [->|Hy] & E)]; eauto.
Qed.

Lemma class_keys_group_with {A : Type} (val : TestCaseRecord -> A) cases st s c :
  In c (dict_keys (dict_get [] (group_with val cases st) s)) <->
  In c (dict_keys (dict_get [] st s))
  \/ exists x, In x cases /\ c_suite x = s /\ class_key x = c.
Proof.
  revert st. induction cases as [|x cases IH]; intros st; simpl.
  - split; [auto|]. intros [H|(x & [] & _)]; assumption.
  - unfold group_with in *. simpl. rewrite IH, group_step_add2, class_keys_add2.
    split.
    + intros [[H|[H1 H2]]|(y & Hy & E)]; eauto 6.
    + intros [H|(y & [->|Hy] & E1 & E2)]; eauto 6.
Qed.

Lemma suite_keys_NoDup {A : Type} (val : TestCaseRecord -> A) cases st :
  NoDup (dict_keys st) -> NoDup (dict_keys (group_with val cases st)).
Proof.
  revert st. induction cases as [|x cases IH]; intros st H; simpl; [assumption|].
  unfold group_with in *. simpl. apply IH. rewrite group_step_add2.
  now apply dict_keys_set_NoDup.
Qed.

Lemma class_keys_NoDup {A : Type} (val : TestCaseRecord -> A) cases st :
  (forall s, NoDup (dict_keys (dict_get [] st s))) ->
  forall s, NoDup (dict_keys (dict_get [] (group_with val cases st) s)).
Proof.
  revert st. induction cases as [|x cases IH]; intros st H; simpl; [assumption|].
  unfold group_with in *. simpl. apply IH. intros s.
  rewrite group_step_add2. unfold add2.
  destruct (String.eqb (c_suite x) s) eqn:Es.
  - apply String.eqb_eq in Es. subst s. rewrite dict_get_set_same.
    apply dict_keys_set_NoDup, H.
  - apply String.eqb_neq in Es. rewrite dict_get_set_other by assumption. apply H.
Qed.

Lemma values_set_perm {A : Type} (d : dict (list A)) c (x : A) :
  Permutation (List.concat (dict_values (dict_set d c (dict_get [] d c ++ [x])%list)))
              (List.concat (dict_values d) ++ [x]).
Proof.
  induction d as [|[k' v'] d IH]; simpl.
  - reflexivity.
  - destruct (String.eqb c k') eqn:E; simpl.
    + rewrite <- !app_assoc. apply Permutation_app_head, Permutation_app_comm.
    + rewrite <- app_assoc. apply Permutation_app_head, IH.
Qed.

Lemma suite_values_group_with {A : Type} (val : TestCaseRecord -> A) cases st s :
  Permutation (List.concat (dict_values (dict_get [] (group_with val cases st) s)))
              (List.concat (dict_values (dict_get [] st s))
               ++ map val (filter (in_suite s) cases)).
Proof.
  revert st. induction cases as [|x cases IH]; intros st; simpl.
  - now rewrite app_nil_r.
  - unfold group_with in *. simpl. rewrite IH, group_step_add2.
    unfold add2, lookup2, in_suite at 2.
    destruct (String.eqb (c_suite x) s) eqn:Es.
    + apply String.eqb_eq in Es. subst s. rewrite dict_get_set_same.
      rewrite values_set_perm. simpl. now rewrite <- app_assoc.
    + apply String.eqb_neq in Es. now rewrite dict_get_set_other.
Qed.

(** The cases under a suite heading are the cases of that suite name. *)
Lemma suite_cases_perm cases s :
  Permutation (suite_cases_of (group_cases cases) s) (filter (in_suite s) cases).
Proof.
  unfold suite_cases_of. rewrite group_cases_with, suite_values_group_with.
  simpl. now rewrite map_id.
Qed.

(** The cases under a class heading are the cases of that suite name and
    class key, in the order of the records. *)
Lemma class_cases_filter cases s c :
  class_cases_of (group_cases cases) s c = filter (in_class s c) cases.
Proof.
  unfold class_cases_of. fold (lookup2 (group_cases cases) s c).
  rewrite group_cases_with, lookup2_group_with. simpl. now rewrite map_id.
Qed.

Lemma insert_by_perm {A : Type} (key : A -> string) x l :
  Permutation (insert_by key x l) (x :: l).
Proof.
  induction l as [|y l IH]; simpl; [reflexivity|].
  destruct (String.ltb (key x) (key y)); [reflexivity|].
  rewrite IH. apply perm_swap.
Qed.

Lemma sorted_by_perm {A : Type} (key : A -> string) l :
  Permutation (sorted_by key l) l.
Proof.
  unfold sorted_by.
  enough (H : forall acc, Permutation (fold_left (fun acc x => insert_by key x acc) l acc)
                                      (acc ++ l)) by apply (H []).
  induction l as [|x l IH]; intros acc; simpl.
  - now rewrite app_nil_r.
  - rewrite IH, insert_by_perm. apply Permutation_middle.
Qed.

Lemma sorted_by_In {A : Type} (key : A -> string) l x :
  In x (sorted_by key l) <-> In x l.
Proof.
  split; apply Permutation_in; [|symmetry]; apply sorted_by_perm.
Qed.

Lemma sorted_In l x : In x (sorted l) <-> In x l.
Proof. apply sorted_by_In. Qed.

Lemma sorted_NoDup l : NoDup l -> NoDup (sorted l).
Proof.
  intros H. eapply Permutation_NoDup; [|exact H].
  symmetry. apply sorted_by_perm.
Qed.

(* ================================================================= *)
(** ** The text of the report, section by section *)

Fixpoint mapM {A B : Type} (f : A -> result B) (l : list A) : result (list B) :=
  match l with
  | [] => Ok []
  | x :: rest => y <- f x ;; ys <- mapM f rest ;; Ok (y :: ys)
  end.

Definition join (l : list string) : string := fold_right append "" l.

(** [n] occurs in [s]. *)
Definition Substring (n s : string) : Prop := exists a b, s = a ++ n ++ b.

(** The text of one class section. *)
Definition class_section_html (structure : Structure TestCaseRecord)
    (suite classname : string) : result string :=
  let class_cases := class_cases_of structure suite classname in
  let class_totals := subtotals_of class_cases in
  elapsed <- seconds_fmt (st_time class_totals) ;;
  rows <- mapM _build_row_html (sorted_by c_name class_cases) ;;
  Ok (class_header suite classname class_totals elapsed ++ join rows ++ class_footer).

(** The text of one suite section. *)
Definition suite_section_html (structure : Structure TestCaseRecord)
    (suite : string) : result string :=
  let suite_totals := subtotals_of (suite_cases_of structure suite) in
  elapsed <- seconds_fmt (st_time suite_totals) ;;
  classes <- mapM (class_section_html structure suite)
               (sorted (dict_keys (dict_get [] structure suite))) ;;
  Ok (suite_header suite suite_totals elapsed ++ join classes ++ suite_footer).

Definition sidebar_class_html (structure : Structure string)
    (suite classname : string) : string :=
  sidebar_class_open suite classname
  ++ join (map (sidebar_case suite classname) (sorted (lookup2 structure suite classname)))
  ++ sidebar_class_close.

Definition sidebar_suite_html (structure : Structure string) (suite : string)
    : string :=
  sidebar_suite_open suite
  ++ join (map (sidebar_class_html structure suite)
             (sorted (dict_keys (dict_get [] structure suite))))
  ++ sidebar_suite_close.

Lemma app_s_assoc (a b c : string) : (a ++ b) ++ c = a ++ b ++ c.
Proof. induction a as [|x a IH]; simpl; [reflexivity|now rewrite IH]. Qed.

Lemma app_s_nil_r (a : string) : a ++ "" = a.
Proof. induction a as [|x a IH]; simpl; [reflexivity|now rewrite IH]. Qed.

Lemma join_app l1 l2 : join (l1 ++ l2) = join l1 ++ join l2.
Proof.
  induction l1 as [|x l1 IH]; simpl; [reflexivity|].
  now rewrite IH, app_s_assoc.
Qed.

Lemma for_each_join {A : Type} (g : A -> result string)
    (body : string -> A -> result string) (l : list A) (acc : string) :
  (forall acc x, body acc x = (y <- g x ;; Ok (acc ++ y))) ->
  for_each l body acc = (ys <- mapM g l ;; Ok (acc ++ join ys)).
Proof.
  intros Hbody. revert acc.
  induction l as [|x l IH]; intros acc; simpl.
  - now rewrite app_s_nil_r.
  - rewrite Hbody. destruct (g x) as [y|e]; simpl; [|reflexivity].
    rewrite IH. destruct (mapM g l) as [ys|e]; simpl; [|reflexivity].
    now rewrite app_s_assoc.
Qed.

Lemma fold_left_join {A : Type} (g : A -> string)
    (body : string -> A -> string) (l : list A) (acc : string) :
  (forall acc x, body acc x = acc ++ g x) ->
  fold_left body l acc = acc ++ join (map g l).
Proof.
  intros Hbody. revert acc. induction l as [|x l IH]; intros acc; simpl.
  - now rewrite app_s_nil_r.
  - now rewrite Hbody, IH, app_s_assoc.
Qed.

Lemma rows_loop_spec class_cases main_html :
  rows_loop class_cases main_html =
  (rows <- mapM _build_row_html (sorted_by c_name class_cases) ;;
   Ok (main_html ++ join rows)).
Proof.
  unfold rows_loop. apply (for_each_join _build_row_html). reflexivity.
Qed.

Lemma class_loop_spec structure suite main_html :
  class_loop structure suite main_html =
  (classes <- mapM (class_section_html structure suite)
                (sorted (dict_keys (dict_get [] structure suite))) ;;
   Ok (main_html ++ join classes)).
Proof.
  unfold class_loop. apply (for_each_join (class_section_html structure suite)).
  intros acc classname.
  unfold class_section_html.
  destruct (seconds_fmt _) as [elapsed|e]; cbn [bind]; [|reflexivity].
  rewrite rows_loop_spec.
  destruct (mapM _ _) as [rows|e]; cbn [bind]; [|reflexivity].
  now rewrite !app_s_assoc.
Qed.

Lemma suite_loop_text structure main_html :
  suite_loop structure main_html =
  (sections <- mapM (suite_section_html structure) (sorted (dict_keys structure)) ;;
   Ok (main_html ++ join sections)).
Proof.
  unfold suite_loop. apply (for_each_join (suite_section_html structure)).
  intros acc suite.
  unfold suite_section_html.
  destruct (seconds_fmt _) as [elapsed|e]; cbn [bind]; [|reflexivity].
  rewrite class_loop_spec.
  destruct (mapM _ _) as [classes|e]; cbn [bind]; [|reflexivity].
  now rewrite !app_s_assoc.
Qed.

(** The main content is the sequence of its suite sections, one for each
    key of the grouping, in ascending order. *)
Lemma _build_main_content_text data :
  _build_main_content data =
  (sections <- mapM (suite_section_html (group_cases (cases data)))
                 (sorted (dict_keys (group_cases (cases data)))) ;;
   Ok (join sections)).
Proof. unfold _build_main_content. now rewrite suite_loop_text. Qed.

Lemma sidebar_names_text suite classname names sidebar_html :
  sidebar_names suite classname names sidebar_html =
  sidebar_html ++ join (map (sidebar_case suite classname) (sorted names)).
Proof.
  unfold sidebar_names. now apply fold_left_join.
Qed.

Lemma sidebar_classes_text structure suite sidebar_html :
  sidebar_classes structure suite sidebar_html =
  sidebar_html ++ join (map (sidebar_class_html structure suite)
                          (sorted (dict_keys (dict_get [] structure suite)))).
Proof.
  unfold sidebar_classes. apply fold_left_join. intros acc classname.
  rewrite sidebar_names_text. unfold sidebar_class_html, lookup2.
  now rewrite !app_s_assoc.
Qed.

Lemma _build_sidebar_text data title :
  _build_sidebar data title =
  sidebar_open title
  ++ join (map (sidebar_suite_html (group_names (cases data)))
             (sorted (dict_keys (group_names (cases data)))))
  ++ sidebar_close.
Proof.
  unfold _build_sidebar, sidebar_suites.
  rewrite (fold_left_join (sidebar_suite_html (group_names (cases data)))).
  - now rewrite app_s_assoc.
  - intros acc suite. rewrite sidebar_classes_text. unfold sidebar_suite_html.
    now rewrite !app_s_assoc.
Qed.

(* ================================================================= *)
(** ** passed = tests - failures - errors - skipped *)

Lemma count_status_cons s c cs :
  count_status s (c :: cs) =
  (if Status_eqb (c_status c) s then 1 else 0) + count_status s cs.
Proof.
  unfold count_status, len. simpl.
  destruct (Status_eqb (c_status c) s); simpl List.length; lia.
Qed.

Lemma len_cons {A : Type} (x : A) l : len (x :: l) = 1 + len l.
Proof. unfold len. simpl List.length. lia. Qed.

Lemma len_app {A : Type} (l1 l2 : list A) : len (l1 ++ l2) = len l1 + len l2.
Proof. unfold len. rewrite length_app. lia. Qed.

(** Every case has exactly one of the four statuses. *)
Lemma count_status_total cs :
  len cs = count_status St_ok cs + count_status St_fail cs
           + count_status St_err cs + count_status St_skip cs.
Proof.
  induction cs as [|c cs IH]; [reflexivity|].
  rewrite len_cons, !count_status_cons, IH.
  destruct (c_status c); cbn [Status_eqb]; lia.
Qed.

Lemma subtotals_passed cs :
  st_passed (subtotals_of cs) =
  st_tests (subtotals_of cs) - st_failures (subtotals_of cs)
  - st_errors (subtotals_of cs) - st_skipped (subtotals_of cs).
Proof. simpl. rewrite (count_status_total cs). lia. Qed.

(** C1: in the totals parse_files returns, and in the subtotals
    _build_main_content shows in the summary pills of every suite section
    and of every class section, passed = tests - failures - errors -
    skipped. *)
Theorem C1_passed_equation (fromfile : Files) (paths : list string)
    (data : ReportData) :
  parse_files fromfile paths = Ok data ->
  let t := totals data in
  let structure := group_cases (cases data) in
  t_passed t = t_tests t - t_failures t - t_errors t - t_skipped t
  /\ (forall suite,
        let st := subtotals_of (suite_cases_of structure suite) in
        st_passed st = st_tests st - st_failures st - st_errors st - st_skipped st)
  /\ (forall suite classname,
        let st := subtotals_of (class_cases_of structure suite classname) in
        st_passed st = st_tests st - st_failures st - st_errors st - st_skipped st).
Proof.
  intros H. apply parse_files_inv in H. destruct H as (pxs & _ & ->).
  split; [reflexivity|]. split; intros; apply subtotals_passed.
Qed.

Lemma C1_passed_equation_witness :
  exists data,
    parse_files bare_files ["bare.xml"] = Ok data
    /\ t_passed (totals data)
       = t_tests (totals data) - t_failures (totals data)
         - t_errors (totals data) - t_skipped (totals data)
    /\ st_passed (subtotals_of (suite_cases_of (group_cases (cases data)) "bare")) = 1
    /\ st_passed (subtotals_of (class_cases_of (group_cases (cases data)) "bare" "Default")) = 1.
Proof.
  eexists. split; [reflexivity|].
  pose proof (C1_passed_equation bare_files ["bare.xml"] _ eq_refl) as (Ht & Hs & Hc).
  split; [exact Ht|].
  split.
  - rewrite (Hs "bare"). reflexivity.
  - rewrite (Hc "bare" "Default"). reflexivity.
Defined.

(* ================================================================= *)
(** ** The order of the input files *)

Definition empty_suite (name : string) : TestSuite :=
  {| ts_name := Some name; ts_tests := None; ts_failures := None;
     ts_errors := None; ts_skipped := None; ts_disabled := None;
     ts_time := None; ts_children := [] |}.

Definition two_files : Files :=
  fun p =>
    if String.eqb p "a.xml" then Some [empty_suite "A"]
    else if String.eqb p "b.xml" then Some [empty_suite "B"]
    else None.

Lemma load_perm fromfile paths paths' :
  Permutation paths paths' ->
  forall pxs, load fromfile paths = Some pxs ->
  exists pxs', load fromfile paths' = Some pxs' /\ Permutation pxs pxs'.
Proof.
  induction 1 as [|p l l' Hperm IH|p q l|l l' l'' H1 IH1 H2 IH2]; intros pxs Hl.
  - exists pxs. auto.
  - simpl in *. destruct (fromfile p) as [xml|]; [|discriminate].
    destruct (load fromfile l) as [pxs0|]; [|discriminate].
    injection Hl as <-. destruct (IH pxs0 eq_refl) as (pxs1 & -> & Hp).
    eexists. split; [reflexivity|]. now constructor.
  - simpl in *. destruct (fromfile q) as [xq|]; [|discriminate].
    destruct (fromfile p) as [xp|]; [|discriminate].
    destruct (load fromfile l) as [pxs0|]; [|discriminate].
    injection Hl as <-. eexists. split; [reflexivity|]. apply perm_swap.
  - destruct (IH1 pxs Hl) as (pxs1 & Hl1 & Hp1).
    destruct (IH2 pxs1 Hl1) as (pxs2 & Hl2 & Hp2).
    exists pxs2. split; [assumption|]. now transitivity pxs1.
Qed.

Lemma fold_left_add l a : fold_left Z.add l a = a + fold_right Z.add 0 l.
Proof.
  revert a. induction l as [|x l IH]; intros a; simpl; [lia|].
  rewrite IH. lia.
Qed.

Lemma sum_int_fold_right l : sum_int l = fold_right Z.add 0 l.
Proof. unfold sum_int. now rewrite fold_left_add. Qed.

Lemma sum_int_app l1 l2 : sum_int (l1 ++ l2) = sum_int l1 + sum_int l2.
Proof.
  rewrite !sum_int_fold_right, fold_right_app.
  induction l1 as [|x l1 IH]; simpl; lia.
Qed.

Lemma sum_int_cons x l : sum_int (x :: l) = x + sum_int l.
Proof. now rewrite !sum_int_fold_right. Qed.

Lemma sum_int_perm l l' : Permutation l l' -> sum_int l = sum_int l'.
Proof.
  induction 1; rewrite ?sum_int_cons in *; lia.
Qed.

Lemma Permutation_flat_map_l {A B : Type} (f : A -> list B) l l' :
  Permutation l l' -> Permutation (flat_map f l) (flat_map f l').
Proof.
  induction 1; simpl.
  - reflexivity.
  - now apply Permutation_app_head.
  - rewrite !app_assoc. apply Permutation_app_tail, Permutation_app_comm.
  - etransitivity; eassumption.
Qed.

(** C8, as stated, fails: two files with distinct suite names, read in
    the two possible orders, give different results (the summaries come
    in the order of the paths). *)
Lemma C8_order_of_paths_shows :
  Permutation ["a.xml"; "b.xml"] ["b.xml"; "a.xml"]
  /\ parse_files two_files ["a.xml"; "b.xml"]
     = Ok {| suites := [suite_summary "a.xml" (empty_suite "A");
                        suite_summary "b.xml" (empty_suite "B")];
             cases := [];
             totals := Build_ReportTotals 2 0 0 0 0 PyFloat.zero 0 |}
  /\ parse_files two_files ["b.xml"; "a.xml"]
     <> parse_files two_files ["a.xml"; "b.xml"].
Proof.
  split; [apply perm_swap|]. split; [reflexivity|].
  intros H. vm_compute in H. discriminate H.
Qed.

(** C8, amended: reading the same files in another order gives the same
    result up to the order of its lists: the suite summaries and the case
    records of the two results are permutations of each other, and the
    counts of the totals (suites, tests, failures, errors, skipped,
    passed) are equal.  A run that raises, raises in any order. *)
Theorem C8_order_up_to_permutation (fromfile : Files)
    (paths paths' : list string) :
  Permutation paths paths' ->
  (forall data, parse_files fromfile paths = Ok data ->
     exists data', parse_files fromfile paths' = Ok data'
       /\ Permutation (suites data) (suites data')
       /\ Permutation (cases data) (cases data')
       /\ t_suites (totals data') = t_suites (totals data)
       /\ t_tests (totals data') = t_tests (totals data)
       /\ t_failures (totals data') = t_failures (totals data)
       /\ t_errors (totals data') = t_errors (totals data)
       /\ t_skipped (totals data') = t_skipped (totals data)
       /\ t_passed (totals data') = t_passed (totals data))
  /\ (forall e, parse_files fromfile paths = Raise e ->
        exists e', parse_files fromfile paths' = Raise e').
Proof.
  intros Hperm. split.
  - intros data H. apply parse_files_inv in H. destruct H as (pxs & Hl & ->).
    destruct (load_perm _ _ _ Hperm _ Hl) as (pxs' & Hl' & Hp).
    eexists. split; [apply (parse_files_ok _ _ _ Hl')|].
    assert (Hs : Permutation (flat_map file_summaries pxs) (flat_map file_summaries pxs'))
      by now apply Permutation_flat_map_l.
    cbn [suites cases totals make_totals t_suites t_tests t_failures t_errors
         t_skipped t_passed].
    split; [exact Hs|].
    split; [now apply Permutation_flat_map_l|].
    assert (Hsum : forall f : SuiteSummary -> Z,
               sum_int (map f (flat_map file_summaries pxs'))
               = sum_int (map f (flat_map file_summaries pxs))).
    { intros f. apply sum_int_perm, Permutation_map. now symmetry. }
    rewrite !Hsum. unfold len. rewrite (Permutation_length Hs).
    repeat split.
  - intros e H.
    destruct (load fromfile paths') as [pxs'|] eqn:Hl'.
    + destruct (load_perm _ _ _ (Permutation_sym Hperm) _ Hl') as (pxs & Hl & _).
      rewrite (parse_files_ok _ _ _ Hl) in H. discriminate.
    + destruct (parse_files_raise _ _ Hl') as (p & _ & _ & Hr). eauto.
Qed.

Lemma C8_order_up_to_permutation_witness :
  Permutation ["a.xml"; "b.xml"] ["b.xml"; "a.xml"]
  /\ exists data',
       parse_files two_files ["b.xml"; "a.xml"] = Ok data'
       /\ Permutation [suite_summary "a.xml" (empty_suite "A");
                       suite_summary "b.xml" (empty_suite "B")] (suites data')
       /\ t_suites (totals data') = 2.
Proof.
  split; [apply perm_swap|].
  destruct (proj1 (C8_order_up_to_permutation two_files
                     ["a.xml"; "b.xml"] ["b.xml"; "a.xml"] (perm_swap _ _ _))
              _ eq_refl)
    as (data' & H & Hs & _ & Hn & _).
  exists data'. split; [exact H|]. split; [exact Hs|exact Hn].
Defined.

(* ================================================================= *)
(** ** Totals from attributes, subtotals from cases *)

(** The attributes of a suite element say what its test cases are. *)
Definition consistent (p : string) (suite : TestSuite) : Prop :=
  let s := suite_summary p suite in
  let rs := suite_records p suite in
  s_tests s = len rs
  /\ s_failures s = count_status St_fail rs
  /\ s_errors s = count_status St_err rs
  /\ s_skipped s = count_status St_skip rs.

Definition named (n : string) (s : SuiteSummary) : bool :=
  String.eqb (s_name s) n.

(** The sum of a weight over cases. *)
Definition wsum (m : TestCaseRecord -> Z) (cs : list TestCaseRecord) : Z :=
  sum_int (map m cs).

Definition one_if (s : Status) (c : TestCaseRecord) : Z :=
  if Status_eqb (c_status c) s then 1 else 0.

(** A suite that says [tests="5"] and holds one passing test case. *)
Definition overcounted_suite : TestSuite :=
  {| ts_name := Some "S"; ts_tests := Some 5; ts_failures := Some 0;
     ts_errors := Some 0; ts_skipped := Some 0; ts_disabled := None;
     ts_time := None;
     ts_children := [CaseElem (Build_TestCase (Some "K") (Some "t") None [])] |}.

Definition overcounted_files : Files :=
  fun p => if String.eqb p "s.xml" then Some [overcounted_suite] else None.

Lemma wsum_app m l1 l2 : wsum m (l1 ++ l2) = wsum m l1 + wsum m l2.
Proof. unfold wsum. now rewrite map_app, sum_int_app. Qed.

Lemma wsum_cons m c l : wsum m (c :: l) = m c + wsum m l.
Proof. unfold wsum. simpl map. now rewrite sum_int_cons. Qed.

Lemma wsum_perm m l l' : Permutation l l' -> wsum m l = wsum m l'.
Proof. intros H. apply sum_int_perm, Permutation_map, H. Qed.

Lemma len_wsum cs : len cs = wsum (fun _ => 1) cs.
Proof.
  induction cs as [|c cs IH]; [reflexivity|].
  now rewrite len_cons, wsum_cons, IH.
Qed.

Lemma count_status_wsum s cs : count_status s cs = wsum (one_if s) cs.
Proof.
  induction cs as [|c cs IH]; [reflexivity|].
  now rewrite count_status_cons, wsum_cons, IH.
Qed.

Lemma suite_records_suite p suite c :
  In c (suite_records p suite) -> c_suite c = suite_name p suite.
Proof.
  unfold suite_records. rewrite in_flat_map. intros ([case|] & _ & H).
  - destruct H as [<-|[]]. reflexivity.
  - destruct H.
Qed.

Lemma filter_all {A : Type} (f : A -> bool) l :
  (forall x, In x l -> f x = true) -> filter f l = l.
Proof.
  induction l as [|x l IH]; intros H; simpl; [reflexivity|].
  rewrite (H x) by (left; reflexivity). f_equal. apply IH. intros y Hy.
  apply H. now right.
Qed.

Lemma filter_none {A : Type} (f : A -> bool) l :
  (forall x, In x l -> f x = false) -> filter f l = [].
Proof.
  induction l as [|x l IH]; intros H; simpl; [reflexivity|].
  rewrite (H x) by (left; reflexivity). apply IH. intros y Hy.
  apply H. now right.
Qed.

Lemma filter_suite_records n p suite :
  filter (in_suite n) (suite_records p suite) =
  if String.eqb (suite_name p suite) n then suite_records p suite else [].
Proof.
  destruct (String.eqb (suite_name p suite) n) eqn:E.
  - apply filter_all. intros c Hc. unfold in_suite.
    now rewrite (suite_records_suite _ _ _ Hc).
  - apply filter_none. intros c Hc. unfold in_suite.
    now rewrite (suite_records_suite _ _ _ Hc).
Qed.

(** The weight of the cases of one suite name is the sum of an attribute
    over the summaries of that name, when the attribute is the weight of
    the cases of its suite. *)
Lemma section_weight (m : TestCaseRecord -> Z) (f : SuiteSummary -> Z) n pxs :
  (forall px suite, In px pxs -> In suite (snd px) ->
     f (suite_summary (fst px) suite) = wsum m (suite_records (fst px) suite)) ->
  wsum m (filter (in_suite n) (flat_map file_records pxs)) =
  sum_int (map f (filter (named n) (flat_map file_summaries pxs))).
Proof.
  induction pxs as [|[p xml] pxs IH]; intros H; [reflexivity|].
  simpl flat_map. rewrite !filter_app, wsum_app, map_app, sum_int_app.
  rewrite IH by (intros px suite Hpx; apply H; now right).
  f_equal.
  assert (Hx : forall suite, In suite xml ->
             f (suite_summary p suite) = wsum m (suite_records p suite)).
  { intros suite Hs. apply (H (p, xml)); [now left|assumption]. }
  clear H IH. unfold file_records, file_summaries. simpl fst. simpl snd.
  induction xml as [|suite xml IH]; [reflexivity|].
  simpl flat_map. simpl map. rewrite filter_app, wsum_app, filter_suite_records.
  rewrite IH by (intros s Hs; apply Hx; now right).
  simpl filter.
  change (named n (suite_summary p suite)) with (String.eqb (suite_name p suite) n).
  destruct (String.eqb (suite_name p suite) n).
  - simpl map. rewrite sum_int_cons. f_equal. symmetry. apply Hx. now left.
  - reflexivity.
Qed.

Lemma total_weight (m : TestCaseRecord -> Z) (f : SuiteSummary -> Z) pxs :
  (forall px suite, In px pxs -> In suite (snd px) ->
     f (suite_summary (fst px) suite) = wsum m (suite_records (fst px) suite)) ->
  wsum m (flat_map file_records pxs) =
  sum_int (map f (flat_map file_summaries pxs)).
Proof.
  induction pxs as [|[p xml] pxs IH]; intros H; [reflexivity|].
  simpl flat_map. rewrite wsum_app, map_app, sum_int_app.
  rewrite IH by (intros px suite Hpx; apply H; now right).
  f_equal.
  assert (Hx : forall suite, In suite xml ->
             f (suite_summary p suite) = wsum m (suite_records p suite)).
  { intros suite Hs. apply (H (p, xml)); [now left|assumption]. }
  clear H IH. unfold file_records, file_summaries. simpl fst. simpl snd.
  induction xml as [|suite xml IH]; [reflexivity|].
  simpl flat_map. simpl map. rewrite wsum_app, sum_int_cons.
  rewrite IH by (intros s Hs; apply Hx; now right).
  f_equal. symmetry. apply Hx. now left.
Qed.

Lemma sum_int_map_add {A : Type} (a b : A -> Z) l :
  sum_int (map (fun n => a n + b n) l) = sum_int (map a l) + sum_int (map b l).
Proof.
  induction l as [|x l IH]; [reflexivity|].
  simpl map. rewrite !sum_int_cons, IH. lia.
Qed.

Lemma sum_int_map_add_opp {A : Type} (a b : A -> Z) l :
  sum_int (map (fun n => a n - b n) l) = sum_int (map a l) - sum_int (map b l).
Proof.
  induction l as [|x l IH]; [reflexivity|].
  simpl map. rewrite !sum_int_cons, IH. lia.
Qed.

Lemma sum_int_map_zero {A : Type} (a : A -> Z) l :
  (forall x, In x l -> a x = 0) -> sum_int (map a l) = 0.
Proof.
  induction l as [|x l IH]; intros H; [reflexivity|].
  simpl map. rewrite sum_int_cons, IH, H; [reflexivity|now left|].
  intros y Hy. apply H. now right.
Qed.

Lemma sum_int_indicator (x : string) (v : Z) keys :
  NoDup keys -> In x keys ->
  sum_int (map (fun n => if String.eqb x n then v else 0) keys) = v.
Proof.
  induction 1 as [|k keys Hk Hnd IH]; intros Hin; [destruct Hin|].
  simpl map. rewrite sum_int_cons. destruct Hin as [->|Hin].
  - rewrite String.eqb_refl, sum_int_map_zero; [lia|].
    intros y Hy. destruct (String.eqb x y) eqn:E; [|reflexivity].
    apply String.eqb_eq in E. subst. contradiction.
  - rewrite IH by assumption. destruct (String.eqb x k) eqn:E; [|lia].
    apply String.eqb_eq in E. subst. contradiction.
Qed.

(** The sections split the cases: every case is under one heading. *)
Lemma partition_weight (m : TestCaseRecord -> Z) cases keys :
  NoDup keys -> (forall c, In c cases -> In (c_suite c) keys) ->
  sum_int (map (fun n => wsum m (filter (in_suite n) cases)) keys) = wsum m cases.
Proof.
  intros Hnd. induction cases as [|c cases IH]; intros Hin.
  - apply sum_int_map_zero. reflexivity.
  - rewrite wsum_cons, <- IH by (intros x Hx; apply Hin; now right).
    rewrite <- (sum_int_indicator (c_suite c) (m c) keys Hnd)
      by (apply Hin; now left).
    rewrite <- sum_int_map_add. f_equal. apply map_ext. intros n.
    simpl filter. unfold in_suite at 1.
    destruct (String.eqb (c_suite c) n); [apply wsum_cons|reflexivity].
Qed.

Lemma filter_named_single n (ss : list SuiteSummary) s :
  NoDup (map s_name ss) -> In s ss -> s_name s = n -> filter (named n) ss = [s].
Proof.
  induction ss as [|s0 ss IH]; intros Hnd Hin Hn; [destruct Hin|].
  simpl in Hnd. inversion Hnd as [|? ? Hnotin Hnd']. subst.
  simpl filter. unfold named at 1. destruct Hin as [->|Hin].
  - rewrite String.eqb_refl. f_equal. apply filter_none. intros y Hy.
    unfold named. apply String.eqb_neq. intros E. apply Hnotin.
    rewrite <- E. now apply in_map.
  - destruct (String.eqb (s_name s0) (s_name s)) eqn:E.
    + apply String.eqb_eq in E. exfalso. apply Hnotin. rewrite E.
      now apply in_map.
    + now apply IH.
Qed.

Lemma load_In fromfile paths pxs px :
  load fromfile paths = Some pxs -> In px pxs ->
  In (fst px) paths /\ fromfile (fst px) = Some (snd px).
Proof.
  revert pxs. induction paths as [|p paths IH]; intros pxs Hl Hin; simpl in Hl.
  - injection Hl as <-. destruct Hin.
  - destruct (fromfile p) as [xml|] eqn:Hp; [|discriminate].
    destruct (load fromfile paths) as [pxs'|]; [|discriminate].
    injection Hl as <-. destruct Hin as [<-|Hin].
    + split; [now left|assumption].
    + destruct (IH pxs' eq_refl Hin). split; [now right|assumption].
Qed.

Lemma section_sum (m : TestCaseRecord -> Z) cases :
  sum_int (map (fun n => wsum m (suite_cases_of (group_cases cases) n))
             (sorted (dict_keys (group_cases cases))))
  = wsum m cases.
Proof.
  rewrite <- (partition_weight m cases (sorted (dict_keys (group_cases cases)))).
  - f_equal. apply map_ext. intros n. apply wsum_perm, suite_cases_perm.
  - apply sorted_NoDup. rewrite group_cases_with. apply suite_keys_NoDup. constructor.
  - intros c Hc. apply sorted_In. rewrite group_cases_with.
    apply suite_keys_group_with. right. eauto.
Qed.

(** C3, as stated, fails: a suite element that says [tests="5"] and holds
    one test case gives a summary and totals of 5 tests, and a section
    that shows 1. *)
Lemma C3_attribute_overrides_count :
  exists data,
    parse_files overcounted_files ["s.xml"] = Ok data
    /\ map s_name (suites data) = ["S"]
    /\ map s_tests (suites data) = [5]
    /\ t_tests (totals data) = 5
    /\ st_tests (subtotals_of (suite_cases_of (group_cases (cases data)) "S")) = 1.
Proof.
  eexists. split; [reflexivity|]. repeat split.
Qed.

(** C3, amended: when the tests, failures, errors and skipped of every
    suite element (after defaulting) are the numbers of its test cases
    and of those with status fail, err and skip, the subtotals of every
    suite section are the sums of these counts over the summaries of that
    suite name, the counts of the totals are the sums of the subtotals
    over the sections, and, the suite names being pairwise distinct, the
    counts of every summary are the subtotals of its section. *)
Theorem C3_totals_agree_when_attributes_match (fromfile : Files)
    (paths : list string) (data : ReportData) :
  parse_files fromfile paths = Ok data ->
  (forall p xml suite,
     In p paths -> fromfile p = Some xml -> In suite xml -> consistent p suite) ->
  let structure := group_cases (cases data) in
  let section n := subtotals_of (suite_cases_of structure n) in
  let sections := sorted (dict_keys structure) in
  (forall n,
     st_tests (section n) = sum_int (map s_tests (filter (named n) (suites data)))
     /\ st_failures (section n) = sum_int (map s_failures (filter (named n) (suites data)))
     /\ st_errors (section n) = sum_int (map s_errors (filter (named n) (suites data)))
     /\ st_skipped (section n) = sum_int (map s_skipped (filter (named n) (suites data))))
  /\ (t_tests (totals data) = sum_int (map (fun n => st_tests (section n)) sections)
      /\ t_failures (totals data) = sum_int (map (fun n => st_failures (section n)) sections)
      /\ t_errors (totals data) = sum_int (map (fun n => st_errors (section n)) sections)
      /\ t_skipped (totals data) = sum_int (map (fun n => st_skipped (section n)) sections)
      /\ t_passed (totals data) = sum_int (map (fun n => st_passed (section n)) sections))
  /\ (NoDup (map s_name (suites data)) ->
      forall s, In s (suites data) ->
        s_tests s = st_tests (section (s_name s))
        /\ s_failures s = st_failures (section (s_name s))
        /\ s_errors s = st_errors (section (s_name s))
        /\ s_skipped s = st_skipped (section (s_name s))).
Proof.
  intros H Hcons structure section sections.
  apply parse_files_inv in H. destruct H as (pxs & Hl & ->).
  cbn [suites cases totals] in *.
  assert (Hc : forall px suite, In px pxs -> In suite (snd px) ->
                 consistent (fst px) suite).
  { intros px suite Hpx Hs. destruct (load_In _ _ _ _ Hl Hpx) as [Hin Hf].
    eapply Hcons; eassumption. }
  assert (Ht : forall px suite, In px pxs -> In suite (snd px) ->
             s_tests (suite_summary (fst px) suite)
             = wsum (fun _ => 1) (suite_records (fst px) suite)).
  { intros px suite Hpx Hs. rewrite <- len_wsum. apply (Hc px suite Hpx Hs). }
  assert (Hk : forall (st : Status) (f : SuiteSummary -> Z),
             (forall p suite, consistent p suite ->
                f (suite_summary p suite) = count_status st (suite_records p suite)) ->
             forall px suite, In px pxs -> In suite (snd px) ->
             f (suite_summary (fst px) suite)
             = wsum (one_if st) (suite_records (fst px) suite)).
  { intros st f Hf px suite Hpx Hs. rewrite <- count_status_wsum.
    apply Hf, (Hc px suite Hpx Hs). }
  pose proof (Hk St_fail s_failures (fun p suite Hps => proj1 (proj2 Hps))) as Hfail.
  pose proof (Hk St_err s_errors (fun p suite Hps => proj1 (proj2 (proj2 Hps)))) as Herr.
  pose proof (Hk St_skip s_skipped (fun p suite Hps => proj2 (proj2 (proj2 Hps)))) as Hskip.
  clear Hk.
  assert (Hsec : forall n,
     st_tests (section n) = sum_int (map s_tests (filter (named n) (flat_map file_summaries pxs)))
     /\ st_failures (section n) = sum_int (map s_failures (filter (named n) (flat_map file_summaries pxs)))
     /\ st_errors (section n) = sum_int (map s_errors (filter (named n) (flat_map file_summaries pxs)))
     /\ st_skipped (section n) = sum_int (map s_skipped (filter (named n) (flat_map file_summaries pxs)))).
  { intros n. unfold section, structure. cbn [subtotals_of st_tests st_failures st_errors st_skipped].
    rewrite len_wsum, !count_status_wsum.
    rewrite !(wsum_perm _ _ _ (suite_cases_perm (flat_map file_records pxs) n)).
    rewrite (section_weight _ s_tests n pxs Ht), (section_weight _ s_failures n pxs Hfail),
      (section_weight _ s_errors n pxs Herr), (section_weight _ s_skipped n pxs Hskip).
    repeat split. }
  assert (Htot :
     sum_int (map s_tests (flat_map file_summaries pxs))
       = sum_int (map (fun n => st_tests (section n)) sections)
     /\ sum_int (map s_failures (flat_map file_summaries pxs))
       = sum_int (map (fun n => st_failures (section n)) sections)
     /\ sum_int (map s_errors (flat_map file_summaries pxs))
       = sum_int (map (fun n => st_errors (section n)) sections)
     /\ sum_int (map s_skipped (flat_map file_summaries pxs))
       = sum_int (map (fun n => st_skipped (section n)) sections)).
  { rewrite <- (total_weight _ s_tests pxs Ht), <- (total_weight _ s_failures pxs Hfail),
      <- (total_weight _ s_errors pxs Herr), <- (total_weight _ s_skipped pxs Hskip).
    unfold sections, section, structure.
    cbn [subtotals_of st_tests st_failures st_errors st_skipped].
    rewrite <- !section_sum.
    repeat split; f_equal; apply map_ext; intros n;
      rewrite ?len_wsum, ?count_status_wsum; reflexivity. }
  split; [exact Hsec|]. split.
  - cbn [make_totals t_tests t_failures t_errors t_skipped t_passed].
    destruct Htot as (E1 & E2 & E3 & E4). rewrite E1, E2, E3, E4.
    repeat split.
    rewrite <- !sum_int_map_add_opp.
    f_equal. apply map_ext. intros n. apply eq_sym, subtotals_passed.
  - intros Hnd s Hs. destruct (Hsec (s_name s)) as (E1 & E2 & E3 & E4).
    rewrite E1, E2, E3, E4.
    rewrite (filter_named_single (s_name s) _ s Hnd Hs eq_refl).
    cbn [map]. rewrite !sum_int_cons. unfold sum_int. simpl fold_left.
    repeat split; lia.
Qed.

(* ================================================================= *)
(** ** Where a case shows in the report *)

Lemma Substring_refl s : Substring s s.
Proof. exists "", "". simpl. now rewrite app_s_nil_r. Qed.

Lemma Substring_trans a b c : Substring a b -> Substring b c -> Substring a c.
Proof.
  intros (x & y & ->) (u & v & ->). exists (u ++ x), (y ++ v).
  now rewrite !app_s_assoc.
Qed.

Lemma Substring_app_l n a b : Substring n a -> Substring n (a ++ b).
Proof.
  intros (x & y & ->). exists x, (y ++ b). now rewrite !app_s_assoc.
Qed.

Lemma Substring_app_r n a b : Substring n b -> Substring n (a ++ b).
Proof.
  intros (x & y & ->). exists (a ++ x), y. now rewrite !app_s_assoc.
Qed.

Lemma Substring_join y ys : In y ys -> Substring y (join ys).
Proof.
  induction ys as [|z ys IH]; intros H; [destruct H|].
  simpl join. destruct H as [->|H].
  - apply Substring_app_l, Substring_refl.
  - apply Substring_app_r, IH, H.
Qed.

Lemma mapM_In {A B : Type} (f : A -> result B) l ys x :
  mapM f l = Ok ys -> In x l -> exists y, f x = Ok y /\ In y ys.
Proof.
  revert ys. induction l as [|a l IH]; intros ys H Hin; [destruct Hin|].
  simpl in H. destruct (f a) as [b|] eqn:Ha; [|discriminate].
  destruct (mapM f l) as [bs|]; [|discriminate].
  injection H as <-. destruct Hin as [->|Hin].
  - exists b. split; [assumption|now left].
  - destruct (IH bs eq_refl Hin) as (y & Hy & Hiny).
    exists y. split; [assumption|now right].
Qed.

Lemma Ok_inj {A : Type} (a b : A) : Ok a = Ok b -> a = b.
Proof. intros H. now injection H. Qed.

Lemma bind_ok {A B : Type} (r : result A) (k : A -> result B) b :
  bind r k = Ok b -> exists a, r = Ok a /\ k a = Ok b.
Proof. destruct r as [a|]; [eauto|discriminate]. Qed.

Lemma case_in_its_class cases c :
  In c cases ->
  In (c_suite c) (sorted (dict_keys (group_cases cases)))
  /\ In (class_key c)
        (sorted (dict_keys (dict_get [] (group_cases cases) (c_suite c))))
  /\ In c (sorted_by c_name (class_cases_of (group_cases cases) (c_suite c) (class_key c))).
Proof.
  intros Hc. split; [|split].
  - apply sorted_In. rewrite group_cases_with. apply suite_keys_group_with.
    right. eauto.
  - apply sorted_In. rewrite group_cases_with. apply class_keys_group_with.
    right. eauto.
  - apply sorted_by_In. rewrite class_cases_filter. apply filter_In.
    split; [assumption|]. unfold in_class. now rewrite !String.eqb_refl.
Qed.

(** The row of every case is in the class section of its class key,
    inside the suite section of its suite name. *)
Lemma row_in_main_content data html c :
  _build_main_content data = Ok html -> In c (cases data) ->
  exists section cls row,
    suite_section_html (group_cases (cases data)) (c_suite c) = Ok section
    /\ class_section_html (group_cases (cases data)) (c_suite c) (class_key c) = Ok cls
    /\ _build_row_html c = Ok row
    /\ Substring row cls /\ Substring cls section /\ Substring section html.
Proof.
  intros H Hc. rewrite _build_main_content_text in H.
  destruct (case_in_its_class _ _ Hc) as (Hs & Hk & Hr).
  apply bind_ok in H. destruct H as (sections & Hsections & H).
  apply Ok_inj in H. subst html.
  destruct (mapM_In _ _ _ _ Hsections Hs) as (section & Hsection & Hin).
  pose proof Hsection as Hsec. unfold suite_section_html in Hsec.
  apply bind_ok in Hsec. destruct Hsec as (elapsed & _ & Hsec).
  apply bind_ok in Hsec. destruct Hsec as (classes & Hclasses & Hsec).
  apply Ok_inj in Hsec. subst section.
  destruct (mapM_In _ _ _ _ Hclasses Hk) as (cls & Hcls & Hincls).
  pose proof Hcls as Hcl. unfold class_section_html in Hcl.
  apply bind_ok in Hcl. destruct Hcl as (elapsed' & _ & Hcl).
  apply bind_ok in Hcl. destruct Hcl as (rows & Hrows & Hcl).
  apply Ok_inj in Hcl. subst cls.
  destruct (mapM_In _ _ _ _ Hrows Hr) as (row & Hrow & Hinrow).
  do 2 eexists. exists row. split; [exact Hsection|]. split; [exact Hcls|].
  split; [exact Hrow|]. split; [|split].
  - apply Substring_app_r, Substring_app_l, Substring_join, Hinrow.
  - apply Substring_app_r, Substring_app_l, Substring_join, Hincls.
  - apply Substring_join, Hin.
Qed.

(* ================================================================= *)
(** ** The scenario of the spec: one suite, one pass, one failure *)

Definition test_a : TestCase :=
  {| tc_classname := None; tc_name := Some "test_a";
     tc_time := Some (PyFloat.lit 1); tc_result := [] |}.

Definition test_b : TestCase :=
  {| tc_classname := None; tc_name := Some "test_b";
     tc_time := Some (PyFloat.div (PyFloat.lit 5) (PyFloat.lit 2));
     tc_result := [{| r_kind := Failure; r_message := Some "assertion failed";
                      r_text := None |}] |}.

Definition suite_of (tests failures : Z) (children : list SuiteChild) : TestSuite :=
  {| ts_name := Some "Suite1"; ts_tests := Some tests;
     ts_failures := Some failures; ts_errors := Some 0; ts_skipped := Some 0;
     ts_disabled := None; ts_time := None; ts_children := children |}.

(** One file with both cases. *)
Definition scenario_files : Files :=
  fun p =>
    if String.eqb p "a.xml"
    then Some [suite_of 2 1 [CaseElem test_a; CaseElem test_b]]
    else None.

(** Two files that both declare [Suite1], with one case each. *)
Definition split_files : Files :=
  fun p =>
    if String.eqb p "a.xml" then Some [suite_of 1 0 [CaseElem test_a]]
    else if String.eqb p "b.xml" then Some [suite_of 1 1 [CaseElem test_b]]
    else None.

Lemma C3_totals_agree_when_attributes_match_witness :
  exists data,
    parse_files scenario_files ["a.xml"] = Ok data
    /\ t_tests (totals data) = 2
    /\ st_tests (subtotals_of (suite_cases_of (group_cases (cases data)) "Suite1")) = 2
    /\ t_failures (totals data)
       = sum_int (map (fun n => st_failures
                                  (subtotals_of (suite_cases_of (group_cases (cases data)) n)))
                    (sorted (dict_keys (group_cases (cases data))))).
Proof.
  eexists. split; [reflexivity|].
  assert (Hcons : forall p xml suite,
             In p ["a.xml"] -> scenario_files p = Some xml -> In suite xml ->
             consistent p suite).
  { intros p xml suite [<-|[]] Hxml Hs. injection Hxml as <-.
    destruct Hs as [<-|[]]. repeat split. }
  pose proof (C3_totals_agree_when_attributes_match scenario_files ["a.xml"] _
                eq_refl Hcons) as (Hsec & Htot & _).
  split; [reflexivity|]. split.
  - rewrite (proj1 (Hsec "Suite1")). reflexivity.
  - exact (proj1 (proj2 Htot)).
Defined.

(* ================================================================= *)
(** ** A case without a class name *)

Lemma Substring_prefix n b : Substring n (n ++ b).
Proof. exists "", b. reflexivity. Qed.

Lemma name_in_sidebar data title c :
  In c (cases data) ->
  Substring (sidebar_case (c_suite c) (class_key c) (c_name c))
            (_build_sidebar data title).
Proof.
  intros Hc. rewrite _build_sidebar_text.
  apply Substring_app_r, Substring_app_l.
  eapply Substring_trans; [|apply Substring_join, in_map, sorted_In].
  2: { rewrite group_names_with. apply suite_keys_group_with. right. eauto. }
  unfold sidebar_suite_html. apply Substring_app_r, Substring_app_l.
  eapply Substring_trans; [|apply Substring_join, in_map, sorted_In].
  2: { rewrite group_names_with. apply class_keys_group_with. right. eauto. }
  unfold sidebar_class_html. apply Substring_app_r, Substring_app_l.
  apply Substring_join, in_map, sorted_In.
  rewrite group_names_with, lookup2_group_with. simpl. apply in_map, filter_In.
  split; [assumption|]. unfold in_class. now rewrite !String.eqb_refl.
Qed.

(** What stands between the suite and the name attributes of a row whose
    class name is empty. *)
Definition empty_classname_attr : string :=
  " data-classname=" ++ dq ++ dq ++ " 
         data-name=".

(** The class name cell of a row whose class name is empty, from the
    value of its class attribute to the start of the next cell. *)
Definition empty_classname_cell : string :=
  dq ++ "nowrap" ++ dq ++ " title=" ++ dq ++ dq ++ "></div>
      <div class=".

(** What is left of [s] after its prefix [n]. *)
Fixpoint strip_prefix (n s : string) : option string :=
  match n, s with
  | EmptyString, _ => Some s
  | String a n', String b s' => if Ascii.eqb a b then strip_prefix n' s' else None
  | String _ _, EmptyString => None
  end.

Lemma strip_prefix_sound n s b : strip_prefix n s = Some b -> s = n ++ b.
Proof.
  revert s. induction n as [|a n IH]; intros s H; simpl in H.
  - now injection H as <-.
  - destruct s as [|c s]; [discriminate|].
    destruct (Ascii.eqb a c) eqn:E; [|discriminate].
    apply Ascii.eqb_eq in E. subst c. simpl. f_equal. now apply IH.
Qed.

Lemma Substring_by_prefix n s b : strip_prefix n s = Some b -> Substring n s.
Proof.
  intros H. rewrite (strip_prefix_sound _ _ _ H). apply Substring_prefix.
Qed.

(** Finds a needle that starts and ends where pieces of the text do. *)
Ltac find_substring :=
  lazymatch goal with
  | |- Substring ?n _ =>
      first [ exact (Substring_prefix n _)
            | apply Substring_app_r; find_substring ]
  end.

Lemma row_of_empty_classname c row :
  c_classname c = "" -> _build_row_html c = Ok row ->
  Substring empty_classname_attr row /\ Substring empty_classname_cell row.
Proof.
  intros Hcn H. unfold _build_row_html in H.
  apply bind_ok in H. destruct H as (elapsed & _ & H).
  apply Ok_inj in H. subst row. rewrite Hcn.
  change (_escape_html "") with "".
  split; find_substring.
Qed.

(** The class attribute of a heading or sidebar entry of the placeholder
    class. *)
Definition default_class_attr : string :=
  " data-classname=" ++ dq ++ "Default" ++ dq.

Lemma class_header_default suite class_totals elapsed :
  Substring default_class_attr (class_header suite "Default" class_totals elapsed).
Proof. unfold class_header. find_substring. Qed.

Lemma sidebar_case_default suite name :
  Substring default_class_attr (sidebar_case suite "Default" name).
Proof. unfold sidebar_case. find_substring. Qed.

(* ================================================================= *)
(** ** Text that cannot hold a given piece of markup *)

Fixpoint no_lt (s : string) : bool :=
  match s with
  | EmptyString => true
  | String c rest => negb (Ascii.eqb c "<") && no_lt rest
  end.

Lemma strip_prefix_complete n b : strip_prefix n (n ++ b) = Some b.
Proof.
  induction n as [|a n IH]; simpl; [reflexivity|].
  now rewrite Ascii.eqb_refl.
Qed.

Lemma app_s_eq_app (a b c d : string) :
  a ++ b = c ++ d ->
  (exists m, c = a ++ m /\ b = m ++ d) \/ (exists m, a = c ++ m /\ d = m ++ b).
Proof.
  revert c. induction a as [|x a IH]; intros c H.
  - left. exists c. auto.
  - destruct c as [|y c].
    + right. exists (String x a). auto.
    + simpl in H. injection H as -> H.
      destruct (IH c H) as [(m & -> & ->)|(m & -> & ->)].
      * left. exists m. auto.
      * right. exists m. auto.
Qed.

Lemma no_lt_app a b : no_lt (a ++ b) = no_lt a && no_lt b.
Proof.
  induction a as [|c a IH]; simpl; [reflexivity|].
  now rewrite IH, andb_assoc.
Qed.

Section Needle.

(** The markup looked for: some text that starts with [<]. *)
Variable N : string.
Hypothesis N_lt : exists t, N = String "<" t.

(** [N] does not occur in [s], and [s] does not end with the beginning
    of an occurrence of [N]. *)
Definition Clean (s : string) : Prop :=
  ~ Substring N s
  /\ (forall a p q, s = a ++ p -> N = p ++ q -> p <> "" -> q <> "" -> False).

Fixpoint occurs_b (s : string) : bool :=
  match strip_prefix N s with
  | Some _ => true
  | None =>
      match s with
      | EmptyString => false
      | String _ rest => occurs_b rest
      end
  end.

Fixpoint partial_b (s : string) : bool :=
  match s with
  | EmptyString => false
  | String _ rest =>
      match strip_prefix s N with
      | Some (String _ _) => true
      | _ => partial_b rest
      end
  end.

Definition clean_b (s : string) : bool := negb (occurs_b s) && negb (partial_b s).

Lemma occurs_b_complete s : Substring N s -> occurs_b s = true.
Proof.
  intros (a & b & ->). induction a as [|c a IH].
  - simpl append. destruct (N ++ b) eqn:E; simpl;
      rewrite <- E, strip_prefix_complete; reflexivity.
  - simpl. destruct (strip_prefix N (String c (a ++ N ++ b))); [reflexivity|exact IH].
Qed.

Lemma partial_b_complete a p q :
  N = p ++ q -> p <> "" -> q <> "" -> partial_b (a ++ p) = true.
Proof.
  intros HN Hp Hq. induction a as [|c a IH].
  - simpl append. destruct p as [|x p]; [congruence|].
    cbn [partial_b]. rewrite HN, strip_prefix_complete.
    destruct q; [congruence|reflexivity].
  - simpl append. cbn [partial_b].
    destruct (strip_prefix (String c (a ++ p)) N) as [[|? ?]|]; auto.
Qed.

(** A closed text is checked by computation. *)
Lemma clean_b_sound s : clean_b s = true -> Clean s.
Proof.
  unfold clean_b. intros H. apply andb_true_iff in H. destruct H as [Ho Hp].
  apply negb_true_iff in Ho, Hp. split.
  - intros Hs. apply occurs_b_complete in Hs. congruence.
  - intros a p q -> HN Hp' Hq'.
    rewrite (partial_b_complete a p q HN Hp' Hq') in Hp. discriminate.
Qed.

(** A text without [<] holds no part of [N]. *)
Lemma no_lt_Clean s : no_lt s = true -> Clean s.
Proof.
  destruct N_lt as (t & HN). intros H. split.
  - intros (a & b & ->). rewrite HN, !no_lt_app in H. simpl in H.
    rewrite andb_false_r in H. discriminate.
  - intros a p q -> HNp Hp _. destruct p as [|x p]; [congruence|].
    rewrite HN in HNp. simpl in HNp. injection HNp as <- _.
    rewrite no_lt_app in H. simpl in H. rewrite andb_false_r in H. discriminate.
Qed.

Lemma Clean_nil : Clean "".
Proof. now apply no_lt_Clean. Qed.

(** Clean texts can be put one after the other. *)
Lemma Clean_app s1 s2 : Clean s1 -> Clean s2 -> Clean (s1 ++ s2).
Proof.
  intros [Ho1 Hp1] [Ho2 Hp2]. split.
  - intros (a & b & H). apply app_s_eq_app in H.
    destruct H as [(m & -> & ->)|(m & -> & H)].
    + apply Ho2. exists m, b. reflexivity.
    + apply app_s_eq_app in H.
      destruct H as [(m' & -> & Hs2)|(m' & HN & ->)].
      * apply Ho1. exists a, m'. reflexivity.
      * destruct m as [|x m].
        { apply Ho2. exists "", b. simpl. simpl in HN. now rewrite <- HN. }
        destruct m' as [|y m'].
        { apply Ho1. exists a, "". rewrite app_s_nil_r in HN.
          now rewrite HN, app_s_nil_r. }
        apply (Hp1 a (String x m) (String y m')); [reflexivity|exact HN| |];
          discriminate.
  - intros a p q H HN Hp Hq. apply app_s_eq_app in H.
    destruct H as [(m & -> & ->)|(m & -> & ->)].
    + apply (Hp2 m p q); auto.
    + destruct m as [|x m].
      * apply (Hp2 "" s2 q); auto.
      * apply (Hp1 a (String x m) (s2 ++ q)); [reflexivity| |discriminate|].
        -- now rewrite HN, app_s_assoc.
        -- intros E. destruct s2; [simpl in E; congruence|discriminate].
Qed.

Lemma Clean_join l : Forall Clean l -> Clean (join l).
Proof.
  induction 1 as [|s l Hs Hl IH]; simpl; [apply Clean_nil|now apply Clean_app].
Qed.

Lemma Clean_join_map {A : Type} (f : A -> string) l :
  (forall x, Clean (f x)) -> Clean (join (map f l)).
Proof.
  intros H. apply Clean_join, Forall_forall. intros s Hs.
  apply in_map_iff in Hs. destruct Hs as (x & <- & _). apply H.
Qed.

End Needle.

(* ================================================================= *)
(** ** The report holds no script markup *)

Definition script_needle : string := "<script>alert(1)</script>".

Lemma script_needle_lt : exists t, script_needle = String "<" t.
Proof. eexists. reflexivity. Qed.

Lemma no_lt_escape x : no_lt (_escape_html x) = true.
Proof.
  induction x as [|c x IH]; simpl; [reflexivity|].
  rewrite no_lt_app, IH, andb_true_r. unfold escape_char.
  destruct (Ascii.eqb c "&"); [reflexivity|].
  destruct (Ascii.eqb c "<") eqn:E; [reflexivity|].
  destruct (Ascii.eqb c ">"); [reflexivity|].
  destruct (Ascii.eqb c "034"); [reflexivity|].
  destruct (Ascii.eqb c "'"); [reflexivity|].
  simpl. now rewrite E.
Qed.

Lemma no_lt_uint d : no_lt (NilEmpty.string_of_uint d) = true.
Proof. induction d; simpl; auto. Qed.

Lemma no_lt_str_of_int z : no_lt (str_of_int z) = true.
Proof.
  unfold str_of_int, NilZero.string_of_int, NilZero.string_of_uint.
  destruct (Z.to_int z) as [d|d].
  - destruct d; try reflexivity; simpl; apply no_lt_uint.
  - destruct d; try reflexivity; simpl; apply no_lt_uint.
Qed.

Lemma no_lt_fmt_2f x : no_lt (PyFloat.fmt_2f x) = true.
Proof.
  assert (H : forall (s : bool) (h : Z),
             no_lt ((if s then "-" else "") ++ str_of_int (h / 100) ++ "."
                    ++ PyFloat.two_digits (h mod 100)) = true).
  { intros s h. unfold PyFloat.two_digits.
    rewrite !no_lt_app, !no_lt_str_of_int. now destruct s. }
  destruct x as [s|s| |s m e]; unfold PyFloat.fmt_2f.
  - apply H.
  - now destruct s.
  - reflexivity.
  - apply H.
Qed.

Lemma no_lt_seconds_fmt sec elapsed :
  seconds_fmt sec = Ok elapsed -> no_lt elapsed = true.
Proof.
  unfold seconds_fmt. destruct (PyFloat.leb _ _).
  - intros H. apply bind_ok in H. destruct H as (q & _ & H).
    apply bind_ok in H. destruct H as (m & _ & H).
    apply bind_ok in H. destruct H as (m60 & _ & H).
    apply Ok_inj in H. subst elapsed.
    now rewrite !no_lt_app, no_lt_str_of_int, no_lt_fmt_2f.
  - intros H. apply Ok_inj in H. subst elapsed.
    now rewrite no_lt_app, no_lt_fmt_2f.
Qed.

(** No occurrence of the script markup, and no beginning of one at the
    end. *)
Definition Safe (s : string) : Prop := Clean script_needle s.

Lemma Safe_app s1 s2 : Safe s1 -> Safe s2 -> Safe (s1 ++ s2).
Proof. apply Clean_app. Qed.

Lemma Safe_no_lt s : no_lt s = true -> Safe s.
Proof. apply no_lt_Clean, script_needle_lt. Qed.

Lemma Safe_static s : clean_b script_needle s = true -> Safe s.
Proof. apply clean_b_sound. Qed.

Lemma Safe_escape x : Safe (_escape_html x).
Proof. apply Safe_no_lt, no_lt_escape. Qed.

Lemma Safe_int z : Safe (str_of_int z).
Proof. apply Safe_no_lt, no_lt_str_of_int. Qed.

Lemma Safe_status s : Safe (status_str s).
Proof. destruct s; apply Safe_no_lt; reflexivity. Qed.

Lemma Safe_label s : Safe (label_of s).
Proof. destruct s; apply Safe_no_lt; reflexivity. Qed.

Ltac safe_leaf :=
  first [ assumption
        | apply Safe_escape
        | apply Safe_int
        | apply Safe_status
        | apply Safe_label
        | apply Safe_static; vm_compute; reflexivity ].

Ltac safe := repeat (apply Safe_app; [safe_leaf|]); safe_leaf.

Lemma Safe_details c : Safe (details_html_of c).
Proof. unfold details_html_of. safe. Qed.

Lemma Safe_row c row : _build_row_html c = Ok row -> Safe row.
Proof.
  unfold _build_row_html. intros H.
  apply bind_ok in H. destruct H as (elapsed & He & H).
  apply Ok_inj in H. subst row.
  apply no_lt_seconds_fmt, Safe_no_lt in He.
  pose proof (Safe_details c) as Hd.
  assert (He0 : Safe "") by (apply Safe_no_lt; reflexivity).
  assert (Hx : Safe " has-details") by (apply Safe_no_lt; reflexivity).
  destruct (need_details c); safe.
Qed.

Lemma Safe_suite_header suite suite_totals elapsed :
  Safe elapsed -> Safe (suite_header suite suite_totals elapsed).
Proof. intros He. unfold suite_header. safe. Qed.

Lemma Safe_class_header suite classname class_totals elapsed :
  Safe elapsed -> Safe (class_header suite classname class_totals elapsed).
Proof. intros He. unfold class_header. safe. Qed.

Lemma Safe_sidebar_open title : Safe (sidebar_open title).
Proof. unfold sidebar_open. safe. Qed.

Lemma Safe_sidebar_suite_open suite : Safe (sidebar_suite_open suite).
Proof. unfold sidebar_suite_open. safe. Qed.

Lemma Safe_sidebar_class_open suite classname :
  Safe (sidebar_class_open suite classname).
Proof. unfold sidebar_class_open. safe. Qed.

Lemma Safe_sidebar_case suite classname name :
  Safe (sidebar_case suite classname name).
Proof. unfold sidebar_case. safe. Qed.

Lemma mapM_Forall {A B : Type} (f : A -> result B) (P : B -> Prop) l ys :
  (forall x y, f x = Ok y -> P y) -> mapM f l = Ok ys -> Forall P ys.
Proof.
  intros Hf. revert ys. induction l as [|a l IH]; intros ys H; simpl in H.
  - apply Ok_inj in H. subst ys. constructor.
  - apply bind_ok in H. destruct H as (b & Hb & H).
    apply bind_ok in H. destruct H as (bs & Hbs & H).
    apply Ok_inj in H. subst ys. constructor; [eapply Hf; eassumption|].
    now apply IH.
Qed.

Lemma Safe_join l : Forall Safe l -> Safe (join l).
Proof. apply Clean_join, script_needle_lt. Qed.

Lemma Safe_class_section structure suite classname cls :
  class_section_html structure suite classname = Ok cls -> Safe cls.
Proof.
  unfold class_section_html. intros H.
  apply bind_ok in H. destruct H as (elapsed & He & H).
  apply bind_ok in H. destruct H as (rows & Hrows & H).
  apply Ok_inj in H. subst cls.
  apply no_lt_seconds_fmt, Safe_no_lt in He.
  apply Safe_app; [now apply Safe_class_header|].
  apply Safe_app; [|apply Safe_static; vm_compute; reflexivity].
  apply Safe_join. eapply mapM_Forall; [|exact Hrows]. apply Safe_row.
Qed.

Lemma Safe_suite_section structure suite section :
  suite_section_html structure suite = Ok section -> Safe section.
Proof.
  unfold suite_section_html. intros H.
  apply bind_ok in H. destruct H as (elapsed & He & H).
  apply bind_ok in H. destruct H as (classes & Hclasses & H).
  apply Ok_inj in H. subst section.
  apply no_lt_seconds_fmt, Safe_no_lt in He.
  apply Safe_app; [now apply Safe_suite_header|].
  apply Safe_app; [|apply Safe_static; vm_compute; reflexivity].
  apply Safe_join. eapply mapM_Forall; [|exact Hclasses].
  apply Safe_class_section.
Qed.

Lemma Safe_main_content data html :
  _build_main_content data = Ok html -> Safe html.
Proof.
  rewrite _build_main_content_text. intros H.
  apply bind_ok in H. destruct H as (sections & Hsections & H).
  apply Ok_inj in H. subst html.
  apply Safe_join. eapply mapM_Forall; [|exact Hsections].
  apply Safe_suite_section.
Qed.

Lemma Safe_join_map {A : Type} (f : A -> string) l :
  (forall x, Safe (f x)) -> Safe (join (map f l)).
Proof. apply Clean_join_map, script_needle_lt. Qed.

Lemma Safe_sidebar data title : Safe (_build_sidebar data title).
Proof.
  rewrite _build_sidebar_text.
  apply Safe_app; [apply Safe_sidebar_open|].
  apply Safe_app; [|apply Safe_static; vm_compute; reflexivity].
  apply Safe_join_map. intros suite. unfold sidebar_suite_html.
  apply Safe_app; [apply Safe_sidebar_suite_open|].
  apply Safe_app; [|apply Safe_static; vm_compute; reflexivity].
  apply Safe_join_map. intros classname. unfold sidebar_class_html.
  apply Safe_app; [apply Safe_sidebar_class_open|].
  apply Safe_app; [|apply Safe_static; vm_compute; reflexivity].
  apply Safe_join_map. intros name. apply Safe_sidebar_case.
Qed.

Lemma render_html_inv now data title html :
  render_html now data title = Ok html ->
  exists main_content_html elapsed,
    _build_main_content data = Ok main_content_html
    /\ seconds_fmt (t_time (totals data)) = Ok elapsed
    /\ html =
       page_head ++ _escape_html title ++ page_style
       ++ _build_sidebar data title ++ page_body_open ++ _escape_html title
       ++ page_title_close ++ _escape_html now ++ page_totals_open
       ++ str_of_int (t_suites (totals data)) ++ pill_tests
       ++ str_of_int (t_tests (totals data)) ++ pill_pass
       ++ str_of_int (t_passed (totals data)) ++ pill_fail
       ++ str_of_int (t_failures (totals data)) ++ pill_err
       ++ str_of_int (t_errors (totals data)) ++ pill_skip
       ++ str_of_int (t_skipped (totals data)) ++ pill_time
       ++ elapsed ++ page_controls ++ main_content_html ++ page_script.
Proof.
  unfold render_html. intros H.
  apply bind_ok in H. destruct H as (main_content_html & Hmain & H).
  apply bind_ok in H. destruct H as (elapsed & He & H).
  apply Ok_inj in H. eauto.
Qed.

Lemma Safe_render_html now data title html :
  render_html now data title = Ok html -> Safe html.
Proof.
  intros H. apply render_html_inv in H.
  destruct H as (main_content_html & elapsed & Hmain & He & ->).
  apply Safe_main_content in Hmain.
  apply no_lt_seconds_fmt, Safe_no_lt in He.
  pose proof (Safe_sidebar data title) as Hside.
  safe.
Qed.

(* ================================================================= *)
(** ** Every field is embedded escaped *)

Definition markup_char (c : ascii) : bool :=
  Ascii.eqb c "<" || Ascii.eqb c ">" || Ascii.eqb c "034" || Ascii.eqb c "'".

Fixpoint markup_free (s : string) : bool :=
  match s with
  | EmptyString => true
  | String c rest => negb (markup_char c) && markup_free rest
  end.

(** A test case named by script markup, failing with markup in its
    message and in its detail. *)
Definition script_case : TestCase :=
  {| tc_classname := Some "pkg.<T>"; tc_name := Some script_needle;
     tc_time := None;
     tc_result := [{| r_kind := Failure; r_message := Some "a < b & c";
                      r_text := Some "<pre>" |}] |}.

Definition script_files : Files :=
  fun p =>
    if String.eqb p "x.xml"
    then Some [{| ts_name := Some "S"; ts_tests := Some 1; ts_failures := Some 1;
                  ts_errors := None; ts_skipped := None; ts_disabled := None;
                  ts_time := None; ts_children := [CaseElem script_case] |}]
    else None.

Lemma markup_free_app a b : markup_free (a ++ b) = markup_free a && markup_free b.
Proof.
  induction a as [|c a IH]; simpl; [reflexivity|].
  now rewrite IH, andb_assoc.
Qed.

Lemma escape_markup_free x : markup_free (_escape_html x) = true.
Proof.
  induction x as [|c x IH]; simpl; [reflexivity|].
  rewrite markup_free_app, IH, andb_true_r. unfold escape_char.
  destruct (Ascii.eqb c "&"); [reflexivity|].
  destruct (Ascii.eqb c "<") eqn:E1; [reflexivity|].
  destruct (Ascii.eqb c ">") eqn:E2; [reflexivity|].
  destruct (Ascii.eqb c "034") eqn:E3; [reflexivity|].
  destruct (Ascii.eqb c "'") eqn:E4; [reflexivity|].
  simpl. unfold markup_char. now rewrite E1, E2, E3, E4.
Qed.

Lemma row_fields c row :
  _build_row_html c = Ok row ->
  Substring (_escape_html (c_name c)) row
  /\ Substring (_escape_html (c_suite c)) row
  /\ Substring (_escape_html (c_classname c)) row
  /\ (need_details c = true ->
      Substring (_escape_html (or_s (c_message c) "(no message)")) row
      /\ Substring (_escape_html (strip (or_s (c_detail c) ""))) row).
Proof.
  unfold _build_row_html. intros H.
  apply bind_ok in H. destruct H as (elapsed & _ & H).
  apply Ok_inj in H. subst row.
  split; [find_substring|]. split; [find_substring|]. split; [find_substring|].
  intros Hd. rewrite Hd.
  split; (apply (Substring_trans _ (details_html_of c)); [|find_substring]);
    unfold details_html_of; find_substring.
Qed.

(** C5: in every page render_html returns, the markup
    <script>alert(1)</script> does not occur, so a case name that
    contains it does not occur either; the title and, for every case, its
    name, suite name and class name occur in their escaped forms, as do
    the message and the stripped detail of a case with details; and an
    escaped text holds none of the characters <, >, double quote and
    single quote. *)
Theorem C5_fields_are_escaped (now : string) (data : ReportData)
    (title html : string) :
  render_html now data title = Ok html ->
  ~ Substring script_needle html
  /\ (forall c, In c (cases data) -> Substring script_needle (c_name c) ->
        ~ Substring (c_name c) html)
  /\ Substring (_escape_html title) html
  /\ (forall c, In c (cases data) ->
        Substring (_escape_html (c_name c)) html
        /\ Substring (_escape_html (c_suite c)) html
        /\ Substring (_escape_html (c_classname c)) html
        /\ (need_details c = true ->
            Substring (_escape_html (or_s (c_message c) "(no message)")) html
            /\ Substring (_escape_html (strip (or_s (c_detail c) ""))) html))
  /\ (forall x, markup_free (_escape_html x) = true)
  /\ _escape_html script_needle = "&lt;script&gt;alert(1)&lt;/script&gt;".
Proof.
  intros H. pose proof (Safe_render_html _ _ _ _ H) as [Hsafe _].
  split; [exact Hsafe|]. split.
  { intros c _ Hn Hc. apply Hsafe. eapply Substring_trans; eassumption. }
  apply render_html_inv in H.
  destruct H as (main_content_html & elapsed & Hmain & _ & ->).
  split; [find_substring|]. split; [|split; [apply escape_markup_free|reflexivity]].
  intros c Hc.
  destruct (row_in_main_content data _ c Hmain Hc)
    as (section & cls & row & _ & _ & Hrow & Hs1 & Hs2 & Hs3).
  assert (Hin : Substring row
                  (page_head ++ _escape_html title ++ page_style
                   ++ _build_sidebar data title ++ page_body_open ++ _escape_html title
                   ++ page_title_close ++ _escape_html now ++ page_totals_open
                   ++ str_of_int (t_suites (totals data)) ++ pill_tests
                   ++ str_of_int (t_tests (totals data)) ++ pill_pass
                   ++ str_of_int (t_passed (totals data)) ++ pill_fail
                   ++ str_of_int (t_failures (totals data)) ++ pill_err
                   ++ str_of_int (t_errors (totals data)) ++ pill_skip
                   ++ str_of_int (t_skipped (totals data)) ++ pill_time
                   ++ elapsed ++ page_controls ++ main_content_html ++ page_script)).
  { eapply Substring_trans; [exact Hs1|].
    eapply Substring_trans; [exact Hs2|].
    eapply Substring_trans; [exact Hs3|]. find_substring. }
  destruct (row_fields c row Hrow) as (F1 & F2 & F3 & F4).
  split; [eapply Substring_trans; eassumption|].
  split; [eapply Substring_trans; eassumption|].
  split; [eapply Substring_trans; eassumption|].
  intros Hd. destruct (F4 Hd) as [F5 F6].
  split; eapply Substring_trans; eassumption.
Qed.

Lemma C5_fields_are_escaped_witness :
  exists data html,
    parse_files script_files ["x.xml"] = Ok data
    /\ render_html "2025-01-01 00:00:00" data "Report <1>" = Ok html
    /\ ~ Substring script_needle html
    /\ Substring "&lt;script&gt;alert(1)&lt;/script&gt;" html.
Proof.
  eexists. 
  destruct (render_html "2025-01-01 00:00:00"
              {| suites := flat_map file_summaries
                             [("x.xml", [Build_TestSuite (Some "S") (Some 1) (Some 1)
                                           None None None None [CaseElem script_case]])];
                 cases := [case_record "S" script_case];
                 totals := make_totals
                             (flat_map file_summaries
                                [("x.xml", [Build_TestSuite (Some "S") (Some 1) (Some 1)
                                              None None None None [CaseElem script_case]])]) |}
              "Report <1>") as [html|e] eqn:E.
  - exists html. split; [reflexivity|]. split; [exact E|].
    pose proof (C5_fields_are_escaped _ _ _ _ E) as (H1 & _ & _ & H4 & _).
    split; [exact H1|].
    exact (proj1 (H4 (case_record "S" script_case) (or_introl eq_refl))).
  - exfalso. vm_compute in E. discriminate E.
Defined.

(** * Time formatting (C7) *)

(** ** Binary64 arithmetic without rounding *)

Lemma digits_bounds p :
  2 ^ (Zpos (digits2_pos p) - 1) <= Zpos p < 2 ^ Zpos (digits2_pos p).
Proof.
  induction p as [p IH|p IH|]; cbn [digits2_pos].
  - rewrite Pos2Z.inj_succ.
    replace (Z.succ (Zpos (digits2_pos p)) - 1) with (Z.succ (Zpos (digits2_pos p) - 1)) by lia.
    rewrite !Z.pow_succ_r by lia. lia.
  - rewrite Pos2Z.inj_succ.
    replace (Z.succ (Zpos (digits2_pos p)) - 1) with (Z.succ (Zpos (digits2_pos p) - 1)) by lia.
    rewrite !Z.pow_succ_r by lia. lia.
  - simpl. lia.
Qed.

Lemma digits_unique p k :
  2 ^ (k - 1) <= Zpos p < 2 ^ k -> Zpos (digits2_pos p) = k.
Proof.
  intros [Hlo Hhi]. pose proof (digits_bounds p) as [Dlo Dhi].
  assert (0 <= k).
  { destruct (Z_lt_le_dec k 0) as [Hk|]; [|assumption].
    rewrite (Z.pow_neg_r 2 k Hk) in Hhi. lia. }
  destruct (Z_lt_le_dec (Zpos (digits2_pos p)) k) as [Hlt|Hge].
  - assert (2 ^ Zpos (digits2_pos p) <= 2 ^ (k - 1)) by (apply Z.pow_le_mono_r; lia).
    lia.
  - destruct (Z_lt_le_dec k (Zpos (digits2_pos p))) as [Hlt|Hle]; [|lia].
    assert (2 ^ k <= 2 ^ (Zpos (digits2_pos p) - 1)) by (apply Z.pow_le_mono_r; lia).
    lia.
Qed.

Lemma digits_mul_pow2 p q k :
  0 <= k -> Zpos q = Zpos p * 2 ^ k ->
  Zpos (digits2_pos q) = Zpos (digits2_pos p) + k.
Proof.
  intros Hk Hq. apply digits_unique. pose proof (digits_bounds p) as [Dlo Dhi].
  replace (Zpos (digits2_pos p) + k - 1) with (Zpos (digits2_pos p) - 1 + k) by lia.
  rewrite !Z.pow_add_r by lia. rewrite Hq.
  assert (0 < 2 ^ k) by (apply Z.pow_pos_nonneg; lia).
  split; [apply Z.mul_le_mono_nonneg_r; lia|apply Z.mul_lt_mono_pos_r; lia].
Qed.

Lemma iter_pos_nat {A : Type} (f : A -> A) p x :
  iter_pos f p x = Nat.iter (Pos.to_nat p) f x.
Proof.
  revert x. induction p as [p IH|p IH|]; intros x; cbn [iter_pos].
  - rewrite !IH, Pos2Nat.inj_xI, <- Nat.iter_add, <- Nat.iter_succ_r.
    f_equal. lia.
  - rewrite !IH, Pos2Nat.inj_xO, <- Nat.iter_add. f_equal. lia.
  - reflexivity.
Qed.

Lemma Zpos_iter_xO (k : nat) n :
  Zpos (Nat.iter k xO n) = Zpos n * 2 ^ Z.of_nat k.
Proof.
  induction k as [|k IH].
  - simpl. lia.
  - cbn [Nat.iter nat_rect]. rewrite Pos2Z.inj_xO.
    change (Pos.iter xO n) with (Pos.iter xO n) in *.
    change (nat_rect (fun _ => positive) n (fun _ => xO) k) with (Nat.iter k xO n).
    rewrite IH, Nat2Z.inj_succ, Z.pow_succ_r by lia. lia.
Qed.

Lemma shr_zeros (k : nat) n :
  Nat.iter k shr_1 {| shr_m := Zpos (Nat.iter k xO n); shr_r := false; shr_s := false |}
  = {| shr_m := Zpos n; shr_r := false; shr_s := false |}.
Proof.
  induction k as [|k IH]; [reflexivity|].
  rewrite Nat.iter_succ_r. exact IH.
Qed.

Lemma shr_exact j (N n : positive) :
  Zpos N = Zpos n * 2 ^ Zpos j ->
  iter_pos shr_1 j {| shr_m := Zpos N; shr_r := false; shr_s := false |}
  = {| shr_m := Zpos n; shr_r := false; shr_s := false |}.
Proof.
  intros H. rewrite iter_pos_nat.
  assert (E : N = Nat.iter (Pos.to_nat j) xO n).
  { apply Pos2Z.inj. rewrite Zpos_iter_xO, positive_nat_Z. exact H. }
  rewrite E. apply shr_zeros.
Qed.

Lemma fexp_eq z : fexp PyFloat.prec PyFloat.emax z = Z.max (z - 53) (-1074).
Proof. reflexivity. Qed.

(** Rounding a mantissa whose low bits are all zero: the bits are
    dropped and nothing is rounded. *)
Lemma round_aux_exact sx (N n : positive) (e fe : Z) :
  fe = fexp PyFloat.prec PyFloat.emax (Zpos (digits2_pos N) + e) ->
  e <= fe -> fe <= 971 ->
  Zpos N = Zpos n * 2 ^ (fe - e) ->
  binary_round_aux PyFloat.prec PyFloat.emax sx (Zpos N) e loc_Exact
  = S754_finite sx n fe.
Proof.
  intros Hfe Hle Hmax HN.
  assert (Hd : Zpos (digits2_pos N) = Zpos (digits2_pos n) + (fe - e))
    by (apply digits_mul_pow2; [lia|exact HN]).
  assert (Hfe' : fexp PyFloat.prec PyFloat.emax (Zpos (digits2_pos n) + fe) = fe).
  { rewrite Hfe at 2. f_equal. lia. }
  unfold binary_round_aux, shr_fexp. cbn [Zdigits2 shr_record_of_loc].
  rewrite <- Hfe.
  assert (Hshr : shr {| shr_m := Zpos N; shr_r := false; shr_s := false |} e (fe - e)
                 = ({| shr_m := Zpos n; shr_r := false; shr_s := false |}, fe)).
  { destruct (fe - e) as [|j|j] eqn:Ej; try lia.
    - unfold shr. f_equal; [|lia]. f_equal. rewrite HN. simpl. lia.
    - unfold shr. f_equal; [|lia]. now apply shr_exact. }
  rewrite Hshr. cbn [shr_m loc_of_shr_record round_nearest_even Zdigits2].
  rewrite Hfe', Z.sub_diag. cbn [shr shr_record_of_loc shr_m].
  assert (Hb : (fe <=? PyFloat.emax - PyFloat.prec) = true) by (apply Z.leb_le; exact Hmax).
  now rewrite Hb.
Qed.

Lemma Zpos_pos_iter_xO n d : Zpos (Pos.iter xO n d) = Zpos n * 2 ^ Zpos d.
Proof.
  rewrite <- (positive_nat_Z d), <- Zpos_iter_xO. f_equal.
  rewrite Pos2Nat.inj_iter. reflexivity.
Qed.

(** Rounding a value that is a float gives that float. *)
Lemma round_exact sx (N n : positive) (e fe : Z) :
  fe = fexp PyFloat.prec PyFloat.emax (Zpos (digits2_pos N) + e) ->
  fe <= 971 -> -1074 <= e ->
  Zpos N * 2 ^ (e + 1074) = Zpos n * 2 ^ (fe + 1074) ->
  binary_round PyFloat.prec PyFloat.emax sx N e = S754_finite sx n fe.
Proof.
  intros Hfe Hmax He Hv.
  assert (Hfe0 : -1074 <= fe) by (rewrite Hfe, fexp_eq; lia).
  unfold binary_round, shl_align. rewrite <- Hfe.
  destruct (fe - e) as [|j|j] eqn:Ej.
  - apply round_aux_exact; try assumption; try lia.
    rewrite Ej, Z.pow_0_r, Z.mul_1_r.
    replace (fe + 1074) with (e + 1074) in Hv by lia.
    apply Z.mul_reg_r in Hv; [exact Hv|].
    apply Z.pow_nonzero; lia.
  - apply round_aux_exact; try assumption; try lia.
    replace (e + 1074) with ((fe + 1074) - (fe - e)) in Hv by lia.
    assert (0 < 2 ^ (fe - e)) by (apply Z.pow_pos_nonneg; lia).
    assert (E : 2 ^ (fe + 1074) = 2 ^ (fe + 1074 - (fe - e)) * 2 ^ (fe - e)).
    { rewrite <- Z.pow_add_r by lia. f_equal. lia. }
    rewrite E in Hv. rewrite Z.mul_assoc in Hv.
    assert (0 < 2 ^ (fe + 1074 - (fe - e))) by (apply Z.pow_pos_nonneg; lia).
    nia.
  - assert (Hm : Zpos (Pos.iter xO N j) = Zpos n).
    { rewrite Zpos_pos_iter_xO.
      replace (e + 1074) with (Zpos j + (fe + 1074)) in Hv by lia.
      rewrite Z.pow_add_r in Hv by lia.
      assert (0 < 2 ^ (fe + 1074)) by (apply Z.pow_pos_nonneg; lia).
      nia. }
    apply Pos2Z.inj in Hm. rewrite Hm.
    apply round_aux_exact; try lia.
    + rewrite Hfe. f_equal.
      assert (Zpos (digits2_pos n) = Zpos (digits2_pos N) + Zpos j).
      { apply digits_mul_pow2; [lia|]. rewrite <- Hm. apply Zpos_pos_iter_xO. }
      lia.
    + rewrite Z.sub_diag. lia.
Qed.

(** [x] is the positive finite float of value [v / 2^1074]. *)
Definition Repr (x : float) (v : Z) : Prop :=
  exists m e,
    x = S754_finite false m e
    /\ bounded PyFloat.prec PyFloat.emax m e = true
    /\ v = Zpos m * 2 ^ (e + 1074).

(** [v / 2^1074] needs no more than 53 bits and is in range. *)
Definition fits (v : Z) : Prop :=
  exists n k, 0 < n < 2 ^ 53 /\ 0 <= k /\ v = n * 2 ^ k /\ v < 2 ^ 2098.

Lemma bounded_iff m e :
  bounded PyFloat.prec PyFloat.emax m e = true <->
  fexp PyFloat.prec PyFloat.emax (Zpos (digits2_pos m) + e) = e /\ e <= 971.
Proof.
  unfold bounded, canonical_mantissa. rewrite andb_true_iff, Z.eqb_eq, Z.leb_le.
  reflexivity.
Qed.

Lemma digits_le_53 n : Zpos n < 2 ^ 53 -> Zpos (digits2_pos n) <= 53.
Proof.
  intros H. pose proof (digits_bounds n) as [Dlo _].
  destruct (Z_lt_le_dec 53 (Zpos (digits2_pos n))) as [Hlt|]; [|assumption].
  assert (2 ^ 53 <= 2 ^ (Zpos (digits2_pos n) - 1)) by (apply Z.pow_le_mono_r; lia).
  lia.
Qed.

Lemma digits_lt_pow n k : 0 <= k -> Zpos n < 2 ^ k -> Zpos (digits2_pos n) <= k.
Proof.
  intros Hk H. pose proof (digits_bounds n) as [Dlo _].
  destruct (Z_lt_le_dec k (Zpos (digits2_pos n))) as [Hlt|]; [|assumption].
  assert (2 ^ k <= 2 ^ (Zpos (digits2_pos n) - 1)) by (apply Z.pow_le_mono_r; lia).
  lia.
Qed.

Lemma norm_Repr (N : positive) e :
  -1074 <= e -> fits (Zpos N * 2 ^ (e + 1074)) ->
  Repr (binary_normalize PyFloat.prec PyFloat.emax (Zpos N) e false)
       (Zpos N * 2 ^ (e + 1074)).
Proof.
  intros He (n & k & [Hn0 Hn] & Hk & Hv & Hmax).
  destruct n as [|np|np]; try lia.
  assert (Hpe : 0 < 2 ^ (e + 1074)) by (apply Z.pow_pos_nonneg; lia).
  assert (Hpk : 0 < 2 ^ k) by (apply Z.pow_pos_nonneg; lia).
  remember (Zpos N * 2 ^ (e + 1074)) as v eqn:Ev.
  destruct v as [|vp|vp]; try lia.
  assert (D1 : Zpos (digits2_pos vp) = Zpos (digits2_pos N) + (e + 1074))
    by (apply digits_mul_pow2; [lia|exact Ev]).
  assert (D2 : Zpos (digits2_pos vp) = Zpos (digits2_pos np) + k)
    by (apply digits_mul_pow2; [lia|exact Hv]).
  pose proof (digits_le_53 np Hn) as D3.
  assert (D4 : Zpos (digits2_pos vp) <= 2098) by (apply digits_lt_pow; lia).
  remember (fexp PyFloat.prec PyFloat.emax (Zpos (digits2_pos N) + e)) as fe eqn:Efe.
  assert (Hfe : fe = Z.max (Zpos (digits2_pos N) + e - 53) (-1074))
    by (rewrite Efe; apply fexp_eq).
  assert (Hx : 0 <= k - (fe + 1074)) by lia.
  assert (Hpx : 0 < 2 ^ (k - (fe + 1074))) by (apply Z.pow_pos_nonneg; lia).
  remember (Zpos np * 2 ^ (k - (fe + 1074))) as n' eqn:En'.
  destruct n' as [|n'|n']; try lia.
  assert (Hval : Zpos vp = Zpos n' * 2 ^ (fe + 1074)).
  { rewrite En', <- Z.mul_assoc, <- Z.pow_add_r by lia.
    replace (k - (fe + 1074) + (fe + 1074)) with k by lia. exact Hv. }
  assert (Hround : binary_round PyFloat.prec PyFloat.emax false N e
                   = S754_finite false n' fe).
  { apply round_exact; try assumption; lia. }
  unfold binary_normalize. rewrite Hround.
  exists n', fe. split; [reflexivity|]. split; [|exact Hval].
  apply bounded_iff. split; [|lia].
  assert (D5 : Zpos (digits2_pos vp) = Zpos (digits2_pos n') + (fe + 1074))
    by (apply digits_mul_pow2; [lia|exact Hval]).
  rewrite Efe at 2. f_equal. lia.
Qed.

Lemma bounded_exp_lo m e :
  bounded PyFloat.prec PyFloat.emax m e = true -> -1074 <= e.
Proof.
  intros Hb. apply bounded_iff in Hb. destruct Hb as [Hb _].
  rewrite fexp_eq in Hb. lia.
Qed.

Lemma Repr_pos x v : Repr x v -> 0 < v.
Proof.
  intros (m & e & -> & Hb & ->).
  pose proof (bounded_exp_lo m e Hb).
  assert (0 < 2 ^ (e + 1074)) by (apply Z.pow_pos_nonneg; lia). lia.
Qed.

(** A value has one float. *)
Lemma Repr_uniq x y v : Repr x v -> Repr y v -> x = y.
Proof.
  intros (m1 & e1 & -> & Hb1 & Hv1) (m2 & e2 & -> & Hb2 & Hv2).
  pose proof (bounded_exp_lo m1 e1 Hb1) as L1.
  pose proof (bounded_exp_lo m2 e2 Hb2) as L2.
  apply bounded_iff in Hb1, Hb2. destruct Hb1 as [C1 _], Hb2 as [C2 _].
  assert (P1 : 0 < 2 ^ (e1 + 1074)) by (apply Z.pow_pos_nonneg; lia).
  assert (P2 : 0 < 2 ^ (e2 + 1074)) by (apply Z.pow_pos_nonneg; lia).
  destruct v as [|vp|vp]; try lia.
  assert (D1 : Zpos (digits2_pos vp) = Zpos (digits2_pos m1) + (e1 + 1074))
    by (apply digits_mul_pow2; [lia|exact Hv1]).
  assert (D2 : Zpos (digits2_pos vp) = Zpos (digits2_pos m2) + (e2 + 1074))
    by (apply digits_mul_pow2; [lia|exact Hv2]).
  assert (E : e1 = e2).
  { rewrite <- C1, <- C2. f_equal. lia. }
  subst e2. assert (Zpos m1 = Zpos m2) by nia.
  congruence.
Qed.

Lemma fits_small z k : 0 < z < 2 ^ 53 -> 0 <= k <= 1074 -> fits (z * 2 ^ k).
Proof.
  intros Hz Hk. exists z, k. repeat split; try lia.
  assert (2 ^ k <= 2 ^ 1074) by (apply Z.pow_le_mono_r; lia).
  assert (0 < 2 ^ k) by (apply Z.pow_pos_nonneg; lia).
  change (2 ^ 2098) with (2 ^ 1024 * 2 ^ 1074).
  assert (z * 2 ^ k <= z * 2 ^ 1074) by (apply Z.mul_le_mono_nonneg_l; lia).
  assert (z * 2 ^ 1074 < 2 ^ 1024 * 2 ^ 1074).
  { apply Z.mul_lt_mono_pos_r; [lia|].
    assert (2 ^ 53 <= 2 ^ 1024) by (apply Z.pow_le_mono_r; lia). lia. }
  lia.
Qed.

Lemma Repr_lit z : 0 < z < 2 ^ 53 -> Repr (PyFloat.lit z) (z * 2 ^ 1074).
Proof.
  intros Hz. unfold PyFloat.lit. destruct z as [|N|N]; try lia.
  change (2 ^ 1074) with (2 ^ (0 + 1074)).
  apply norm_Repr; [lia|]. apply fits_small; simpl; lia.
Qed.

Lemma shl_align_fst m e ez :
  ez <= e -> Zpos (fst (shl_align m e ez)) = Zpos m * 2 ^ (e - ez).
Proof.
  intros H. unfold shl_align. destruct (ez - e) as [|d|d] eqn:E; try lia.
  - replace (e - ez) with 0 by lia. simpl. lia.
  - cbn [fst]. rewrite Zpos_pos_iter_xO. f_equal. f_equal. lia.
Qed.

(** A difference that is a float is computed exactly. *)
Lemma Repr_sub x y vx vy :
  Repr x vx -> Repr y vy -> vy < vx -> fits (vx - vy) ->
  Repr (PyFloat.sub x y) (vx - vy).
Proof.
  intros (mx & ex & -> & Hbx & Hvx) (my & ey & -> & Hby & Hvy) Hlt Hfits.
  pose proof (bounded_exp_lo mx ex Hbx) as Lx.
  pose proof (bounded_exp_lo my ey Hby) as Ly.
  unfold PyFloat.sub, SFsub. cbn [cond_Zopp].
  set (ez := Z.min ex ey).
  rewrite !shl_align_fst by (unfold ez; lia).
  assert (Pz : 0 < 2 ^ (ez + 1074)) by (apply Z.pow_pos_nonneg; unfold ez; lia).
  assert (E : (Zpos mx * 2 ^ (ex - ez) - Zpos my * 2 ^ (ey - ez)) * 2 ^ (ez + 1074)
              = vx - vy).
  { rewrite Z.mul_sub_distr_r, <- !Z.mul_assoc, <- !Z.pow_add_r by (unfold ez; lia).
    replace (ex - ez + (ez + 1074)) with (ex + 1074) by lia.
    replace (ey - ez + (ez + 1074)) with (ey + 1074) by lia. lia. }
  destruct (Zpos mx * 2 ^ (ex - ez) - Zpos my * 2 ^ (ey - ez)) as [|Nd|Nd] eqn:Ed;
    try nia.
  rewrite <- E. apply norm_Repr; [unfold ez; lia|]. now rewrite E.
Qed.

Lemma sub_self x v : Repr x v -> PyFloat.sub x x = S754_zero false.
Proof.
  intros (m & e & -> & _ & _). unfold PyFloat.sub, SFsub. cbn [cond_Zopp].
  now rewrite Z.sub_diag.
Qed.

Lemma Repr_to_int x q : 0 < q -> Repr x (q * 2 ^ 1074) -> PyFloat.to_int x = Ok q.
Proof.
  intros Hq (m & e & -> & Hb & Hv).
  pose proof (bounded_exp_lo m e Hb) as L.
  unfold PyFloat.to_int. cbn [cond_Zopp]. f_equal.
  destruct e as [|p|p].
  - simpl in Hv. simpl. assert (0 < 2 ^ 1074) by (apply Z.pow_pos_nonneg; lia). nia.
  - rewrite Z.shiftl_mul_pow2 by lia.
    rewrite Z.pow_add_r in Hv by lia.
    assert (0 < 2 ^ 1074) by (apply Z.pow_pos_nonneg; lia). nia.
  - rewrite Z.shiftr_div_pow2 by lia.
    assert (E : q * 2 ^ 1074 = q * 2 ^ Zpos p * 2 ^ (Zneg p + 1074)).
    { rewrite <- Z.mul_assoc, <- Z.pow_add_r by lia. f_equal. f_equal. lia. }
    rewrite E in Hv.
    assert (0 < 2 ^ (Zneg p + 1074)) by (apply Z.pow_pos_nonneg; lia).
    assert (Hm : Zpos m = q * 2 ^ Zpos p) by nia.
    rewrite Hm. apply Z.div_mul. apply Z.pow_nonzero; lia.
Qed.

Lemma Repr_floor x q :
  0 < q < 2 ^ 53 -> Repr x (q * 2 ^ 1074) -> PyFloat.floor x = x.
Proof.
  intros Hq Hx. pose proof Hx as (m & e & -> & Hb & Hv).
  unfold PyFloat.floor. destruct e as [|p|p]; try reflexivity.
  pose proof (Repr_to_int _ q (proj1 Hq) Hx) as Hi.
  unfold PyFloat.to_int in Hi. cbn [cond_Zopp] in Hi. apply Ok_inj in Hi.
  cbn [cond_Zopp]. rewrite Hi.
  destruct q as [|qp|qp]; try lia.
  apply (Repr_uniq _ _ (Zpos qp * 2 ^ 1074)); [|exact Hx].
  apply (Repr_lit (Zpos qp) Hq).
Qed.

Lemma lit_60 : PyFloat.lit 60 = S754_finite false 8444249301319680 (-47).
Proof. reflexivity. Qed.

Lemma lit_2_53 : PyFloat.lit (2 ^ 53) = S754_finite false 4503599627370496 1.
Proof. reflexivity. Qed.

Lemma digits_mono a b : Zpos a <= Zpos b -> Zpos (digits2_pos a) <= Zpos (digits2_pos b).
Proof.
  intros H. pose proof (digits_bounds a) as [Alo _]. pose proof (digits_bounds b) as [_ Bhi].
  destruct (Z_lt_le_dec (Zpos (digits2_pos b)) (Zpos (digits2_pos a))) as [Hlt|]; [|assumption].
  assert (2 ^ Zpos (digits2_pos b) <= 2 ^ (Zpos (digits2_pos a) - 1))
    by (apply Z.pow_le_mono_r; lia).
  lia.
Qed.

Lemma digits_ge a k : 0 <= k -> 2 ^ k <= Zpos a -> k + 1 <= Zpos (digits2_pos a).
Proof.
  intros Hk H. pose proof (digits_bounds a) as [_ Hhi].
  destruct (Z_lt_le_dec (Zpos (digits2_pos a)) (k + 1)) as [Hlt|]; [|assumption].
  assert (2 ^ Zpos (digits2_pos a) <= 2 ^ k) by (apply Z.pow_le_mono_r; lia).
  lia.
Qed.

(** The exponent and the size of the mantissa of a float in [60, 2^53). *)
Lemma Repr_range m e v :
  bounded PyFloat.prec PyFloat.emax m e = true ->
  v = Zpos m * 2 ^ (e + 1074) ->
  60 * 2 ^ 1074 <= v < 2 ^ 53 * 2 ^ 1074 ->
  -47 <= e <= 0 /\ Zpos (digits2_pos m) = 53.
Proof.
  intros Hb Hv [Hlo Hhi]. pose proof (bounded_exp_lo m e Hb) as L.
  apply bounded_iff in Hb. destruct Hb as [Hc _]. rewrite fexp_eq in Hc.
  assert (P : 0 < 2 ^ (e + 1074)) by (apply Z.pow_pos_nonneg; lia).
  destruct v as [|vp|vp]; try lia.
  assert (D : Zpos (digits2_pos vp) = Zpos (digits2_pos m) + (e + 1074))
    by (apply digits_mul_pow2; [lia|exact Hv]).
  assert (D1 : 1079 + 1 <= Zpos (digits2_pos vp)).
  { apply digits_ge; [lia|]. change (2 ^ 1079) with (32 * 2 ^ 1074).
    assert (0 < 2 ^ 1074) by (apply Z.pow_pos_nonneg; lia). lia. }
  assert (D2 : Zpos (digits2_pos vp) <= 1127).
  { apply digits_lt_pow; [lia|]. change (2 ^ 1127) with (2 ^ 53 * 2 ^ 1074). lia. }
  lia.
Qed.

Lemma div_eucl_exact a b q : 0 < b -> a = q * b -> Z.div_eucl a b = (q, 0).
Proof.
  intros Hb ->. pose proof (Z.div_mul q b ltac:(lia)) as Hd.
  pose proof (Z.mod_mul q b ltac:(lia)) as Hm.
  unfold Z.div, Z.modulo in Hd, Hm.
  destruct (Z.div_eucl (q * b) b) as [q' r]. now subst.
Qed.

(** Dividing an exact multiple of 60 by 60. *)
Lemma Repr_div60 x q :
  0 < q -> 60 * q < 2 ^ 53 -> Repr x (60 * q * 2 ^ 1074) ->
  Repr (PyFloat.div x (PyFloat.lit 60)) (q * 2 ^ 1074).
Proof.
  intros Hq Hq53 (mx & ex & -> & Hb & Hv).
  assert (P74 : 0 < 2 ^ 1074) by (apply Z.pow_pos_nonneg; lia).
  destruct (Repr_range mx ex _ Hb Hv) as [[Elo Ehi] Dm]; [nia|].
  destruct q as [|qp|qp]; try lia.
  (* the mantissa of x *)
  assert (Pe : 0 < 2 ^ (- ex)) by (apply Z.pow_pos_nonneg; lia).
  assert (Hmx : Zpos mx = 60 * Zpos qp * 2 ^ (- ex)).
  { assert (E : 2 ^ 1074 = 2 ^ (- ex) * 2 ^ (ex + 1074)).
    { rewrite <- Z.pow_add_r by lia. f_equal. lia. }
    rewrite E in Hv.
    assert (0 < 2 ^ (ex + 1074)) by (apply Z.pow_pos_nonneg; lia). nia. }
  (* the digits of q *)
  remember (Zpos (digits2_pos qp)) as dq eqn:Edq.
  assert (Dq1 : dq <= 53) by (rewrite Edq; apply digits_lt_pow; lia).
  assert (Dq0 : 1 <= dq) by (rewrite Edq; lia).
  assert (Dq2 : ex + 47 <= dq).
  { assert (Hm64 : Zpos mx <= Zpos qp * 2 ^ (6 - ex)).
    { rewrite Hmx. replace (6 - ex) with (6 + - ex) by lia.
      rewrite Z.pow_add_r by lia. change (2 ^ 6) with 64. nia. }
    assert (0 < Zpos qp * 2 ^ (6 - ex)) by lia.
    destruct (Zpos qp * 2 ^ (6 - ex)) as [|w|w] eqn:Ew; try lia.
    pose proof (digits_mono mx w Hm64) as Hmono.
    assert (Zpos (digits2_pos w) = Zpos (digits2_pos qp) + (6 - ex))
      by (apply digits_mul_pow2; [lia|now rewrite Ew]).
    lia. }
  (* the division itself *)
  rewrite lit_60. unfold PyFloat.div, SFdiv.
  assert (Hcore : SFdiv_core_binary PyFloat.prec PyFloat.emax (Zpos mx) ex
                    8444249301319680 (-47)
                  = (Zpos qp * 2 ^ (6 - ex), ex - 6, loc_Exact)).
  { unfold SFdiv_core_binary. cbn [Zdigits2]. rewrite Dm.
    change (Zpos (digits2_pos 8444249301319680)) with 53.
    rewrite fexp_eq.
    replace (Z.min (Z.max (53 + ex - (53 + -47) - 53) (-1074)) (ex - -47))
      with (ex - 6) by lia.
    replace (ex - -47 - (ex - 6)) with 53 by lia.
    rewrite (div_eucl_exact (Z.shiftl (Zpos mx) 53) 8444249301319680
               (Zpos qp * 2 ^ (6 - ex))); [reflexivity|lia|].
    rewrite Z.shiftl_mul_pow2, Hmx by lia.
    replace (6 - ex) with (- ex + 6) by lia. rewrite Z.pow_add_r by lia.
    change 8444249301319680 with (60 * 2 ^ 47).
    change (2 ^ 53) with (2 ^ 6 * 2 ^ 47). ring. }
  rewrite Hcore. cbn [xorb].
  assert (P6 : 0 < 2 ^ (6 - ex)) by (apply Z.pow_pos_nonneg; lia).
  destruct (Zpos qp * 2 ^ (6 - ex)) as [|N|N] eqn:EN; try lia.
  assert (DN : Zpos (digits2_pos N) = dq + (6 - ex)).
  { rewrite Edq. apply digits_mul_pow2; [lia|now rewrite EN]. }
  assert (P53 : 0 < 2 ^ (53 - dq)) by (apply Z.pow_pos_nonneg; lia).
  destruct (Zpos qp * 2 ^ (53 - dq)) as [|n|n] eqn:En; try lia.
  assert (Dn : Zpos (digits2_pos n) = 53).
  { assert (Zpos (digits2_pos n) = Zpos (digits2_pos qp) + (53 - dq))
      by (apply digits_mul_pow2; [lia|now rewrite En]).
    lia. }
  assert (Hround : binary_round_aux PyFloat.prec PyFloat.emax false (Zpos N) (ex - 6)
                     loc_Exact = S754_finite false n (dq - 53)).
  { apply round_aux_exact; try lia.
    - rewrite fexp_eq, DN. lia.
    - rewrite <- EN, <- En, <- Z.mul_assoc, <- Z.pow_add_r by lia.
      f_equal. f_equal. lia. }
  rewrite Hround. exists n, (dq - 53). split; [reflexivity|]. split.
  - apply bounded_iff. rewrite fexp_eq, Dn. lia.
  - rewrite <- En, <- Z.mul_assoc, <- Z.pow_add_r by lia. f_equal. f_equal. lia.
Qed.

(** The remainder of the division by 60. *)
Lemma fmod_60 x v :
  Repr x v -> 60 * 2 ^ 1074 <= v < 2 ^ 53 * 2 ^ 1074 ->
  (v mod (60 * 2 ^ 1074) = 0
   /\ PyFloat.fmod x (PyFloat.lit 60) = S754_zero false)
  \/ (0 < v mod (60 * 2 ^ 1074)
      /\ Repr (PyFloat.fmod x (PyFloat.lit 60)) (v mod (60 * 2 ^ 1074))).
Proof.
  intros (mx & ex & -> & Hb & Hv) Hrange.
  destruct (Repr_range mx ex v Hb Hv Hrange) as [[Elo Ehi] Dm].
  rewrite lit_60. unfold PyFloat.fmod.
  replace (Z.min ex (-47)) with (-47) by lia.
  replace (-47 - -47) with 0 by lia. rewrite Z.shiftl_0_r.
  rewrite Z.shiftl_mul_pow2 by lia.
  assert (Px : 0 < 2 ^ (ex - -47)) by (apply Z.pow_pos_nonneg; lia).
  rewrite Z.rem_mod_nonneg by lia.
  assert (Hv' : v = Zpos mx * 2 ^ (ex - -47) * 2 ^ 1027).
  { rewrite Hv, <- Z.mul_assoc, <- Z.pow_add_r by lia. f_equal. f_equal. lia. }
  assert (HR : v mod (60 * 2 ^ 1074)
               = (Zpos mx * 2 ^ (ex - -47)) mod 8444249301319680 * 2 ^ 1027).
  { rewrite Hv'. change (60 * 2 ^ 1074) with (8444249301319680 * 2 ^ 1027).
    apply Z.mul_mod_distr_r; [lia|]. apply Z.pow_nonzero; lia. }
  pose proof (Z.mod_pos_bound (Zpos mx * 2 ^ (ex - -47)) 8444249301319680 ltac:(lia))
    as [Rlo Rhi].
  rewrite HR. cbn [cond_Zopp].
  destruct ((Zpos mx * 2 ^ (ex - -47)) mod 8444249301319680) as [|r|r] eqn:Er; try lia.
  - left. split; reflexivity.
  - right. assert (0 < 2 ^ 1027) by (apply Z.pow_pos_nonneg; lia).
    split; [lia|].
    change 1027 with (-47 + 1074). apply norm_Repr; [lia|].
    apply fits_small; lia.
Qed.

(** The value of a valid float, times 2^1074: an integer. *)
Definition sval (x : float) : Z :=
  match x with
  | S754_finite s m e => cond_Zopp s (Zpos m) * 2 ^ (e + 1074)
  | _ => 0
  end.

(** The value of a valid finite float. *)
Definition F2Q (x : float) : Q := Qmake (sval x) (2 ^ 1074).

Lemma Repr_sval x v : Repr x v -> sval x = v.
Proof. intros (m & e & -> & _ & ->). reflexivity. Qed.

Lemma compare_cont_Eq a b : Pos.compare_cont Eq a b = Z.compare (Zpos a) (Zpos b).
Proof. reflexivity. Qed.

(** A valid float in [60, 2^53). *)
Lemma ge_60_Repr sec :
  PyFloat.valid sec = true ->
  PyFloat.leb (PyFloat.lit 60) sec = true ->
  PyFloat.ltb sec (PyFloat.lit (2 ^ 53)) = true ->
  Repr sec (sval sec) /\ 60 * 2 ^ 1074 <= sval sec < 2 ^ 53 * 2 ^ 1074.
Proof.
  rewrite lit_60, lit_2_53. unfold PyFloat.leb, PyFloat.ltb, SFleb, SFltb, SFcompare.
  destruct sec as [s|s| |s m e]; try discriminate.
  - destruct s; discriminate.
  - destruct s; [discriminate|]. intros Hvalid Hge Hlt.
    unfold PyFloat.valid, valid_binary in Hvalid.
    pose proof (bounded_exp_lo m e Hvalid) as L.
    pose proof Hvalid as Hb. apply bounded_iff in Hb. destruct Hb as [Hc _].
    rewrite fexp_eq in Hc.
    assert (He : -47 <= e <= 0 /\ (e = -47 -> 8444249301319680 <= Zpos m)).
    { destruct (Z.compare_spec (-47) e) as [E|E|E]; try discriminate.
      - subst e. split; [lia|]. intros _.
        rewrite compare_cont_Eq in Hge.
        destruct (Z.compare_spec 8444249301319680 (Zpos m)) as [E|E|E];
          try discriminate; lia.
      - destruct (Z.compare_spec e 1) as [E1|E1|E1]; try discriminate.
        + subst e.
          rewrite compare_cont_Eq in Hlt.
          destruct (Z.compare_spec (Zpos m) 4503599627370496) as [E2|E2|E2];
            try discriminate.
          assert (Zpos (digits2_pos m) <= 52).
          { apply digits_lt_pow; [lia|]. change (2 ^ 52) with 4503599627370496. lia. }
          lia.
        + split; lia. }
    destruct He as [[Elo Ehi] Hm].
    assert (Dm : Zpos (digits2_pos m) = 53) by lia.
    pose proof (digits_bounds m) as [Mlo Mhi]. rewrite Dm in Mlo, Mhi.
    split.
    + exists m, e. repeat split. exact Hvalid.
    + cbn [sval cond_Zopp].
      assert (P : 0 < 2 ^ (e + 1074)) by (apply Z.pow_pos_nonneg; lia).
      split.
      * destruct (Z.eq_dec e (-47)) as [->|Hne].
        -- specialize (Hm eq_refl). change (60 * 2 ^ 1074)
             with (8444249301319680 * 2 ^ (-47 + 1074)).
           apply Z.mul_le_mono_nonneg_r; lia.
        -- assert (2 ^ 1028 <= 2 ^ (e + 1074)) by (apply Z.pow_le_mono_r; lia).
           change (60 * 2 ^ 1074) with (60 * 2 ^ 46 * 2 ^ 1028).
           change (53 - 1) with 52 in Mlo.
           assert (60 * 2 ^ 46 <= 2 ^ 52) by (vm_compute; discriminate).
           assert (0 < 2 ^ 1028) by (apply Z.pow_pos_nonneg; lia).
           nia.
      * assert (2 ^ (e + 1074) <= 2 ^ 1074) by (apply Z.pow_le_mono_r; lia).
        assert (0 < 2 ^ 1074) by (apply Z.pow_pos_nonneg; lia).
        nia.
Qed.

Lemma lt_60_not_ge sec :
  PyFloat.ltb sec (PyFloat.lit 60) = true ->
  PyFloat.leb (PyFloat.lit 60) sec = false.
Proof.
  rewrite lit_60. unfold PyFloat.leb, PyFloat.ltb, SFleb, SFltb, SFcompare.
  destruct sec as [s|s| |s m e]; try reflexivity.
  - destruct s; [reflexivity|discriminate].
  - destruct s; [reflexivity|].
    rewrite !compare_cont_Eq, (Z.compare_antisym e (-47)),
      (Z.compare_antisym (Zpos m) 8444249301319680).
    destruct (Z.compare e (-47)); cbn [CompOpp]; try discriminate; try reflexivity.
    destruct (Z.compare (Zpos m) 8444249301319680); cbn [CompOpp];
      try discriminate; reflexivity.
Qed.

Lemma Repr_fits x v : Repr x v -> fits v.
Proof.
  intros (m & e & -> & Hb & ->). pose proof (bounded_exp_lo m e Hb) as L.
  apply bounded_iff in Hb. destruct Hb as [Hc He]. rewrite fexp_eq in Hc.
  pose proof (digits_bounds m) as [_ Mhi].
  assert (M53 : Zpos m < 2 ^ 53).
  { assert (2 ^ Zpos (digits2_pos m) <= 2 ^ 53) by (apply Z.pow_le_mono_r; lia). lia. }
  exists (Zpos m), (e + 1074). repeat split; try lia.
  assert (2 ^ (e + 1074) <= 2 ^ 2045) by (apply Z.pow_le_mono_r; lia).
  assert (0 < 2 ^ (e + 1074)) by (apply Z.pow_pos_nonneg; lia).
  change (2 ^ 2098) with (2 ^ 53 * 2 ^ 2045).
  assert (Zpos m * 2 ^ (e + 1074) < 2 ^ 53 * 2 ^ (e + 1074))
    by (apply Z.mul_lt_mono_pos_r; lia).
  assert (2 ^ 53 * 2 ^ (e + 1074) <= 2 ^ 53 * 2 ^ 2045)
    by (apply Z.mul_le_mono_nonneg_l; lia).
  lia.
Qed.

(** The quotient of the division by 60 of a value in [60, 2^53). *)
Lemma quotient_range v :
  60 * 2 ^ 1074 <= v < 2 ^ 53 * 2 ^ 1074 ->
  0 < v / (60 * 2 ^ 1074)
  /\ 60 * (v / (60 * 2 ^ 1074)) < 2 ^ 53
  /\ v = 60 * (v / (60 * 2 ^ 1074)) * 2 ^ 1074 + v mod (60 * 2 ^ 1074)
  /\ 0 <= v mod (60 * 2 ^ 1074) < 60 * 2 ^ 1074.
Proof.
  intros [Hlo Hhi].
  assert (P74 : 0 < 2 ^ 1074) by (apply Z.pow_pos_nonneg; lia).
  assert (Hc : 0 < 60 * 2 ^ 1074) by lia.
  pose proof (Z.div_mod v (60 * 2 ^ 1074) ltac:(lia)) as Hdm.
  pose proof (Z.mod_pos_bound v (60 * 2 ^ 1074) Hc) as HR.
  pose proof (Z.div_str_pos v (60 * 2 ^ 1074) ltac:(lia)) as Hq.
  pose proof (Z.mul_div_le v (60 * 2 ^ 1074) Hc) as Hle.
  split; [exact Hq|]. split; [|split; [|exact HR]].
  - apply (Z.mul_lt_mono_pos_r (2 ^ 1074)); [exact P74|].
    replace (60 * (v / (60 * 2 ^ 1074)) * 2 ^ 1074)
      with (60 * 2 ^ 1074 * (v / (60 * 2 ^ 1074))) by ring.
    lia.
  - replace (60 * (v / (60 * 2 ^ 1074)) * 2 ^ 1074)
      with (60 * 2 ^ 1074 * (v / (60 * 2 ^ 1074))) by ring.
    exact Hdm.
Qed.

(** Floor division by 60 is exact on [60, 2^53). *)
Lemma floor_div_60 sec v :
  Repr sec v -> 60 * 2 ^ 1074 <= v < 2 ^ 53 * 2 ^ 1074 ->
  exists d,
    Repr d (v / (60 * 2 ^ 1074) * 2 ^ 1074)
    /\ PyFloat.floor_div sec (PyFloat.lit 60) = Ok d.
Proof.
  intros Hsec Hrange.
  destruct (quotient_range v Hrange) as (Hq & Hq53 & Hv & HR).
  remember (v / (60 * 2 ^ 1074)) as q eqn:Eq.
  remember (v mod (60 * 2 ^ 1074)) as R eqn:ER.
  assert (P74 : 0 < 2 ^ 1074) by (apply Z.pow_pos_nonneg; lia).
  unfold PyFloat.floor_div.
  replace (PyFloat.eqb (PyFloat.lit 60) PyFloat.zero) with false by reflexivity.
  replace (PyFloat.ltb (PyFloat.lit 60) PyFloat.zero) with false by reflexivity.
  assert (Hq' : 0 < q < 2 ^ 53) by lia.
  assert (Hfinal : forall d, Repr d (q * 2 ^ 1074) ->
            (if PyFloat.truthy d
             then Ok (if PyFloat.ltb PyFloat.half (PyFloat.sub d (PyFloat.floor d))
                      then PyFloat.add (PyFloat.floor d) PyFloat.one
                      else PyFloat.floor d)
             else Ok (PyFloat.zero_with_sign_of (PyFloat.div sec (PyFloat.lit 60))))
            = Ok d).
  { intros d Hd. rewrite (Repr_floor d q Hq' Hd), (sub_self d _ Hd).
    destruct Hd as (m & e & -> & _). reflexivity. }
  destruct (fmod_60 sec v Hsec Hrange) as [[HR0 Hmod]|[HR0 Hmod]];
    rewrite <- ER in HR0.
  - rewrite Hmod.
    assert (Hsub : PyFloat.sub sec (S754_zero false) = sec).
    { destruct Hsec as (m & e & -> & _). reflexivity. }
    rewrite Hsub. cbn [PyFloat.truthy andb].
    assert (Hd : Repr (PyFloat.div sec (PyFloat.lit 60)) (q * 2 ^ 1074)).
    { apply Repr_div60; try assumption.
      replace (60 * q * 2 ^ 1074) with v by lia. exact Hsec. }
    eexists. split; [exact Hd|]. apply Hfinal, Hd.
  - rewrite <- ER in Hmod.
    assert (Hs : Repr (PyFloat.sub sec (PyFloat.fmod sec (PyFloat.lit 60)))
                      (60 * q * 2 ^ 1074)).
    { replace (60 * q * 2 ^ 1074) with (v - R) by lia.
      apply Repr_sub; try assumption; try lia.
      replace (v - R) with (60 * q * 2 ^ 1074) by lia.
      apply fits_small; lia. }
    assert (Hd : Repr (PyFloat.div (PyFloat.sub sec (PyFloat.fmod sec (PyFloat.lit 60)))
                         (PyFloat.lit 60)) (q * 2 ^ 1074))
      by (apply Repr_div60; assumption).
    destruct Hmod as (mm & em & Em & _ & _). rewrite Em in *.
    cbn [PyFloat.truthy]. 
    replace (PyFloat.ltb (S754_finite false mm em) PyFloat.zero) with false by reflexivity.
    cbn [xorb andb].
    eexists. split; [exact Hd|]. apply Hfinal, Hd.
Qed.

(** seconds_fmt on a float in [60, 2^53), in terms of its value. *)
Lemma seconds_fmt_minutes sec v :
  Repr sec v -> 60 * 2 ^ 1074 <= v < 2 ^ 53 * 2 ^ 1074 ->
  PyFloat.leb (PyFloat.lit 60) sec = true ->
  exists s,
    seconds_fmt sec
    = Ok (str_of_int (v / (60 * 2 ^ 1074)) ++ "m" ++ PyFloat.fmt_2f s ++ "s")
    /\ sval s = v mod (60 * 2 ^ 1074)
    /\ PyFloat.valid s = true
    /\ PyFloat.is_finite s = true.
Proof.
  intros Hsec Hrange Hge.
  destruct (quotient_range v Hrange) as (Hq & Hq53 & Hv & HR).
  destruct (floor_div_60 sec v Hsec Hrange) as (d & Hd & Hfd).
  remember (v / (60 * 2 ^ 1074)) as q eqn:Eq.
  remember (v mod (60 * 2 ^ 1074)) as R eqn:ER.
  assert (P74 : 0 < 2 ^ 1074) by (apply Z.pow_pos_nonneg; lia).
  assert (Hm60 : Repr (PyFloat.lit (q * 60)) (q * 60 * 2 ^ 1074))
    by (apply Repr_lit; lia).
  unfold seconds_fmt. rewrite Hge, Hfd. cbn [bind].
  rewrite (Repr_to_int d q Hq Hd). cbn [bind].
  unfold PyFloat.of_int.
  pose proof Hm60 as (m6 & e6 & E6 & Hb6 & Hv6). rewrite E6. cbn [bind].
  rewrite <- E6.
  destruct (Z.eq_dec R 0) as [HR0|HR0].
  - exists (S754_zero false). rewrite HR0. split; [|repeat split; reflexivity].
    assert (E : PyFloat.lit (q * 60) = sec).
    { apply (Repr_uniq _ _ v); [|exact Hsec].
      replace v with (q * 60 * 2 ^ 1074) by lia. exact Hm60. }
    rewrite E, (sub_self sec v Hsec). reflexivity.
  - assert (Hs : Repr (PyFloat.sub sec (PyFloat.lit (q * 60))) R).
    { replace R with (v - q * 60 * 2 ^ 1074) by lia.
      apply Repr_sub; try assumption; try lia.
      replace (v - q * 60 * 2 ^ 1074) with R by lia.
      destruct (fmod_60 sec v Hsec Hrange) as [[H0 _]|[_ Hmod]].
      - rewrite <- ER in H0. contradiction.
      - rewrite <- ER in Hmod. exact (Repr_fits _ _ Hmod). }
    exists (PyFloat.sub sec (PyFloat.lit (q * 60))).
    split; [reflexivity|]. split; [exact (Repr_sval _ _ Hs)|].
    destruct Hs as (ms & es & -> & Hbs & _). split; [exact Hbs|reflexivity].
Qed.

(** The minutes and the remaining seconds of the specification: the floor
    of sec / 60 and sec - 60 * m, over the rationals. *)
Definition claimed_minutes (sec : float) : Z := Qfloor (F2Q sec / 60).

Definition claimed_remainder (sec : float) : Q :=
  (F2Q sec - 60 * inject_Z (claimed_minutes sec))%Q.

(** 10^22 seconds, a float. *)
Definition huge_time : float := PyFloat.lit (10 ^ 22).

Lemma two_1074 : Zpos (2 ^ 1074) = 2 ^ 1074.
Proof. apply Pos2Z.inj_pow. Qed.

Lemma claimed_minutes_eq sec : claimed_minutes sec = sval sec / (60 * 2 ^ 1074).
Proof.
  unfold claimed_minutes, F2Q, Qdiv, Qmult, Qinv, Qfloor. cbn [Qnum Qden Z.mul].
  rewrite Pos2Z.inj_mul, two_1074. f_equal; lia.
Qed.

Lemma claimed_remainder_eq sec (s : float) :
  sval s = sval sec mod (60 * 2 ^ 1074) -> (F2Q s == claimed_remainder sec)%Q.
Proof.
  intros Hs. unfold claimed_remainder. rewrite claimed_minutes_eq.
  assert (P74 : 0 < 2 ^ 1074) by (apply Z.pow_pos_nonneg; lia).
  pose proof (Z.div_mod (sval sec) (60 * 2 ^ 1074) ltac:(lia)) as Hdm.
  unfold Qeq, F2Q, Qminus, Qplus, Qopp, Qmult, inject_Z. cbn [Qnum Qden].
  rewrite !Pos2Z.inj_mul, !two_1074, Hs.
  set (q := sval sec / (60 * 2 ^ 1074)) in *.
  set (R := sval sec mod (60 * 2 ^ 1074)) in *.
  rewrite Hdm. ring.
Qed.

(** C7, as stated, fails for large times: for 10^22 seconds the minutes
    printed are not the floor of sec / 60 and the seconds printed are not
    the remainder; and for an infinite time no text is returned. *)
Lemma C7_large_time_inexact :
  PyFloat.valid huge_time = true
  /\ PyFloat.leb (PyFloat.lit 60) huge_time = true
  /\ (F2Q huge_time == inject_Z (10 ^ 22))%Q
  /\ claimed_minutes huge_time = 166666666666666666666
  /\ (claimed_remainder huge_time == 40)%Q
  /\ seconds_fmt huge_time = Ok "166666666666666655744m0.00s"
  /\ (forall s : float,
        seconds_fmt huge_time
        <> Ok (str_of_int (claimed_minutes huge_time) ++ "m"
               ++ PyFloat.fmt_2f s ++ "s"))
  /\ PyFloat.leb (PyFloat.lit 60) (S754_infinity false) = true
  /\ seconds_fmt (S754_infinity false) = Raise ValueError.
Proof.
  assert (Hm : claimed_minutes huge_time = 166666666666666666666)
    by (vm_compute; reflexivity).
  assert (Hf : seconds_fmt huge_time = Ok "166666666666666655744m0.00s")
    by (vm_compute; reflexivity).
  repeat split; try (vm_compute; reflexivity); try assumption.
  intros s H. rewrite Hf, Hm in H. apply Ok_inj in H.
  change (str_of_int 166666666666666666666) with "166666666666666666666" in H.
  cbn [append] in H. discriminate H.
Qed.

(** C7: a time below 60 seconds is printed with two decimals and the
    letter s; a time of at least 60 seconds and less than 2^53 seconds is
    printed as the minutes, the letter m, the remaining seconds with two
    decimals and the letter s, where the minutes are the floor of sec / 60
    and the remaining seconds are exactly sec - 60 * m; and 45.2, 125.5
    and 0 seconds are printed as 45.20s, 2m5.50s and 0.00s. *)
Theorem C7_seconds_fmt (sec : float) :
  PyFloat.valid sec = true ->
  (PyFloat.ltb sec (PyFloat.lit 60) = true ->
   seconds_fmt sec = Ok (PyFloat.fmt_2f sec ++ "s"))
  /\ (PyFloat.leb (PyFloat.lit 60) sec = true ->
      PyFloat.ltb sec (PyFloat.lit (2 ^ 53)) = true ->
      exists s : float,
        PyFloat.valid s = true
        /\ PyFloat.is_finite s = true
        /\ (F2Q s == claimed_remainder sec)%Q
        /\ seconds_fmt sec
           = Ok (str_of_int (claimed_minutes sec) ++ "m"
                 ++ PyFloat.fmt_2f s ++ "s"))
  /\ seconds_fmt (PyFloat.div (PyFloat.lit 452) (PyFloat.lit 10)) = Ok "45.20s"
  /\ seconds_fmt (PyFloat.div (PyFloat.lit 251) (PyFloat.lit 2)) = Ok "2m5.50s"
  /\ seconds_fmt PyFloat.zero = Ok "0.00s".
Proof.
  intros Hvalid. split; [|split; [|repeat split; vm_compute; reflexivity]].
  - intros Hlt. unfold seconds_fmt. now rewrite (lt_60_not_ge sec Hlt).
  - intros Hge Hlt.
    destruct (ge_60_Repr sec Hvalid Hge Hlt) as [Hrepr Hrange].
    destruct (seconds_fmt_minutes sec (sval sec) Hrepr Hrange Hge)
      as (s & Hs & Hval & Hv & Hfin).
    exists s. split; [exact Hv|]. split; [exact Hfin|].
    split; [exact (claimed_remainder_eq sec s Hval)|].
    rewrite claimed_minutes_eq. exact Hs.
Qed.

Lemma C7_seconds_fmt_witness :
  PyFloat.valid (PyFloat.lit 3725) = true
  /\ PyFloat.leb (PyFloat.lit 60) (PyFloat.lit 3725) = true
  /\ PyFloat.ltb (PyFloat.lit 3725) (PyFloat.lit (2 ^ 53)) = true
  /\ exists s : float,
       PyFloat.valid s = true
       /\ PyFloat.is_finite s = true
       /\ (F2Q s == claimed_remainder (PyFloat.lit 3725))%Q
       /\ seconds_fmt (PyFloat.lit 3725)
          = Ok (str_of_int (claimed_minutes (PyFloat.lit 3725)) ++ "m"
                ++ PyFloat.fmt_2f s ++ "s").
Proof.
  assert (Hvalid : PyFloat.valid (PyFloat.lit 3725) = true)
    by (vm_compute; reflexivity).
  assert (Hge : PyFloat.leb (PyFloat.lit 60) (PyFloat.lit 3725) = true)
    by (vm_compute; reflexivity).
  assert (Hlt : PyFloat.ltb (PyFloat.lit 3725) (PyFloat.lit (2 ^ 53)) = true)
    by (vm_compute; reflexivity).
  split; [exact Hvalid|]. split; [exact Hge|]. split; [exact Hlt|].
  exact (proj1 (proj2 (C7_seconds_fmt (PyFloat.lit 3725) Hvalid)) Hge Hlt).
Defined.

(* ================================================================= *)
(** * Further properties of the code *)

(* ================================================================= *)
(** ** _escape_html *)

(** The five characters [html.escape] replaces. *)
Definition special (c : ascii) : bool :=
  Ascii.eqb c "&" || Ascii.eqb c "<" || Ascii.eqb c ">"
  || Ascii.eqb c "034" || Ascii.eqb c "'".

(** No character of [s] is replaced. *)
Fixpoint plain (s : string) : bool :=
  match s with
  | EmptyString => true
  | String c rest => negb (special c) && plain rest
  end.

Lemma escape_char_plain c : special c = false -> escape_char c = String c "".
Proof.
  unfold special, escape_char. intros H.
  repeat (apply orb_false_iff in H; destruct H as [H ?]).
  repeat match goal with E : Ascii.eqb _ _ = false |- _ => rewrite E; clear E end.
  reflexivity.
Qed.

Lemma escape_char_special c :
  special c = true ->
  exists t, escape_char c = String "&" t /\ t <> "".
Proof.
  unfold special, escape_char. intros H.
  destruct (Ascii.eqb c "&"); [eexists; split; [reflexivity|discriminate]|].
  destruct (Ascii.eqb c "<"); [eexists; split; [reflexivity|discriminate]|].
  destruct (Ascii.eqb c ">"); [eexists; split; [reflexivity|discriminate]|].
  destruct (Ascii.eqb c "034"); [eexists; split; [reflexivity|discriminate]|].
  destruct (Ascii.eqb c "'"); [eexists; split; [reflexivity|discriminate]|].
  discriminate.
Qed.

(** The replacement of a character can be told from what follows it. *)
Lemma escape_char_inj c d s t :
  escape_char c ++ s = escape_char d ++ t -> c = d /\ s = t.
Proof.
  unfold escape_char.
  destruct (Ascii.eqb c "&") eqn:C1;
    [|destruct (Ascii.eqb c "<") eqn:C2;
      [|destruct (Ascii.eqb c ">") eqn:C3;
        [|destruct (Ascii.eqb c "034") eqn:C4;
          [|destruct (Ascii.eqb c "'") eqn:C5]]]];
  (destruct (Ascii.eqb d "&") eqn:D1;
    [|destruct (Ascii.eqb d "<") eqn:D2;
      [|destruct (Ascii.eqb d ">") eqn:D3;
        [|destruct (Ascii.eqb d "034") eqn:D4;
          [|destruct (Ascii.eqb d "'") eqn:D5]]]]);
  repeat match goal with
         | E : Ascii.eqb _ _ = true |- _ => apply Ascii.eqb_eq in E; subst
         end;
  cbn [append]; intros H; try discriminate H;
  try solve [injection H as ->; split; reflexivity];
  try solve [injection H as E1 _; subst;
             match goal with
             | E : Ascii.eqb ?x ?x = false |- _ =>
                 rewrite Ascii.eqb_refl in E; discriminate E
             end].
  injection H as -> ->. split; reflexivity.
Qed.

Lemma length_app_s a b :
  String.length (a ++ b) = (String.length a + String.length b)%nat.
Proof. induction a as [|c a IH]; simpl; [reflexivity|now rewrite IH]. Qed.

Lemma escape_length x :
  (String.length x <= String.length (_escape_html x))%nat
  /\ (plain x = false -> (String.length x < String.length (_escape_html x))%nat).
Proof.
  induction x as [|c x [IH1 IH2]]; simpl.
  - split; [lia|discriminate].
  - rewrite length_app_s. destruct (special c) eqn:E.
    + destruct (escape_char_special c E) as (t & -> & Ht).
      destruct t as [|y t]; [congruence|]. simpl. split; [lia|]. intros _. lia.
    + rewrite (escape_char_plain c E). simpl. split; [lia|].
      intros H. specialize (IH2 H). lia.
Qed.

Lemma escape_plain x : plain x = true -> _escape_html x = x.
Proof.
  induction x as [|c x IH]; simpl; [reflexivity|].
  intros H. apply andb_true_iff in H. destruct H as [Hc Hx].
  apply negb_true_iff in Hc. now rewrite (escape_char_plain c Hc), IH.
Qed.

Lemma plain_app a b : plain (a ++ b) = plain a && plain b.
Proof.
  induction a as [|c a IH]; simpl; [reflexivity|].
  now rewrite IH, andb_assoc.
Qed.

Lemma plain_escape x : plain (_escape_html x) = plain x.
Proof.
  induction x as [|c x IH]; simpl; [reflexivity|].
  rewrite plain_app, IH. f_equal. destruct (special c) eqn:E.
  - destruct (escape_char_special c E) as (t & -> & _). reflexivity.
  - rewrite (escape_char_plain c E). simpl. now rewrite E.
Qed.

(** X1: two texts with the same escaped form are the same text: no two names
    are shown alike. *)
Theorem escape_html_injective (a b : string) :
  _escape_html a = _escape_html b -> a = b.
Proof.
  revert b. induction a as [|c a IH]; intros [|d b] H.
  - reflexivity.
  - exfalso. simpl in H. unfold escape_char in H.
    repeat match type of H with
           | context [if ?t then _ else _] => destruct t
           end; discriminate H.
  - exfalso. simpl in H. unfold escape_char in H.
    repeat match type of H with
           | context [if ?t then _ else _] => destruct t
           end; discriminate H.
  - simpl in H. apply escape_char_inj in H. destruct H as [-> H].
    now rewrite (IH b H).
Qed.

Lemma escape_html_injective_witness : "a<b" = "a<b".
Proof. apply (escape_html_injective "a<b" "a<b"). reflexivity. Defined.

(** X2: escaping a text put together from two parts is escaping the parts. *)
Theorem escape_html_concat (a b : string) :
  _escape_html (a ++ b) = _escape_html a ++ _escape_html b.
Proof.
  induction a as [|c a IH]; simpl; [reflexivity|].
  now rewrite IH, app_s_assoc.
Qed.

(** X3: a text is left as it is exactly when it holds none of the five
    characters &, <, >, double quote and single quote; a text that holds
    one is never shortened, and escaping its escaped form changes it
    again. *)
Theorem escape_html_unchanged_iff (x : string) :
  (_escape_html x = x <-> plain x = true)
  /\ (_escape_html (_escape_html x) = _escape_html x <-> plain x = true)
  /\ (String.length x <= String.length (_escape_html x))%nat.
Proof.
  assert (H1 : forall y, _escape_html y = y <-> plain y = true).
  { intros y. split; [|apply escape_plain].
    intros H. destruct (plain y) eqn:E; [reflexivity|].
    pose proof (proj2 (escape_length y) E) as L. rewrite H in L. lia. }
  split; [apply H1|]. split; [|apply escape_length].
  rewrite H1. now rewrite plain_escape.
Qed.

(* ================================================================= *)
(** ** _get_test_status *)

(** X4: a case passes exactly when none of its result entries is a failure,
    an error or a skip. *)
Theorem status_ok_iff (case : TestCase) :
  _get_test_status case = St_ok <->
  Forall (fun r => r_kind r = OtherResult) (tc_result case).
Proof.
  unfold _get_test_status. induction (tc_result case) as [|r rs IH]; simpl.
  - split; [constructor|reflexivity].
  - destruct (r_kind r) eqn:E.
    + split; [discriminate|]. intros H. inversion H; congruence.
    + split; [discriminate|]. intros H. inversion H; congruence.
    + split; [discriminate|]. intros H. inversion H; congruence.
    + rewrite IH. split.
      * intros H. constructor; assumption.
      * intros H. now inversion H.
Qed.

(* ================================================================= *)
(** ** parse_files *)

Lemma parse_loop_first_unreadable fromfile paths acc e :
  parse_loop fromfile paths acc = Raise e <->
  exists pre p post,
    paths = (pre ++ p :: post)%list
    /\ Forall (fun q => fromfile q <> None) pre
    /\ fromfile p = None /\ e = ParseError p.
Proof.
  revert acc. induction paths as [|p paths IH]; intros acc; simpl.
  - split; [discriminate|]. intros (pre & q & post & H & _).
    destruct pre; discriminate H.
  - destruct (fromfile p) as [xml|] eqn:Hp.
    + rewrite IH. split.
      * intros (pre & q & post & -> & Hpre & Hq & ->).
        exists (p :: pre), q, post. repeat split; try assumption.
        constructor; [congruence|assumption].
      * intros (pre & q & post & H & Hpre & Hq & ->).
        destruct pre as [|p' pre]; simpl in H; injection H as -> ->.
        -- congruence.
        -- exists pre, q, post. inversion Hpre. auto.
    + split.
      * intros H. injection H as <-. exists [], p, paths. auto.
      * intros (pre & q & post & H & Hpre & Hq & ->).
        destruct pre as [|p' pre]; simpl in H; injection H as -> ->.
        -- reflexivity.
        -- inversion Hpre. congruence.
Qed.

Lemma parse_files_raise_iff fromfile paths e :
  parse_files fromfile paths = Raise e <->
  exists pre p post,
    paths = (pre ++ p :: post)%list
    /\ Forall (fun q => fromfile q <> None) pre
    /\ fromfile p = None /\ e = ParseError p.
Proof.
  pose proof (parse_loop_first_unreadable fromfile paths ([], []) e) as Hloop.
  unfold parse_files.
  destruct (parse_loop fromfile paths ([], [])) as [[s c]|e']; simpl.
  - split; [discriminate|]. intros H. apply Hloop in H. discriminate H.
  - split.
    + intros H. injection H as <-. now apply Hloop.
    + intros H. apply Hloop in H. now injection H as <-.
Qed.

(** X5: parse_files returns data only when every path could be read; a
    parse error it raises is that of the first path that cannot be read,
    every path before it having been read; and when some path cannot be
    read it raises. *)
Theorem parse_files_first_unreadable (fromfile : Files) (paths : list string) :
  (forall data,
     parse_files fromfile paths = Ok data ->
     Forall (fun q => fromfile q <> None) paths)
  /\ (forall p,
        parse_files fromfile paths = Raise (ParseError p) ->
        exists pre post,
          paths = (pre ++ p :: post)%list
          /\ Forall (fun q => fromfile q <> None) pre
          /\ fromfile p = None)
  /\ ((exists p, In p paths /\ fromfile p = None) ->
      exists e, parse_files fromfile paths = Raise e).
Proof.
  split; [|split].
  - intros data H. apply parse_files_inv in H. destruct H as (pxs & Hl & _).
    apply Forall_forall.
    apply (proj1 (load_some_iff fromfile paths)). eauto.
  - intros p H. apply parse_files_raise_iff in H.
    destruct H as (pre & q & post & Hp & Hpre & Hq & E).
    injection E as ->. exists pre, post. auto.
  - intros (p & Hin & Hp).
    destruct (parse_files fromfile paths) as [data|e] eqn:E; [|eauto].
    exfalso. apply parse_files_inv in E. destruct E as (pxs & Hl & _).
    apply (proj1 (load_some_iff fromfile paths) (ex_intro _ pxs Hl) p Hin Hp).
Qed.

Lemma load_app fromfile p1 p2 pxs1 pxs2 :
  load fromfile p1 = Some pxs1 -> load fromfile p2 = Some pxs2 ->
  load fromfile (p1 ++ p2) = Some (pxs1 ++ pxs2)%list.
Proof.
  revert pxs1. induction p1 as [|p p1 IH]; intros pxs1 H1 H2; simpl in *.
  - injection H1 as <-. exact H2.
  - destruct (fromfile p) as [xml|]; [|discriminate].
    destruct (load fromfile p1) as [pxs|]; [|discriminate].
    injection H1 as <-. now rewrite (IH pxs eq_refl H2).
Qed.

(** X6: parsing two lists of paths one after the other: the suites and the
    cases are those of the first list followed by those of the second,
    and the counts of the totals add up. *)
Theorem parse_files_app (fromfile : Files) (paths1 paths2 : list string)
    (d1 d2 : ReportData) :
  parse_files fromfile paths1 = Ok d1 ->
  parse_files fromfile paths2 = Ok d2 ->
  exists d,
    parse_files fromfile (paths1 ++ paths2) = Ok d
    /\ suites d = (suites d1 ++ suites d2)%list
    /\ cases d = (cases d1 ++ cases d2)%list
    /\ t_suites (totals d) = t_suites (totals d1) + t_suites (totals d2)
    /\ t_tests (totals d) = t_tests (totals d1) + t_tests (totals d2)
    /\ t_failures (totals d) = t_failures (totals d1) + t_failures (totals d2)
    /\ t_errors (totals d) = t_errors (totals d1) + t_errors (totals d2)
    /\ t_skipped (totals d) = t_skipped (totals d1) + t_skipped (totals d2)
    /\ t_passed (totals d) = t_passed (totals d1) + t_passed (totals d2).
Proof.
  intros H1 H2.
  apply parse_files_inv in H1, H2.
  destruct H1 as (pxs1 & L1 & ->), H2 as (pxs2 & L2 & ->).
  eexists. split; [apply parse_files_ok, (load_app _ _ _ _ _ L1 L2)|].
  cbn [suites cases totals make_totals t_suites t_tests t_failures t_errors
       t_skipped t_passed].
  rewrite !flat_map_app, !map_app, !sum_int_app, len_app.
  repeat split; lia.
Qed.

Lemma parse_files_app_witness :
  exists d,
    parse_files scenario_files (["a.xml"] ++ ["a.xml"]) = Ok d
    /\ len (cases d) = 4 /\ t_tests (totals d) = 4.
Proof.
  destruct (parse_files scenario_files ["a.xml"]) as [d1|e] eqn:E;
    [|vm_compute in E; discriminate E].
  destruct (parse_files_app scenario_files ["a.xml"] ["a.xml"] d1 d1 E E)
    as (d & Hd & _ & Hc & _ & Ht & _).
  exists d. split; [exact Hd|].
  rewrite Hc, Ht. vm_compute in E. apply Ok_inj in E. subst d1.
  split; reflexivity.
Defined.

Lemma basename_no_slash p : has_slash (basename p) = false.
Proof.
  induction p as [|c p IH]; simpl; [reflexivity|].
  destruct (has_slash p) eqn:Hs; [exact IH|].
  destruct (Ascii.eqb c "/") eqn:Hc; [exact Hs|].
  simpl. now rewrite Hc.
Qed.

(** X7: in what parse_files returns, every case record carries the name of a
    suite summary of the result, every summary records the base name of
    one of the paths, which holds no slash, and the number of suites is
    the number of summaries. *)
Theorem parse_files_records_belong (fromfile : Files) (paths : list string)
    (data : ReportData) :
  parse_files fromfile paths = Ok data ->
  (forall c, In c (cases data) ->
     exists s, In s (suites data) /\ s_name s = c_suite c)
  /\ (forall s, In s (suites data) ->
        has_slash (s_file s) = false
        /\ exists p, In p paths /\ s_file s = basename p)
  /\ t_suites (totals data) = len (suites data).
Proof.
  intros H. apply parse_files_inv in H. destruct H as (pxs & Hl & ->).
  cbn [suites cases totals]. split; [|split; [|reflexivity]].
  - intros c Hc. apply in_flat_map in Hc. destruct Hc as (px & Hpx & Hc).
    unfold file_records in Hc. apply in_flat_map in Hc.
    destruct Hc as (suite & Hsuite & Hc).
    exists (suite_summary (fst px) suite). split.
    + apply in_flat_map. exists px. split; [assumption|].
      unfold file_summaries. now apply in_map.
    + symmetry. exact (suite_records_suite _ _ _ Hc).
  - intros s Hs. apply in_flat_map in Hs. destruct Hs as (px & Hpx & Hs).
    unfold file_summaries in Hs. apply in_map_iff in Hs.
    destruct Hs as (suite & <- & _). cbn [s_file suite_summary].
    split; [apply basename_no_slash|].
    exists (fst px). split; [|reflexivity].
    exact (proj1 (load_In _ _ _ _ Hl Hpx)).
Qed.

Lemma parse_files_records_belong_witness :
  exists data,
    parse_files scenario_files ["a.xml"] = Ok data
    /\ (forall c, In c (cases data) ->
          exists s, In s (suites data) /\ s_name s = c_suite c).
Proof.
  destruct (parse_files scenario_files ["a.xml"]) as [data|e] eqn:E;
    [|vm_compute in E; discriminate E].
  exists data. split; [reflexivity|].
  exact (proj1 (parse_files_records_belong scenario_files ["a.xml"] data E)).
Defined.

(* ================================================================= *)
(** ** When seconds_fmt fails *)

Definition is_nan (x : float) : bool :=
  match x with
  | S754_nan => true
  | _ => false
  end.

Lemma iter_pos_inv {A : Type} (P : A -> Prop) (f : A -> A) :
  (forall x, P x -> P (f x)) -> forall n x, P x -> P (iter_pos f n x).
Proof.
  intros Hf. induction n as [n IH|n IH|]; intros x Hx; simpl; auto.
Qed.

Lemma shr_1_nonneg mrs : 0 <= shr_m mrs -> 0 <= shr_m (shr_1 mrs).
Proof.
  destruct mrs as [m r s]. simpl. destruct m as [|[p|p|]|p]; simpl; lia.
Qed.

Lemma shr_nonneg mrs e n : 0 <= shr_m mrs -> 0 <= shr_m (fst (shr mrs e n)).
Proof.
  intros H. unfold shr. destruct n as [|p|p]; simpl; try assumption.
  apply (iter_pos_inv (fun x => 0 <= shr_m x)); [apply shr_1_nonneg|assumption].
Qed.

Lemma shr_fexp_nonneg m e l :
  0 <= m -> 0 <= shr_m (fst (shr_fexp PyFloat.prec PyFloat.emax m e l)).
Proof.
  intros H. unfold shr_fexp. apply shr_nonneg.
  destruct l as [|[| |]]; exact H.
Qed.

Lemma round_nearest_even_nonneg m l : 0 <= m -> 0 <= round_nearest_even m l.
Proof.
  intros H. unfold round_nearest_even.
  destruct l as [|[| |]]; try destruct (Z.even m); lia.
Qed.

(** Rounding yields a zero, a finite float or an infinity. *)
Lemma round_aux_no_nan sx mx ex lx :
  0 <= mx -> is_nan (binary_round_aux PyFloat.prec PyFloat.emax sx mx ex lx) = false.
Proof.
  intros H. unfold binary_round_aux.
  pose proof (shr_fexp_nonneg mx ex lx H) as H1.
  destruct (shr_fexp PyFloat.prec PyFloat.emax mx ex lx) as [mrs' e'].
  cbn [fst] in H1.
  pose proof (shr_fexp_nonneg _ e' loc_Exact
                (round_nearest_even_nonneg _ (loc_of_shr_record mrs') H1)) as H2.
  destruct (shr_fexp PyFloat.prec PyFloat.emax _ e' loc_Exact) as [mrs'' e''].
  cbn [fst] in H2.
  destruct (shr_m mrs'') as [|p|p]; [reflexivity| |lia].
  destruct (e'' <=? PyFloat.emax - PyFloat.prec); reflexivity.
Qed.

Lemma normalize_no_nan m e s :
  is_nan (binary_normalize PyFloat.prec PyFloat.emax m e s) = false.
Proof.
  unfold binary_normalize, binary_round.
  destruct m as [|p|p]; [reflexivity| |];
    destruct (shl_align _ _ _) as [mz ez]; apply round_aux_no_nan; lia.
Qed.

Lemma sub_no_nan x y :
  is_nan x = false -> is_nan y = false ->
  PyFloat.is_finite x = true \/ PyFloat.is_finite y = true ->
  is_nan (PyFloat.sub x y) = false.
Proof.
  intros Hx Hy Hf. unfold PyFloat.sub, SFsub.
  destruct x as [sx|sx| |sx mx ex], y as [sy|sy| |sy my ey];
    try discriminate; try reflexivity;
    try (destruct sx, sy; reflexivity);
    try (destruct Hf; discriminate).
  apply normalize_no_nan.
Qed.

Lemma add_no_nan x y :
  is_nan x = false -> is_nan y = false ->
  PyFloat.is_finite x = true \/ PyFloat.is_finite y = true ->
  is_nan (PyFloat.add x y) = false.
Proof.
  intros Hx Hy Hf. unfold PyFloat.add, SFadd.
  destruct x as [sx|sx| |sx mx ex], y as [sy|sy| |sy my ey];
    try discriminate; try reflexivity;
    try (destruct sx, sy; reflexivity);
    try (destruct Hf; discriminate).
  apply normalize_no_nan.
Qed.

Lemma div_no_nan x sy my ey :
  is_nan x = false -> is_nan (PyFloat.div x (S754_finite sy my ey)) = false.
Proof.
  intros Hx. unfold PyFloat.div, SFdiv.
  destruct x as [sx|sx| |sx mx ex]; try discriminate; try reflexivity.
  unfold SFdiv_core_binary.
  set (s := _ - _ - Z.min _ _).
  set (m' := match s with Z0 => Zpos mx | Zpos _ => Z.shiftl (Zpos mx) s | Zneg _ => 0 end).
  assert (Hm : 0 <= m').
  { unfold m'. destruct s; try lia. apply Z.shiftl_nonneg. lia. }
  pose proof (Z_div_mod m' (Zpos my) ltac:(lia)) as Hd.
  unfold Z.div_eucl in Hd |- *. fold (Z.div_eucl m' (Zpos my)) in Hd |- *.
  destruct (Z.div_eucl m' (Zpos my)) as [q r].
  apply round_aux_no_nan. destruct Hd as [Hd Hr]. nia.
Qed.

Lemma floor_no_nan x : is_nan x = false -> is_nan (PyFloat.floor x) = false.
Proof.
  intros Hx. unfold PyFloat.floor.
  destruct x as [s|s| |s m [|p|p]]; try discriminate; try reflexivity.
  destruct (Z.shiftr _ _) eqn:E; [reflexivity| |];
    rewrite <- E; apply (normalize_no_nan _ 0 false).
Qed.

Lemma floor_div_60_no_nan m e :
  exists d,
    PyFloat.floor_div (S754_finite false m e) (PyFloat.lit 60) = Ok d
    /\ is_nan d = false.
Proof.
  unfold PyFloat.floor_div.
  replace (PyFloat.eqb (PyFloat.lit 60) PyFloat.zero) with false by reflexivity.
  set (sec := S754_finite false m e).
  assert (Hmod : is_nan (PyFloat.fmod sec (PyFloat.lit 60)) = false).
  { rewrite lit_60. unfold sec, PyFloat.fmod. apply normalize_no_nan. }
  set (mod_ := PyFloat.fmod sec (PyFloat.lit 60)) in *.
  assert (Hdiv0 : is_nan (PyFloat.div (PyFloat.sub sec mod_) (PyFloat.lit 60)) = false).
  { rewrite lit_60. apply div_no_nan, sub_no_nan; auto. }
  set (div0 := PyFloat.div (PyFloat.sub sec mod_) (PyFloat.lit 60)) in *.
  assert (Hdiv1 : is_nan (if PyFloat.truthy mod_
                             && xorb (PyFloat.ltb (PyFloat.lit 60) PyFloat.zero)
                                  (PyFloat.ltb mod_ PyFloat.zero)
                          then PyFloat.sub div0 PyFloat.one else div0) = false).
  { destruct (_ && _); [|assumption]. apply sub_no_nan; auto. }
  set (div1 := if _ && _ then _ else _) in *.
  destruct (PyFloat.truthy div1).
  - eexists. split; [reflexivity|].
    pose proof (floor_no_nan div1 Hdiv1) as Hfl.
    destruct (PyFloat.ltb PyFloat.half _); [|exact Hfl].
    apply add_no_nan; auto.
  - eexists. split; reflexivity.
Qed.

Lemma not_lt_2_53 m e :
  PyFloat.ltb (S754_finite false m e) (PyFloat.lit (2 ^ 53)) = false ->
  PyFloat.leb (PyFloat.lit (2 ^ 53)) (S754_finite false m e) = true.
Proof.
  rewrite lit_2_53. unfold PyFloat.leb, PyFloat.ltb, SFleb, SFltb, SFcompare.
  rewrite !compare_cont_Eq, (Z.compare_antisym e 1),
    (Z.compare_antisym (Zpos m) 4503599627370496).
  destruct (Z.compare e 1); cbn [CompOpp]; try discriminate; try reflexivity.
  destruct (Z.compare (Zpos m) 4503599627370496); cbn [CompOpp];
    try discriminate; reflexivity.
Qed.

(** X8: seconds_fmt fails on two kinds of time only: on the positive
    infinity, with ValueError, and on a finite time of 2^53 seconds or
    more, with OverflowError.  It returns a text for every other float:
    every time below 2^53 seconds, the negative infinity and NaN. *)
Theorem seconds_fmt_failure (sec : float) (e : exn) :
  PyFloat.valid sec = true ->
  seconds_fmt sec = Raise e ->
  (sec = S754_infinity false /\ e = ValueError)
  \/ (PyFloat.is_finite sec = true
      /\ PyFloat.leb (PyFloat.lit (2 ^ 53)) sec = true
      /\ e = OverflowError).
Proof.
  intros Hvalid H.
  destruct (PyFloat.leb (PyFloat.lit 60) sec) eqn:Hge.
  2: { unfold seconds_fmt in H. rewrite Hge in H. discriminate H. }
  destruct sec as [s|s| |s m ex].
  - discriminate Hge.
  - destruct s; [discriminate Hge|]. left. split; [reflexivity|].
    vm_compute in H. now injection H as <-.
  - discriminate Hge.
  - destruct s; [rewrite lit_60 in Hge; discriminate Hge|]. right.
    destruct (PyFloat.ltb (S754_finite false m ex) (PyFloat.lit (2 ^ 53))) eqn:Hlt.
    + exfalso.
      destruct (ge_60_Repr _ Hvalid Hge Hlt) as [Hrepr Hrange].
      destruct (seconds_fmt_minutes _ _ Hrepr Hrange Hge) as (s & Hs & _).
      rewrite Hs in H. discriminate H.
    + split; [reflexivity|]. split; [exact (not_lt_2_53 m ex Hlt)|].
      unfold seconds_fmt in H. rewrite Hge in H.
      destruct (floor_div_60_no_nan m ex) as (d & Hd & Hnan).
      rewrite Hd in H. cbn [bind] in H.
      destruct d as [sd|sd| |sd md ed]; try discriminate Hnan; cbn [PyFloat.to_int bind] in H.
      * unfold PyFloat.of_int in H. destruct (PyFloat.lit _); cbn [bind] in H;
          try discriminate H. now injection H as <-.
      * now injection H as <-.
      * unfold PyFloat.of_int in H. destruct (PyFloat.lit _); cbn [bind] in H;
          try discriminate H. now injection H as <-.
Qed.

Lemma seconds_fmt_failure_witness :
  PyFloat.valid (S754_infinity false) = true
  /\ seconds_fmt (S754_infinity false) = Raise ValueError
  /\ ((S754_infinity false = S754_infinity false /\ ValueError = ValueError)
      \/ (PyFloat.is_finite (S754_infinity false) = true
          /\ PyFloat.leb (PyFloat.lit (2 ^ 53)) (S754_infinity false) = true
          /\ ValueError = OverflowError)).
Proof.
  assert (H : seconds_fmt (S754_infinity false) = Raise ValueError)
    by (vm_compute; reflexivity).
  split; [reflexivity|]. split; [exact H|].
  exact (seconds_fmt_failure (S754_infinity false) ValueError eq_refl H).
Defined.

(* ================================================================= *)
(** ** What the renderer may raise *)

(** The exceptions of the time formatting. *)
Definition time_error (e : exn) : Prop := e = ValueError \/ e = OverflowError.

Lemma seconds_fmt_raise sec e : seconds_fmt sec = Raise e -> time_error e.
Proof.
  unfold seconds_fmt, time_error. destruct (PyFloat.leb _ _); [|discriminate].
  unfold PyFloat.floor_div.
  replace (PyFloat.eqb (PyFloat.lit 60) PyFloat.zero) with false by reflexivity.
  set (d := if PyFloat.truthy _ then _ else _).
  assert (Hd : exists x, d = Ok x).
  { unfold d. destruct (PyFloat.truthy _); eexists; reflexivity. }
  destruct Hd as (x & ->). cbn [bind].
  destruct x as [s|s| |s m ex]; cbn [PyFloat.to_int bind];
    try (intros H; injection H as <-; auto);
    unfold PyFloat.of_int; destruct (PyFloat.lit _); cbn [bind];
    intros H; try discriminate H; injection H as <-; auto.
Qed.

Lemma mapM_raise {A B : Type} (f : A -> result B) l e :
  mapM f l = Raise e -> exists x, In x l /\ f x = Raise e.
Proof.
  induction l as [|x l IH]; simpl; [discriminate|].
  destruct (f x) as [y|e'] eqn:Hx; cbn [bind].
  - destruct (mapM f l) as [ys|e'']; cbn [bind]; [discriminate|].
    intros H. injection H as ->. destruct (IH eq_refl) as (z & Hz & Hr).
    exists z. auto.
  - intros H. injection H as ->. exists x. auto.
Qed.

Lemma row_raise c e : _build_row_html c = Raise e -> time_error e.
Proof.
  unfold _build_row_html.
  destruct (seconds_fmt (c_time c)) as [t|e'] eqn:E; cbn [bind]; [discriminate|].
  intros H. injection H as <-. exact (seconds_fmt_raise _ _ E).
Qed.

Lemma class_section_raise structure suite classname e :
  class_section_html structure suite classname = Raise e -> time_error e.
Proof.
  unfold class_section_html.
  destruct (seconds_fmt _) as [t|e'] eqn:E; cbn [bind].
  - destruct (mapM _ _) as [rows|e'] eqn:Er; cbn [bind]; [discriminate|].
    intros H. injection H as <-.
    destruct (mapM_raise _ _ _ Er) as (c & _ & Hc). exact (row_raise _ _ Hc).
  - intros H. injection H as <-. exact (seconds_fmt_raise _ _ E).
Qed.

Lemma suite_section_raise structure suite e :
  suite_section_html structure suite = Raise e -> time_error e.
Proof.
  unfold suite_section_html.
  destruct (seconds_fmt _) as [t|e'] eqn:E; cbn [bind].
  - destruct (mapM _ _) as [classes|e'] eqn:Er; cbn [bind]; [discriminate|].
    intros H. injection H as <-.
    destruct (mapM_raise _ _ _ Er) as (c & _ & Hc).
    exact (class_section_raise _ _ _ _ Hc).
  - intros H. injection H as <-. exact (seconds_fmt_raise _ _ E).
Qed.

Lemma main_content_raise data e :
  _build_main_content data = Raise e -> time_error e.
Proof.
  rewrite _build_main_content_text.
  destruct (mapM _ _) as [sections|e'] eqn:Er; cbn [bind]; [discriminate|].
  intros H. injection H as <-.
  destruct (mapM_raise _ _ _ Er) as (s & _ & Hs).
  exact (suite_section_raise _ _ _ Hs).
Qed.

Lemma render_html_raise now data title e :
  render_html now data title = Raise e -> time_error e.
Proof.
  unfold render_html.
  destruct (_build_main_content data) as [m|e'] eqn:Em; cbn [bind].
  - destruct (seconds_fmt _) as [t|e'] eqn:Et; cbn [bind]; [discriminate|].
    intros H. injection H as <-. exact (seconds_fmt_raise _ _ Et).
  - intros H. injection H as <-. exact (main_content_raise _ _ Em).
Qed.

(** X9: render_html fails only on a time it cannot format: with ValueError or
    OverflowError, never otherwise; the sidebar, the escaping and the
    grouping cannot fail. *)
Theorem render_html_failure (now : string) (data : ReportData)
    (title : string) (e : exn) :
  render_html now data title = Raise e ->
  e = ValueError \/ e = OverflowError.
Proof. apply render_html_raise. Qed.

(** The report of a suite whose time is infinite. *)
Definition endless_data : ReportData :=
  {| suites := []; cases := [];
     totals := {| t_suites := 1; t_tests := 0; t_failures := 0; t_errors := 0;
                  t_skipped := 0; t_time := S754_infinity false;
                  t_passed := 0 |} |}.

Lemma render_html_failure_witness :
  render_html "2025-01-01 00:00:00" endless_data "Report" = Raise ValueError
  /\ (ValueError = ValueError \/ ValueError = OverflowError).
Proof.
  assert (H : render_html "2025-01-01 00:00:00" endless_data "Report"
              = Raise ValueError) by (vm_compute; reflexivity).
  split; [exact H|].
  exact (render_html_failure _ _ _ _ H).
Defined.

(* ================================================================= *)
(** ** Which blocks a page holds *)

Lemma occurs_b_sound N s : occurs_b N s = true -> Substring N s.
Proof.
  induction s as [|c s IH]; simpl.
  - destruct (strip_prefix N "") eqn:E; [|discriminate].
    intros _. exact (Substring_by_prefix _ _ _ E).
  - destruct (strip_prefix N (String c s)) eqn:E.
    + intros _. exact (Substring_by_prefix _ _ _ E).
    + intros H. destruct (IH H) as (a & b & ->).
      exists (String c a), b. reflexivity.
Qed.

Lemma regroup3 (a b c r : string) : a ++ b ++ c ++ r = (a ++ b ++ c) ++ r.
Proof. now rewrite !app_s_assoc. Qed.

Lemma no_lt_status s : no_lt (status_str s) = true.
Proof. destruct s; reflexivity. Qed.

Lemma no_lt_label s : no_lt (label_of s) = true.
Proof. destruct s; reflexivity. Qed.

(** A text that is free of the markup [N]: an assumption, a text without
    [<], or a closed text, checked by computation. *)
Ltac clean_leaf N HN :=
  first [ assumption
        | apply (no_lt_Clean N HN);
          first [ apply no_lt_escape | apply no_lt_str_of_int
                | apply no_lt_status | apply no_lt_label | reflexivity ]
        | apply (clean_b_sound N); vm_compute; reflexivity ].

(** Piece by piece; a piece that ends inside a tag is taken together with
    the two pieces that follow it. *)
Ltac clean N HN :=
  repeat first
    [ apply (Clean_app N); [clean_leaf N HN|]
    | rewrite regroup3; apply (Clean_app N);
      [apply (clean_b_sound N); vm_compute; reflexivity|] ];
  clean_leaf N HN.

(** Finds markup that lies within one closed piece of the text. *)
Ltac find_in_piece :=
  first [ apply Substring_app_l; apply occurs_b_sound; vm_compute; reflexivity
        | apply Substring_app_r; find_in_piece ].

(** The element that shows the detail text of a case. *)
Definition pre_tag : string := "<pre>".

Lemma pre_tag_lt : exists t, pre_tag = String "<" t.
Proof. eexists. reflexivity. Qed.

Lemma pre_in_details c : Substring pre_tag (details_html_of c).
Proof.
  unfold details_html_of.
  find_in_piece.
Qed.

Lemma row_without_details c row :
  need_details c = false -> _build_row_html c = Ok row ->
  Clean pre_tag row.
Proof.
  unfold _build_row_html. intros Hn H. rewrite Hn in H.
  apply bind_ok in H. destruct H as (elapsed & He & H).
  apply Ok_inj in H. subst row.
  apply no_lt_seconds_fmt, (no_lt_Clean pre_tag pre_tag_lt) in He.
  clean pre_tag pre_tag_lt.
Qed.

Lemma row_with_details c row :
  need_details c = true -> _build_row_html c = Ok row ->
  Substring (details_html_of c) row.
Proof.
  unfold _build_row_html. intros Hn H. rewrite Hn in H.
  apply bind_ok in H. destruct H as (elapsed & He & H).
  apply Ok_inj in H. subst row. find_substring.
Qed.

(** X11: the row of a case holds the details block, with the message and the
    pre element of the detail text, exactly when the case failed, ended in
    error, or was skipped with a message or a detail text; the row of a
    case that passed never has one. *)
Theorem row_details_iff (c : TestCaseRecord) (row : string) :
  _build_row_html c = Ok row ->
  (Substring pre_tag row <->
   c_status c = St_fail \/ c_status c = St_err
   \/ (c_status c = St_skip /\ (c_message c <> "" \/ c_detail c <> "")))
  /\ (Substring pre_tag row -> Substring (details_html_of c) row).
Proof.
  intros H.
  assert (Hn : need_details c = true <->
               c_status c = St_fail \/ c_status c = St_err
               \/ (c_status c = St_skip /\ (c_message c <> "" \/ c_detail c <> ""))).
  { unfold need_details. destruct (c_status c).
    - split; [discriminate|]. intros [E|[E|[E _]]]; discriminate E.
    - split; auto.
    - split; auto.
    - rewrite orb_true_iff. split.
      + intros [E|E]; right; right; (split; [reflexivity|]);
          [left|right]; intros E'; rewrite E' in E; discriminate E.
      + intros [E|[E|[_ [E|E]]]]; try discriminate E.
        * left. destruct (c_message c); [congruence|reflexivity].
        * right. destruct (c_detail c); [congruence|reflexivity]. }
  rewrite <- Hn.
  destruct (need_details c) eqn:E.
  - pose proof (row_with_details c row E H) as Hd.
    split; [|intros _; exact Hd]. split; [reflexivity|]. intros _.
    exact (Substring_trans _ _ _ (pre_in_details c) Hd).
  - destruct (row_without_details c row E H) as [Hno _].
    split; [|intros Hs; contradiction]. split; [contradiction|discriminate].
Qed.

Lemma row_details_iff_witness :
  exists row,
    _build_row_html (case_record "Suite1" test_b) = Ok row
    /\ Substring pre_tag row.
Proof.
  destruct (_build_row_html (case_record "Suite1" test_b)) as [row|e] eqn:E;
    [|vm_compute in E; discriminate E].
  exists row. split; [reflexivity|].
  apply (proj1 (row_details_iff (case_record "Suite1" test_b) row E)).
  left. reflexivity.
Defined.

(** The opening of a suite section. *)
Definition section_tag : string :=
  "<div class=" ++ dq ++ "suite-section" ++ dq.

Lemma section_tag_lt : exists t, section_tag = String "<" t.
Proof. eexists. reflexivity. Qed.

Lemma regroup4 (a b c d r : string) :
  a ++ b ++ c ++ d ++ r = (a ++ b ++ c ++ d) ++ r.
Proof. now rewrite !app_s_assoc. Qed.

Lemma section_tag_in_header suite suite_totals elapsed :
  Substring section_tag (suite_header suite suite_totals elapsed).
Proof.
  unfold suite_header. rewrite regroup4. apply Substring_app_l.
  apply occurs_b_sound. vm_compute. reflexivity.
Qed.

Lemma no_cases_no_section now data title html :
  cases data = [] -> render_html now data title = Ok html ->
  Clean section_tag html.
Proof.
  intros Hc H. apply render_html_inv in H.
  destruct H as (main_content_html & elapsed & Hmain & He & ->).
  assert (Hm : main_content_html = "").
  { unfold _build_main_content in Hmain. rewrite Hc in Hmain.
    apply Ok_inj in Hmain. now subst. }
  assert (Hs : _build_sidebar data title = sidebar_open title ++ sidebar_close).
  { unfold _build_sidebar. rewrite Hc. reflexivity. }
  rewrite Hm, Hs.
  apply no_lt_seconds_fmt, (no_lt_Clean section_tag section_tag_lt) in He.
  assert (Hside : Clean section_tag (sidebar_open title ++ sidebar_close)).
  { unfold sidebar_open, sidebar_close. rewrite !app_s_assoc.
    clean section_tag section_tag_lt. }
  assert (He0 : Clean section_tag "")
    by (apply (no_lt_Clean section_tag section_tag_lt); reflexivity).
  clean section_tag section_tag_lt.
Qed.

(** X12: a page has a suite section exactly when the report has a test case:
    suites without test cases count in the totals, but get no section. *)
Theorem suite_section_iff_cases (now : string) (data : ReportData)
    (title html : string) :
  render_html now data title = Ok html ->
  (Substring section_tag html <-> cases data <> []).
Proof.
  intros H. split.
  - intros Hs Hc. destruct (no_cases_no_section _ _ _ _ Hc H) as [Hno _].
    contradiction.
  - intros Hc. destruct (cases data) as [|c cs] eqn:Ec; [congruence|].
    pose proof H as H'. apply render_html_inv in H'.
    destruct H' as (main_content_html & elapsed & Hmain & He & ->).
    assert (Hin : In c (cases data)) by (rewrite Ec; now left).
    destruct (row_in_main_content data _ c Hmain Hin)
      as (section & cls & row & Hsec & _ & _ & _ & _ & Hsub).
    unfold suite_section_html in Hsec.
    apply bind_ok in Hsec. destruct Hsec as (el & _ & Hsec).
    apply bind_ok in Hsec. destruct Hsec as (classes & _ & Hsec).
    apply Ok_inj in Hsec. subst section.
    assert (Hm : Substring section_tag main_content_html).
    { eapply Substring_trans; [|exact Hsub].
      apply Substring_app_l, section_tag_in_header. }
    repeat first [ apply Substring_app_l; exact Hm | apply Substring_app_r ].
Qed.

(** A report with one case and no suite summary. *)
Definition one_case_data : ReportData :=
  {| suites := []; cases := [case_record "Suite1" test_a];
     totals := make_totals [] |}.

Lemma suite_section_iff_cases_witness :
  exists html,
    render_html "2025-01-01 00:00:00" one_case_data "Report" = Ok html
    /\ Substring section_tag html.
Proof.
  destruct (render_html "2025-01-01 00:00:00" one_case_data "Report")
    as [html|e] eqn:E; [|vm_compute in E; discriminate E].
  exists html. split; [reflexivity|].
  apply (proj2 (suite_section_iff_cases _ _ _ _ E)). discriminate.
Defined.

(* ================================================================= *)
(** ** The order of the sections and of the rows *)

(** The order of [str]: [a < b] and [a <= b]. *)
Definition str_lt (a b : string) : Prop := String.ltb a b = true.
Definition str_le (a b : string) : Prop := String.ltb b a = false.

Lemma ascii_compare_lt_trans x y z :
  Ascii.compare x y = Lt -> Ascii.compare y z = Lt -> Ascii.compare x z = Lt.
Proof.
  unfold Ascii.compare. rewrite !N.compare_lt_iff. apply N.lt_trans.
Qed.

Lemma string_compare_lt_trans a b c :
  String.compare a b = Lt -> String.compare b c = Lt -> String.compare a c = Lt.
Proof.
  revert b c. induction a as [|x a IH]; intros [|y b] [|z c]; simpl;
    try discriminate; try reflexivity.
  destruct (Ascii.compare x y) eqn:Exy; destruct (Ascii.compare y z) eqn:Eyz;
    try discriminate; intros H1 H2.
  - apply Ascii.compare_eq_iff in Exy, Eyz. subst.
    replace (Ascii.compare z z) with Eq
      by (symmetry; unfold Ascii.compare; apply N.compare_refl).
    now apply (IH b c).
  - apply Ascii.compare_eq_iff in Exy. subst. now rewrite Eyz.
  - apply Ascii.compare_eq_iff in Eyz. subst. now rewrite Exy.
  - now rewrite (ascii_compare_lt_trans x y z).
Qed.

Lemma str_lt_trans a b c : str_lt a b -> str_lt b c -> str_lt a c.
Proof.
  unfold str_lt, String.ltb. intros H1 H2.
  destruct (String.compare a b) eqn:E1; try discriminate.
  destruct (String.compare b c) eqn:E2; try discriminate.
  now rewrite (string_compare_lt_trans a b c).
Qed.

Lemma string_compare_refl a : String.compare a a = Eq.
Proof.
  pose proof (String.compare_antisym a a) as H.
  destruct (String.compare a a); [reflexivity|discriminate H|discriminate H].
Qed.

Lemma str_le_cases a b : str_le a b <-> a = b \/ str_lt a b.
Proof.
  unfold str_le, str_lt, String.ltb. rewrite (String.compare_antisym b a).
  destruct (String.compare a b) eqn:E; cbn [CompOpp].
  - apply String.compare_eq_iff in E. subst. split; auto.
  - split; auto.
  - split; [discriminate|]. intros [->|H]; [|discriminate H].
    rewrite string_compare_refl in E. discriminate E.
Qed.

Lemma str_lt_le_trans a b c : str_lt a b -> str_le b c -> str_lt a c.
Proof.
  intros H1 H2. apply str_le_cases in H2. destruct H2 as [<-|H2]; [assumption|].
  now apply (str_lt_trans a b c).
Qed.

Lemma str_le_trans a b c : str_le a b -> str_le b c -> str_le a c.
Proof.
  intros H1 H2. apply str_le_cases in H1. destruct H1 as [<-|H1]; [assumption|].
  apply str_le_cases. right. now apply (str_lt_le_trans a b c).
Qed.

Lemma str_lt_irrefl a : ~ str_lt a a.
Proof.
  unfold str_lt, String.ltb. rewrite string_compare_refl. discriminate.
Qed.

Section SortedBy.
Context {A : Type} (key : A -> string).

Definition key_le (a b : A) : Prop := str_le (key a) (key b).

Lemma insert_by_sorted x l :
  StronglySorted key_le l -> StronglySorted key_le (insert_by key x l).
Proof.
  induction 1 as [|y l Hl IH Hy]; simpl.
  - constructor; constructor.
  - destruct (String.ltb (key x) (key y)) eqn:E.
    + constructor; [now constructor|]. constructor.
      * apply str_le_cases. now right.
      * eapply Forall_impl; [|exact Hy]. intros z Hz.
        apply str_le_cases. right.
        exact (str_lt_le_trans _ _ _ E Hz).
    + constructor; [exact IH|].
      apply Forall_forall. intros z Hz.
      apply (Permutation_in _ (insert_by_perm key x l)) in Hz.
      destruct Hz as [<-|Hz]; [exact E|].
      rewrite Forall_forall in Hy. now apply Hy.
Qed.

Lemma fold_insert_sorted l acc :
  StronglySorted key_le acc ->
  StronglySorted key_le (fold_left (fun acc x => insert_by key x acc) l acc).
Proof.
  revert acc. induction l as [|x l IH]; intros acc H; simpl; [assumption|].
  apply IH, insert_by_sorted, H.
Qed.

Lemma sorted_by_sorted l : StronglySorted key_le (sorted_by key l).
Proof. apply fold_insert_sorted. constructor. Qed.

(** Stability: the elements of one key keep their order. *)
Lemma insert_by_stable n x l :
  StronglySorted key_le l ->
  filter (fun c => String.eqb (key c) n) (insert_by key x l) =
  (filter (fun c => String.eqb (key c) n) l
   ++ (if String.eqb (key x) n then [x] else []))%list.
Proof.
  induction 1 as [|y l Hl IH Hy]; simpl.
  - reflexivity.
  - destruct (String.ltb (key x) (key y)) eqn:E.
    + cbn [filter]. destruct (String.eqb (key x) n) eqn:Ex.
      * apply String.eqb_eq in Ex.
        assert (Hnone : filter (fun c => String.eqb (key c) n) (y :: l) = []).
        { apply filter_none. intros z Hz.
          apply String.eqb_neq. intros Ez.
          assert (Hlt : str_lt (key x) (key z)).
          { destruct Hz as [<-|Hz]; [exact E|].
            rewrite Forall_forall in Hy.
            exact (str_lt_le_trans _ _ _ E (Hy z Hz)). }
          rewrite Ex, Ez in Hlt. exact (str_lt_irrefl _ Hlt). }
        cbn [filter] in Hnone. rewrite Hnone. reflexivity.
      * now rewrite app_nil_r.
    + cbn [filter]. rewrite IH.
      destruct (String.eqb (key y) n); reflexivity.
Qed.

Lemma sorted_by_stable n l :
  filter (fun c => String.eqb (key c) n) (sorted_by key l) =
  filter (fun c => String.eqb (key c) n) l.
Proof.
  unfold sorted_by.
  enough (H : forall acc, StronglySorted key_le acc ->
            filter (fun c => String.eqb (key c) n)
              (fold_left (fun acc x => insert_by key x acc) l acc) =
            (filter (fun c => String.eqb (key c) n) acc
             ++ filter (fun c => String.eqb (key c) n) l)%list)
    by (apply (H []); constructor).
  induction l as [|x l IH]; intros acc Hacc; simpl.
  - now rewrite app_nil_r.
  - rewrite IH by now apply insert_by_sorted.
    rewrite insert_by_stable by assumption.
    rewrite <- app_assoc. f_equal.
    destruct (String.eqb (key x) n); reflexivity.
Qed.

End SortedBy.

(** Distinct keys come out in strictly ascending order. *)
Lemma sorted_strict l :
  NoDup l -> StronglySorted str_lt (sorted l).
Proof.
  intros Hnd. apply sorted_NoDup in Hnd.
  pose proof (sorted_by_sorted (fun k : string => k) l) as Hs.
  fold (sorted l) in Hs. induction Hs as [|x xs Hxs IH Hx].
  - constructor.
  - inversion Hnd as [|? ? Hnin Hnd']; subst.
    constructor; [now apply IH|].
    apply Forall_forall. intros y Hy. rewrite Forall_forall in Hx.
    specialize (Hx y Hy). apply str_le_cases in Hx.
    destruct Hx as [->|Hx]; [contradiction|exact Hx].
Qed.

Lemma mapM_Forall2 {A B : Type} (f : A -> result B) l ys :
  mapM f l = Ok ys -> Forall2 (fun x y => f x = Ok y) l ys.
Proof.
  revert ys. induction l as [|a l IH]; intros ys H; simpl in H.
  - apply Ok_inj in H. subst ys. constructor.
  - apply bind_ok in H. destruct H as (b & Hb & H).
    apply bind_ok in H. destruct H as (bs & Hbs & H).
    apply Ok_inj in H. subst ys. constructor; [exact Hb|now apply IH].
Qed.

Lemma suite_keys_cases cases n :
  In n (dict_keys (group_cases cases)) <-> exists c, In c cases /\ c_suite c = n.
Proof.
  rewrite group_cases_with, suite_keys_group_with. simpl. tauto.
Qed.

Lemma class_keys_cases cases s k :
  In k (dict_keys (dict_get [] (group_cases cases) s)) <->
  exists c, In c cases /\ c_suite c = s /\ class_key c = k.
Proof.
  rewrite group_cases_with, class_keys_group_with. simpl. tauto.
Qed.

(** X13: the main content is the suite sections of the suite names of the
    cases, one section for each name, in strictly ascending order of the
    names; within a suite section, the class sections of the class keys of
    its cases, one for each key, in strictly ascending order. *)
Theorem main_content_sections (data : ReportData) (html : string) :
  _build_main_content data = Ok html ->
  exists names sections,
    html = join sections
    /\ Forall2 (fun n s => suite_section_html (group_cases (cases data)) n = Ok s)
         names sections
    /\ StronglySorted str_lt names
    /\ (forall n, In n names <-> exists c, In c (cases data) /\ c_suite c = n)
    /\ (forall n section,
          suite_section_html (group_cases (cases data)) n = Ok section ->
          exists elapsed keys classes,
            section =
              suite_header n
                (subtotals_of (suite_cases_of (group_cases (cases data)) n)) elapsed
              ++ join classes ++ suite_footer
            /\ Forall2 (fun k cls =>
                          class_section_html (group_cases (cases data)) n k = Ok cls)
                 keys classes
            /\ StronglySorted str_lt keys
            /\ (forall k, In k keys <->
                  exists c, In c (cases data) /\ c_suite c = n /\ class_key c = k)).
Proof.
  rewrite _build_main_content_text. intros H.
  apply bind_ok in H. destruct H as (sections & Hsections & H).
  apply Ok_inj in H.
  exists (sorted (dict_keys (group_cases (cases data)))), sections.
  split; [auto|]. split; [exact (mapM_Forall2 _ _ _ Hsections)|].
  split; [|split].
  - apply sorted_strict. rewrite group_cases_with. apply suite_keys_NoDup.
    constructor.
  - intros n. rewrite sorted_In. apply suite_keys_cases.
  - intros n section Hsec. unfold suite_section_html in Hsec.
    apply bind_ok in Hsec. destruct Hsec as (elapsed & _ & Hsec).
    apply bind_ok in Hsec. destruct Hsec as (classes & Hclasses & Hsec).
    apply Ok_inj in Hsec.
    exists elapsed, (sorted (dict_keys (dict_get [] (group_cases (cases data)) n))),
      classes.
    split; [auto|]. split; [exact (mapM_Forall2 _ _ _ Hclasses)|]. split.
    + apply sorted_strict. rewrite group_cases_with. apply class_keys_NoDup.
      intros s. constructor.
    + intros k. rewrite sorted_In. apply class_keys_cases.
Qed.

Lemma main_content_sections_witness :
  exists html names sections,
    _build_main_content one_case_data = Ok html
    /\ html = join sections
    /\ StronglySorted str_lt names
    /\ (forall n, In n names <->
          exists c, In c (cases one_case_data) /\ c_suite c = n).
Proof.
  destruct (_build_main_content one_case_data) as [html|e] eqn:E;
    [|vm_compute in E; discriminate E].
  destruct (main_content_sections one_case_data html E)
    as (names & sections & H1 & _ & H3 & H4 & _).
  exists html, names, sections. auto.
Defined.

(** X14: the rows of a class section are the rows of the cases of that suite
    name and class key, each case once, in ascending order of the case
    names; cases of the same name keep the order of the input. *)
Theorem class_section_rows (cases : list TestCaseRecord) (s k cls : string) :
  class_section_html (group_cases cases) s k = Ok cls ->
  exists elapsed ordered rows,
    cls = class_header s k (subtotals_of (filter (in_class s k) cases)) elapsed
          ++ join rows ++ class_footer
    /\ Forall2 (fun c row => _build_row_html c = Ok row) ordered rows
    /\ Permutation ordered (filter (in_class s k) cases)
    /\ StronglySorted (fun a b => str_le (c_name a) (c_name b)) ordered
    /\ (forall n,
          filter (fun c => String.eqb (c_name c) n) ordered
          = filter (fun c => String.eqb (c_name c) n) (filter (in_class s k) cases)).
Proof.
  unfold class_section_html. rewrite class_cases_filter. intros H.
  apply bind_ok in H. destruct H as (elapsed & _ & H).
  apply bind_ok in H. destruct H as (rows & Hrows & H).
  apply Ok_inj in H.
  exists elapsed, (sorted_by c_name (filter (in_class s k) cases)), rows.
  split; [auto|]. split; [exact (mapM_Forall2 _ _ _ Hrows)|].
  split; [apply sorted_by_perm|]. split.
  - apply (sorted_by_sorted c_name).
  - intros n. apply (sorted_by_stable c_name).
Qed.

Lemma class_section_rows_witness :
  exists cls ordered,
    class_section_html (group_cases (cases one_case_data)) "Suite1" "Default" = Ok cls
    /\ Permutation ordered
         (filter (in_class "Suite1" "Default") (cases one_case_data)).
Proof.
  destruct (class_section_html (group_cases (cases one_case_data)) "Suite1" "Default")
    as [cls|e] eqn:E; [|vm_compute in E; discriminate E].
  destruct (class_section_rows _ _ _ _ E) as (elapsed & ordered & rows & _ & _ & H & _).
  exists cls, ordered. split; [reflexivity|exact H].
Defined.

(* ================================================================= *)
(** ** The grouping, and the sidebar against the main content *)

Lemma class_key_cases c k :
  class_key c = k <->
  (c_classname c = k /\ k <> "") \/ (c_classname c = "" /\ k = "Default").
Proof.
  unfold class_key, or_s. destruct (c_classname c) as [|a r]; simpl.
  - split.
    + intros <-. right. auto.
    + intros [[<- H]|[_ ->]]; [congruence|reflexivity].
  - split.
    + intros <-. left. split; [reflexivity|discriminate].
    + intros [[H _]|[H _]]; [exact H|discriminate H].
Qed.

(** X15: the grouping loses and repeats no case: the cases of the class
    section of suite [s] and class [k] are the cases of suite name [s]
    whose class name is [k], or is empty when [k] is Default, in the order
    of the input; the cases of a suite section are those of suite name
    [s].  So a case without class name and a case of a class named
    Default share one class section. *)
Theorem grouping_keeps_every_case (cases : list TestCaseRecord) (s k : string) :
  class_cases_of (group_cases cases) s k = filter (in_class s k) cases
  /\ (forall c, In c (class_cases_of (group_cases cases) s k) <->
        In c cases /\ c_suite c = s
        /\ ((c_classname c = k /\ k <> "") \/ (c_classname c = "" /\ k = "Default")))
  /\ Permutation (suite_cases_of (group_cases cases) s) (filter (in_suite s) cases)
  /\ (forall c, In c (suite_cases_of (group_cases cases) s) <->
        In c cases /\ c_suite c = s).
Proof.
  split; [apply class_cases_filter|]. split; [|split; [apply suite_cases_perm|]].
  - intros c. rewrite class_cases_filter, filter_In. unfold in_class.
    rewrite andb_true_iff, !String.eqb_eq, class_key_cases. tauto.
  - intros c. split.
    + intros H. apply (Permutation_in _ (suite_cases_perm cases s)) in H.
      apply filter_In in H. unfold in_suite in H.
      now rewrite String.eqb_eq in H.
    + intros [H1 H2].
      apply (Permutation_in _ (Permutation_sym (suite_cases_perm cases s))).
      apply filter_In. unfold in_suite. now rewrite String.eqb_eq.
Qed.

(** Mapping the values of a dictionary. *)
Definition dict_map {V W : Type} (g : V -> W) (d : dict V) : dict W :=
  map (fun p => (fst p, g (snd p))) d.

Lemma dict_map_mem {V W : Type} (g : V -> W) d k :
  dict_mem (dict_map g d) k = dict_mem d k.
Proof.
  induction d as [|[k' v] d IH]; simpl; [reflexivity|].
  now rewrite IH.
Qed.

Lemma dict_map_get {V W : Type} (g : V -> W) dflt d k :
  dict_get (g dflt) (dict_map g d) k = g (dict_get dflt d k).
Proof.
  induction d as [|[k' v] d IH]; simpl; [reflexivity|].
  now rewrite IH; destruct (String.eqb k k').
Qed.

Lemma dict_map_set {V W : Type} (g : V -> W) d k v :
  dict_set (dict_map g d) k (g v) = dict_map g (dict_set d k v).
Proof.
  induction d as [|[k' v'] d IH]; simpl; [reflexivity|].
  destruct (String.eqb k k'); simpl; [reflexivity|now rewrite IH].
Qed.

Lemma dict_map_keys {V W : Type} (g : V -> W) d :
  dict_keys (dict_map g d) = dict_keys d.
Proof. unfold dict_keys, dict_map. rewrite map_map. reflexivity. Qed.

Section GroupMap.
Context {A B : Type} (f : A -> B).

Definition values_map (st : Structure A) : Structure B :=
  dict_map (dict_map (map f)) st.

Lemma values_map_get st s :
  dict_get [] (values_map st) s = dict_map (map f) (dict_get [] st s).
Proof. exact (dict_map_get (dict_map (map f)) [] st s). Qed.

Lemma class_map_get (d : dict (list A)) c :
  dict_get [] (dict_map (map f) d) c = map f (dict_get [] d c).
Proof. exact (dict_map_get (map f) [] d c). Qed.

Lemma values_map_set st s d :
  dict_set (values_map st) s (dict_map (map f) d) = values_map (dict_set st s d).
Proof. exact (dict_map_set (dict_map (map f)) st s d). Qed.

Lemma class_map_set (d : dict (list A)) c l :
  dict_set (dict_map (map f) d) c (map f l) = dict_map (map f) (dict_set d c l).
Proof. exact (dict_map_set (map f) d c l). Qed.

(** The grouping step sees the keys only. *)
Lemma group_step_map s c x (st : Structure A) :
  group_step s c (f x) (values_map st) = values_map (group_step s c x st).
Proof.
  unfold group_step. cbv zeta.
  assert (H1 : (if dict_mem (values_map st) s then values_map st
                else dict_set (values_map st) s [])
               = values_map (if dict_mem st s then st else dict_set st s [])).
  { unfold values_map at 1. rewrite dict_map_mem.
    destruct (dict_mem st s); [reflexivity|].
    exact (values_map_set st s []). }
  rewrite H1. set (st1 := if dict_mem st s then st else dict_set st s []).
  rewrite values_map_get. set (bc := dict_get [] st1 s).
  match goal with
  | |- context [dict_get [] ?d c] =>
      assert (H2 : d = dict_map (map f) (if dict_mem bc c then bc else dict_set bc c []))
  end.
  { rewrite dict_map_mem. destruct (dict_mem bc c); [reflexivity|].
    exact (class_map_set bc c []). }
  rewrite H2, class_map_get.
  change [f x] with (map f [x]).
  now rewrite <- map_app, class_map_set, values_map_set.
Qed.

End GroupMap.

Lemma group_names_map cases :
  group_names cases = values_map c_name (group_cases cases).
Proof.
  unfold group_names, group_cases.
  enough (H : forall st,
            fold_left (fun st case =>
                         group_step (c_suite case) (class_key case) (c_name case) st)
              cases (values_map c_name st)
            = values_map c_name
                (fold_left (fun st case =>
                              group_step (c_suite case) (class_key case) case st)
                   cases st)) by exact (H []).
  induction cases as [|x cases IH]; intros st; simpl; [reflexivity|].
  now rewrite group_step_map, IH.
Qed.

Lemma insert_by_map {A : Type} (key : A -> string) x l :
  insert_by (fun k => k) (key x) (map key l) = map key (insert_by key x l).
Proof.
  induction l as [|y l IH]; simpl; [reflexivity|].
  destruct (String.ltb (key x) (key y)); simpl; [reflexivity|now rewrite IH].
Qed.

Lemma sorted_map {A : Type} (key : A -> string) l :
  sorted (map key l) = map key (sorted_by key l).
Proof.
  unfold sorted, sorted_by.
  change (@nil string) with (map key (@nil A)).
  generalize (@nil A) as acc.
  induction l as [|x l IH]; intros acc; simpl; [reflexivity|].
  now rewrite insert_by_map, IH.
Qed.

(** X16: the sidebar lists the suites and the classes of the main content, in
    the same order, and under each class the names of the cases in the
    order of the rows of the class section. *)
Theorem sidebar_mirrors_main_content (cases : list TestCaseRecord) :
  sorted (dict_keys (group_names cases)) = sorted (dict_keys (group_cases cases))
  /\ (forall s,
        sorted (dict_keys (dict_get [] (group_names cases) s))
        = sorted (dict_keys (dict_get [] (group_cases cases) s)))
  /\ (forall s k,
        sorted (lookup2 (group_names cases) s k)
        = map c_name (sorted_by c_name (class_cases_of (group_cases cases) s k))).
Proof.
  rewrite group_names_map. split; [|split].
  - unfold values_map. now rewrite dict_map_keys.
  - intros s. now rewrite values_map_get, dict_map_keys.
  - intros s k. unfold lookup2, class_cases_of.
    rewrite values_map_get, class_map_get. apply sorted_map.
Qed.

(* ================================================================= *)
(** ** Seconds that print as 60.00 *)

Lemma div_round_even_scale n d k :
  0 < d -> 0 < k ->
  PyFloat.div_round_even (n * k) (d * k) = PyFloat.div_round_even n d.
Proof.
  intros Hd Hk. unfold PyFloat.div_round_even.
  rewrite Z.div_mul_cancel_r by lia.
  rewrite Z.mul_mod_distr_r by lia.
  replace (2 * (n mod d * k)) with (2 * (n mod d) * k) by ring.
  assert (E : Z.compare (2 * (n mod d) * k) (d * k) = Z.compare (2 * (n mod d)) d).
  { destruct (Z.compare_spec (2 * (n mod d)) d) as [H|H|H].
    - rewrite H. apply Z.compare_refl.
    - apply Z.compare_lt_iff. nia.
    - apply Z.compare_gt_iff. nia. }
  now rewrite E.
Qed.

Lemma div_round_even_exact n : PyFloat.div_round_even n 1 = n.
Proof.
  unfold PyFloat.div_round_even. rewrite Z.div_1_r, Z.mod_1_r. reflexivity.
Qed.

(** The hundredths of a positive float, from its value. *)
Lemma hundredths_Repr s v :
  Repr s v -> PyFloat.hundredths s = PyFloat.div_round_even (100 * v) (2 ^ 1074).
Proof.
  intros (m & e & -> & Hb & ->). pose proof (bounded_exp_lo m e Hb) as L.
  assert (P74 : 0 < 2 ^ 1074) by (apply Z.pow_pos_nonneg; lia).
  unfold PyFloat.hundredths. destruct e as [|p|p].
  - rewrite Z.shiftl_0_r. change (0 + 1074) with 1074.
    replace (100 * (Zpos m * 2 ^ 1074)) with (100 * Zpos m * 2 ^ 1074) by ring.
    rewrite <- (Z.mul_1_l (2 ^ 1074)) at 2.
    rewrite div_round_even_scale by lia. now rewrite div_round_even_exact.
  - rewrite Z.shiftl_mul_pow2 by lia.
    rewrite Z.pow_add_r by lia.
    replace (100 * (Zpos m * (2 ^ Zpos p * 2 ^ 1074)))
      with (100 * (Zpos m * 2 ^ Zpos p) * 2 ^ 1074) by ring.
    rewrite <- (Z.mul_1_l (2 ^ 1074)) at 2.
    rewrite div_round_even_scale by lia. now rewrite div_round_even_exact.
  - rewrite Z.pow_pos_fold.
    assert (Pp : 0 < 2 ^ Zpos p) by (apply Z.pow_pos_nonneg; lia).
    assert (Pk : 0 < 2 ^ (Zneg p + 1074)) by (apply Z.pow_pos_nonneg; lia).
    assert (E : 2 ^ 1074 = 2 ^ Zpos p * 2 ^ (Zneg p + 1074)).
    { rewrite <- Z.pow_add_r by lia. f_equal. lia. }
    rewrite E.
    replace (100 * (Zpos m * 2 ^ (Zneg p + 1074)))
      with (100 * Zpos m * 2 ^ (Zneg p + 1074)) by ring.
    now rewrite div_round_even_scale by lia.
Qed.

Lemma round_to_6000 n d :
  0 < d -> 11999 * d <= 2 * n -> n < 6000 * d ->
  PyFloat.div_round_even n d = 6000.
Proof.
  intros Hd Hlo Hhi. unfold PyFloat.div_round_even.
  assert (Hq : n / d = 5999).
  { symmetry. apply (Z.div_unique n d 5999 (n - 5999 * d)); lia. }
  assert (Hr : n mod d = n - 5999 * d).
  { symmetry. apply (Z.mod_unique n d 5999 (n - 5999 * d)); lia. }
  rewrite Hq, Hr.
  destruct (Z.compare_spec (2 * (n - 5999 * d)) d); [reflexivity|lia|reflexivity].
Qed.

(** A valid float of positive value. *)
Lemma pos_Repr s : PyFloat.valid s = true -> 0 < sval s -> Repr s (sval s).
Proof.
  intros Hv Hp. destruct s as [sg|sg| |sg m e]; simpl in Hp; try lia.
  assert (P : 0 < 2 ^ (e + 1074) \/ 2 ^ (e + 1074) = 0).
  { pose proof (Z.pow_nonneg 2 (e + 1074)). lia. }
  destruct sg; cbn [cond_Zopp] in Hp; [nia|].
  exists m, e. repeat split. exact Hv.
Qed.

Lemma fmt_2f_sixty s :
  PyFloat.valid s = true ->
  (59995 # 1000 <= F2Q s)%Q -> sval s < 60 * 2 ^ 1074 ->
  PyFloat.fmt_2f s = "60.00".
Proof.
  intros Hv Hlo Hhi. unfold Qle, F2Q in Hlo. cbn [Qnum Qden] in Hlo.
  rewrite two_1074 in Hlo.
  assert (P74 : 0 < 2 ^ 1074) by (apply Z.pow_pos_nonneg; lia).
  assert (Hpos : 0 < sval s) by lia.
  pose proof (pos_Repr s Hv Hpos) as Hr.
  pose proof (hundredths_Repr s _ Hr) as Hh.
  rewrite (round_to_6000 (100 * sval s) (2 ^ 1074)) in Hh by lia.
  destruct Hr as (m & e & E & _ & _). rewrite E in Hh |- *.
  unfold PyFloat.fmt_2f. rewrite Hh. reflexivity.
Qed.

Lemma lt_60_sval m e :
  bounded PyFloat.prec PyFloat.emax m e = true ->
  PyFloat.ltb (S754_finite false m e) (PyFloat.lit 60) = true ->
  Zpos m * 2 ^ (e + 1074) < 60 * 2 ^ 1074.
Proof.
  intros Hb. pose proof (bounded_exp_lo m e Hb) as L.
  apply bounded_iff in Hb. destruct Hb as [Hc _]. rewrite fexp_eq in Hc.
  pose proof (digits_bounds m) as [_ Mhi].
  assert (M53 : Zpos m < 2 ^ 53).
  { assert (2 ^ Zpos (digits2_pos m) <= 2 ^ 53) by (apply Z.pow_le_mono_r; lia). lia. }
  rewrite lit_60. unfold PyFloat.ltb, SFltb, SFcompare.
  rewrite compare_cont_Eq.
  destruct (Z.compare_spec e (-47)) as [E|E|E]; try discriminate.
  - subst e. destruct (Z.compare_spec (Zpos m) 8444249301319680) as [E|E|E];
      try discriminate. intros _.
    change (60 * 2 ^ 1074) with (8444249301319680 * 2 ^ (-47 + 1074)).
    apply Z.mul_lt_mono_pos_r; [apply Z.pow_pos_nonneg; lia|exact E].
  - intros _.
    assert (2 ^ (e + 1074) <= 2 ^ 1026) by (apply Z.pow_le_mono_r; lia).
    assert (0 < 2 ^ (e + 1074)) by (apply Z.pow_pos_nonneg; lia).
    assert (Zpos m * 2 ^ (e + 1074) < 2 ^ 53 * 2 ^ (e + 1074))
      by (apply Z.mul_lt_mono_pos_r; lia).
    assert (2 ^ 53 * 2 ^ (e + 1074) <= 2 ^ 53 * 2 ^ 1026)
      by (apply Z.mul_le_mono_nonneg_l; lia).
    assert (2 ^ 53 * 2 ^ 1026 < 60 * 2 ^ 1074) by (vm_compute; reflexivity).
    lia.
Qed.

(** X17: the seconds are rounded to two decimals after the minutes are taken
    out, and a carry does not reach the minutes: a time from 59.995 to
    below 60 seconds prints as 60.00s, and a time of a minute or more
    whose remaining seconds are 59.995 or more prints them as 60.00. *)
Theorem seconds_fmt_prints_sixty (sec : float) :
  PyFloat.valid sec = true ->
  (PyFloat.ltb sec (PyFloat.lit 60) = true ->
   (59995 # 1000 <= F2Q sec)%Q ->
   seconds_fmt sec = Ok "60.00s")
  /\ (PyFloat.leb (PyFloat.lit 60) sec = true ->
      PyFloat.ltb sec (PyFloat.lit (2 ^ 53)) = true ->
      (59995 # 1000 <= claimed_remainder sec)%Q ->
      seconds_fmt sec = Ok (str_of_int (claimed_minutes sec) ++ "m60.00s")).
Proof.
  intros Hvalid.
  assert (P74 : 0 < 2 ^ 1074) by (apply Z.pow_pos_nonneg; lia).
  split.
  - intros Hlt Hlo. unfold seconds_fmt. rewrite (lt_60_not_ge sec Hlt).
    rewrite (fmt_2f_sixty sec Hvalid Hlo); [reflexivity|].
    assert (Hpos : 0 < sval sec).
    { unfold Qle, F2Q in Hlo. cbn [Qnum Qden] in Hlo. rewrite two_1074 in Hlo. lia. }
    destruct (pos_Repr sec Hvalid Hpos) as (m & e & E & Hb & Hv).
    rewrite Hv. rewrite E in Hlt. exact (lt_60_sval m e Hb Hlt).
  - intros Hge Hlt Hlo.
    destruct (ge_60_Repr sec Hvalid Hge Hlt) as [Hrepr Hrange].
    destruct (seconds_fmt_minutes sec (sval sec) Hrepr Hrange Hge)
      as (s & Hs & Hval & Hv & Hfin).
    rewrite <- (claimed_remainder_eq sec s Hval) in Hlo.
    rewrite Hs, claimed_minutes_eq.
    rewrite (fmt_2f_sixty s Hv Hlo); [reflexivity|].
    rewrite Hval. apply Z.mod_pos_bound. lia.
Qed.

(** 119.999 seconds. *)
Definition nearly_two_minutes : float :=
  PyFloat.div (PyFloat.lit 119999) (PyFloat.lit 1000).

Lemma seconds_fmt_prints_sixty_witness :
  seconds_fmt nearly_two_minutes = Ok "1m60.00s".
Proof.
  apply (proj2 (seconds_fmt_prints_sixty nearly_two_minutes eq_refl)).
  - vm_compute. reflexivity.
  - vm_compute. reflexivity.
  - vm_compute. discriminate.
Defined.

(* ================================================================= *)
(** ** No test case is left out of the report *)

Lemma load_paths fromfile paths pxs p xml :
  load fromfile paths = Some pxs -> In p paths -> fromfile p = Some xml ->
  In (p, xml) pxs.
Proof.
  revert pxs. induction paths as [|q paths IH]; intros pxs Hl Hin Hp; [destruct Hin|].
  simpl in Hl. destruct (fromfile q) as [xml'|] eqn:Hq; [|discriminate].
  destruct (load fromfile paths) as [pxs'|]; [|discriminate].
  injection Hl as <-. destruct Hin as [->|Hin].
  - left. congruence.
  - right. now apply IH.
Qed.

Lemma case_in_records fromfile paths data p xml suite case :
  parse_files fromfile paths = Ok data ->
  In p paths -> fromfile p = Some xml -> In suite xml ->
  In (CaseElem case) (ts_children suite) ->
  In (case_record (suite_name p suite) case) (cases data).
Proof.
  intros H Hp Hxml Hs Hc. apply parse_files_inv in H.
  destruct H as (pxs & Hl & ->). cbn [cases].
  apply in_flat_map. exists (p, xml). split; [exact (load_paths _ _ _ _ _ Hl Hp Hxml)|].
  unfold file_records. apply in_flat_map. exists suite. split; [exact Hs|].
  unfold suite_records. apply in_flat_map. exists (CaseElem case).
  split; [exact Hc|]. now left.
Qed.

Lemma case_shown now data title html c :
  render_html now data title = Ok html -> In c (cases data) ->
  exists row,
    _build_row_html c = Ok row /\ Substring row html
    /\ Substring (sidebar_case (c_suite c) (class_key c) (c_name c)) html.
Proof.
  intros H Hc. apply render_html_inv in H.
  destruct H as (main_content_html & elapsed & Hmain & He & ->).
  destruct (row_in_main_content data _ c Hmain Hc)
    as (section & cls & row & _ & _ & Hrow & H1 & H2 & H3).
  pose proof (Substring_trans _ _ _ H1 (Substring_trans _ _ _ H2 H3)) as Hm.
  pose proof (name_in_sidebar data title c Hc) as Hs.
  exists row. split; [exact Hrow|]. split.
  - repeat first [ apply Substring_app_l; exact Hm | apply Substring_app_r ].
  - repeat first [ apply Substring_app_l; exact Hs | apply Substring_app_r ].
Qed.

(** X18: every test case element of every suite of every input file has
    its row in the page that render_html returns for the parsed data, and
    its entry in the sidebar. *)
Theorem every_test_case_is_shown (fromfile : Files) (paths : list string)
    (data : ReportData) (now title html p : string) (xml : list TestSuite)
    (suite : TestSuite) (case : TestCase) :
  parse_files fromfile paths = Ok data ->
  render_html now data title = Ok html ->
  In p paths -> fromfile p = Some xml -> In suite xml ->
  In (CaseElem case) (ts_children suite) ->
  exists row,
    _build_row_html (case_record (suite_name p suite) case) = Ok row
    /\ Substring row html
    /\ Substring
         (sidebar_case (suite_name p suite)
            (class_key (case_record (suite_name p suite) case))
            (or_str (tc_name case) ""))
         html.
Proof.
  intros Hparse Hrender Hp Hxml Hs Hc.
  exact (case_shown _ _ _ _ _ Hrender
           (case_in_records _ _ _ _ _ _ _ Hparse Hp Hxml Hs Hc)).
Qed.

Lemma every_test_case_is_shown_witness :
  exists html row,
    _build_row_html (case_record "Suite1" test_b) = Ok row
    /\ Substring row html.
Proof.
  destruct (parse_files scenario_files ["a.xml"]) as [data|e] eqn:Hparse;
    [|vm_compute in Hparse; discriminate Hparse].
  destruct (render_html "2025-01-01 00:00:00" data "Report") as [html|e] eqn:Hrender.
  2: { exfalso. vm_compute in Hparse. apply Ok_inj in Hparse. subst data.
       vm_compute in Hrender. discriminate Hrender. }
  destruct (every_test_case_is_shown scenario_files ["a.xml"] data
              "2025-01-01 00:00:00" "Report" html "a.xml"
              [suite_of 2 1 [CaseElem test_a; CaseElem test_b]]
              (suite_of 2 1 [CaseElem test_a; CaseElem test_b]) test_b
              Hparse Hrender (or_introl eq_refl) eq_refl (or_introl eq_refl)
              (or_intror (or_introl eq_refl)))
    as (row & Hrow & Hsub & _).
  exists html, row. split; [exact Hrow|exact Hsub].
Defined.

(* ================================================================= *)
(** ** The counts of the sections add up *)

(** The class sections of a suite split its cases. *)
Lemma class_partition_weight (m : TestCaseRecord -> Z) cases s keys :
  NoDup keys ->
  (forall c, In c cases -> c_suite c = s -> In (class_key c) keys) ->
  sum_int (map (fun k => wsum m (filter (in_class s k) cases)) keys)
  = wsum m (filter (in_suite s) cases).
Proof.
  intros Hnd. induction cases as [|c cases IH]; intros Hin.
  - apply sum_int_map_zero. reflexivity.
  - assert (IH' := IH (fun x Hx => Hin x (or_intror Hx))). clear IH.
    simpl filter. unfold in_suite at 1, in_class.
    destruct (String.eqb (c_suite c) s) eqn:Es; cbn [andb].
    + rewrite wsum_cons, <- IH'.
      rewrite <- (sum_int_indicator (class_key c) (m c) keys Hnd).
      2: { apply Hin; [now left|]. now apply String.eqb_eq. }
      rewrite <- sum_int_map_add. f_equal. apply map_ext. intros k.
      destruct (String.eqb (class_key c) k); [apply wsum_cons|reflexivity].
    + exact IH'.
Qed.

Lemma class_sum (m : TestCaseRecord -> Z) cases s :
  sum_int (map (fun k => wsum m (class_cases_of (group_cases cases) s k))
             (sorted (dict_keys (dict_get [] (group_cases cases) s))))
  = wsum m (suite_cases_of (group_cases cases) s).
Proof.
  rewrite (wsum_perm m _ _ (suite_cases_perm cases s)).
  rewrite <- (class_partition_weight m cases s
                (sorted (dict_keys (dict_get [] (group_cases cases) s)))).
  - f_equal. apply map_ext. intros k. now rewrite class_cases_filter.
  - apply sorted_NoDup. rewrite group_cases_with. apply class_keys_NoDup.
    intros s'. constructor.
  - intros c Hc Hs. apply sorted_In. rewrite group_cases_with.
    apply class_keys_group_with. right. eauto.
Qed.

(** X19: the counts in the header of a suite section are the sums of the
    counts in the headers of its class sections, and the test counts of
    all the suite sections add up to the number of cases: every case is
    counted once. *)
Theorem section_counts_add_up (cases : list TestCaseRecord) :
  let structure := group_cases cases in
  let suite_totals s := subtotals_of (suite_cases_of structure s) in
  let class_totals s k := subtotals_of (class_cases_of structure s k) in
  let classes s := sorted (dict_keys (dict_get [] structure s)) in
  (forall s,
     st_tests (suite_totals s)
       = sum_int (map (fun k => st_tests (class_totals s k)) (classes s))
     /\ st_passed (suite_totals s)
       = sum_int (map (fun k => st_passed (class_totals s k)) (classes s))
     /\ st_failures (suite_totals s)
       = sum_int (map (fun k => st_failures (class_totals s k)) (classes s))
     /\ st_errors (suite_totals s)
       = sum_int (map (fun k => st_errors (class_totals s k)) (classes s))
     /\ st_skipped (suite_totals s)
       = sum_int (map (fun k => st_skipped (class_totals s k)) (classes s)))
  /\ sum_int (map (fun s => st_tests (suite_totals s)) (sorted (dict_keys structure)))
     = len cases.
Proof.
  intros structure suite_totals class_totals classes. split.
  - intros s. unfold suite_totals, class_totals, classes, structure.
    cbn [st_tests st_passed st_failures st_errors st_skipped subtotals_of].
    rewrite len_wsum, !count_status_wsum.
    repeat split.
    + rewrite <- class_sum. f_equal. apply map_ext. intros k. symmetry. apply len_wsum.
    + rewrite <- class_sum. f_equal. apply map_ext. intros k.
      symmetry. apply count_status_wsum.
    + rewrite <- class_sum. f_equal. apply map_ext. intros k.
      symmetry. apply count_status_wsum.
    + rewrite <- class_sum. f_equal. apply map_ext. intros k.
      symmetry. apply count_status_wsum.
    + rewrite <- class_sum. f_equal. apply map_ext. intros k.
      symmetry. apply count_status_wsum.
  - unfold suite_totals, structure. cbn [st_tests subtotals_of].
    rewrite len_wsum, <- section_sum. f_equal. apply map_ext. intros s.
    apply len_wsum.
Qed.

(* ================================================================= *)
(** ** A report without times always renders *)

Lemma sum_float_zeros l :
  Forall (fun x => x = PyFloat.zero) l -> sum_float l = PyFloat.zero.
Proof.
  unfold sum_float. induction 1 as [|x l Hx Hl IH]; simpl; [reflexivity|].
  subst x. exact IH.
Qed.

Lemma seconds_fmt_zero : seconds_fmt PyFloat.zero = Ok "0.00s".
Proof. reflexivity. Qed.

Lemma mapM_ok {A B : Type} (f : A -> result B) l :
  (forall x, In x l -> exists y, f x = Ok y) -> exists ys, mapM f l = Ok ys.
Proof.
  induction l as [|x l IH]; intros H; simpl.
  - eexists. reflexivity.
  - destruct (H x (or_introl eq_refl)) as (y & ->).
    destruct (IH (fun z Hz => H z (or_intror Hz))) as (ys & ->).
    eexists. reflexivity.
Qed.

Lemma times_zero (cs : list TestCaseRecord) :
  (forall c, In c cs -> c_time c = PyFloat.zero) ->
  sum_float (map c_time cs) = PyFloat.zero.
Proof.
  intros H. apply sum_float_zeros, Forall_forall. intros x Hx.
  apply in_map_iff in Hx. destruct Hx as (c & <- & Hc). now apply H.
Qed.

Lemma render_html_zero_times now data title :
  (forall c, In c (cases data) -> c_time c = PyFloat.zero) ->
  t_time (totals data) = PyFloat.zero ->
  exists html, render_html now data title = Ok html.
Proof.
  intros Hc Ht. unfold render_html.
  assert (Hmain : exists m, _build_main_content data = Ok m).
  { rewrite _build_main_content_text.
    destruct (mapM_ok (suite_section_html (group_cases (cases data)))
                (sorted (dict_keys (group_cases (cases data))))) as (ss & ->).
    2: { eexists. reflexivity. }
    intros s _. unfold suite_section_html. cbv zeta.
    cbn [st_time subtotals_of].
    rewrite times_zero, seconds_fmt_zero.
    2: { intros c Hin. apply Hc.
         apply (Permutation_in _ (suite_cases_perm (cases data) s)) in Hin.
         now apply filter_In in Hin. }
    cbn [bind].
    destruct (mapM_ok (class_section_html (group_cases (cases data)) s)
                (sorted (dict_keys (dict_get [] (group_cases (cases data)) s))))
      as (cls & ->).
    2: { eexists. reflexivity. }
    intros k _. unfold class_section_html. rewrite class_cases_filter.
    cbv zeta. cbn [st_time subtotals_of].
    rewrite times_zero, seconds_fmt_zero.
    2: { intros c Hin. apply Hc. now apply filter_In in Hin. }
    cbn [bind].
    destruct (mapM_ok _build_row_html
                (sorted_by c_name (filter (in_class s k) (cases data))))
      as (rows & ->).
    2: { eexists. reflexivity. }
    intros c Hin. apply sorted_by_In, filter_In in Hin.
    unfold _build_row_html. rewrite (Hc c (proj1 Hin)), seconds_fmt_zero.
    eexists. reflexivity. }
  destruct Hmain as (m & ->). cbn [bind].
  rewrite Ht, seconds_fmt_zero. eexists. reflexivity.
Qed.

(** X20: an input in which the time of every suite and of every test case
    is absent or 0 is always rendered: render_html fails on no such data
    that parse_files returns, whatever the names, messages and counts
    are. *)
Theorem report_without_times_renders (fromfile : Files) (paths : list string)
    (data : ReportData) (now title : string) :
  parse_files fromfile paths = Ok data ->
  (forall p xml suite,
     In p paths -> fromfile p = Some xml -> In suite xml ->
     or_float (ts_time suite) = PyFloat.zero
     /\ forall case, In (CaseElem case) (ts_children suite) ->
          or_float (tc_time case) = PyFloat.zero) ->
  exists html, render_html now data title = Ok html.
Proof.
  intros H Hno. apply parse_files_inv in H. destruct H as (pxs & Hl & ->).
  apply render_html_zero_times; cbn [cases totals make_totals t_time].
  - intros c Hc. apply in_flat_map in Hc. destruct Hc as (px & Hpx & Hc).
    unfold file_records in Hc. apply in_flat_map in Hc.
    destruct Hc as (suite & Hsuite & Hc).
    destruct (load_In _ _ _ _ Hl Hpx) as [Hin Hf].
    destruct (Hno _ _ _ Hin Hf Hsuite) as [_ Hcase].
    unfold suite_records in Hc. apply in_flat_map in Hc.
    destruct Hc as ([case|] & Hchild & Hc); [|destruct Hc].
    destruct Hc as [<-|[]]. cbn [c_time case_record].
    exact (Hcase case Hchild).
  - apply sum_float_zeros, Forall_forall. intros x Hx.
    apply in_map_iff in Hx. destruct Hx as (s & <- & Hs).
    apply in_flat_map in Hs. destruct Hs as (px & Hpx & Hs).
    unfold file_summaries in Hs. apply in_map_iff in Hs.
    destruct Hs as (suite & <- & Hsuite).
    destruct (load_In _ _ _ _ Hl Hpx) as [Hin Hf].
    destruct (Hno _ _ _ Hin Hf Hsuite) as [Ht _].
    cbn [s_time suite_summary]. exact Ht.
Qed.

Lemma report_without_times_renders_witness :
  exists data html,
    parse_files bare_files ["bare.xml"] = Ok data
    /\ render_html "2025-01-01 00:00:00" data "Report" = Ok html.
Proof.
  destruct (parse_files bare_files ["bare.xml"]) as [data|e] eqn:E;
    [|vm_compute in E; discriminate E].
  destruct (report_without_times_renders bare_files ["bare.xml"] data
              "2025-01-01 00:00:00" "Report" E) as (html & Hhtml).
  - intros p xml suite [<-|[]] Hf Hs. vm_compute in Hf.
    injection Hf as <-. destruct Hs as [<-|[]]. split; [reflexivity|].
    intros case [Hc|[Hc|[]]]; injection Hc as <-; reflexivity.
  - exists data, html. split; [reflexivity|exact Hhtml].
Defined.

(* ================================================================= *)
(** * The rendering succeeds when the times can be formatted *)

(** A time that seconds_fmt formats: every float below 2^53 seconds, and
    NaN. *)
Definition formattable (x : float) : bool :=
  PyFloat.valid x
  && (negb (PyFloat.leb (PyFloat.lit 60) x)
      || PyFloat.ltb x (PyFloat.lit (2 ^ 53))).

(** Every time that the main content shows can be formatted: the time of
    every case, and the summed times of every suite section and of every
    class section. *)
Definition times_formattable (cases : list TestCaseRecord) : bool :=
  let structure := group_cases cases in
  forallb (fun c => formattable (c_time c)) cases
  && forallb
       (fun s =>
          formattable (st_time (subtotals_of (suite_cases_of structure s)))
          && forallb
               (fun k =>
                  formattable
                    (st_time (subtotals_of (class_cases_of structure s k))))
               (sorted (dict_keys (dict_get [] structure s))))
       (sorted (dict_keys structure)).

Lemma formattable_ok x : formattable x = true -> exists t, seconds_fmt x = Ok t.
Proof.
  unfold formattable. intros H. apply andb_true_iff in H. destruct H as [Hv H].
  destruct (PyFloat.leb (PyFloat.lit 60) x) eqn:Hge.
  - simpl in H.
    destruct (ge_60_Repr x Hv Hge H) as [Hrepr Hrange].
    destruct (seconds_fmt_minutes x (sval x) Hrepr Hrange Hge) as (s & Hs & _).
    eauto.
  - unfold seconds_fmt. rewrite Hge. eauto.
Qed.

Lemma row_ok c : formattable (c_time c) = true -> exists row, _build_row_html c = Ok row.
Proof.
  intros H. destruct (formattable_ok _ H) as (t & Ht).
  unfold _build_row_html. rewrite Ht. cbn [bind]. eauto.
Qed.

Lemma main_content_ok data :
  times_formattable (cases data) = true ->
  exists html, _build_main_content data = Ok html.
Proof.
  unfold times_formattable. cbv zeta. intros H.
  apply andb_true_iff in H. destruct H as [Hc Hs].
  rewrite forallb_forall in Hc, Hs.
  rewrite _build_main_content_text.
  destruct (mapM_ok (suite_section_html (group_cases (cases data)))
              (sorted (dict_keys (group_cases (cases data))))) as (ss & ->).
  2: { eexists. reflexivity. }
  intros s Hin. specialize (Hs s Hin).
  apply andb_true_iff in Hs. destruct Hs as [Hsuite Hclasses].
  rewrite forallb_forall in Hclasses.
  unfold suite_section_html. cbv zeta.
  destruct (formattable_ok _ Hsuite) as (t & ->). cbn [bind].
  destruct (mapM_ok (class_section_html (group_cases (cases data)) s)
              (sorted (dict_keys (dict_get [] (group_cases (cases data)) s))))
    as (cls & ->).
  2: { eexists. reflexivity. }
  intros k Hk. specialize (Hclasses k Hk).
  unfold class_section_html. cbv zeta.
  destruct (formattable_ok _ Hclasses) as (t' & ->). cbn [bind].
  destruct (mapM_ok _build_row_html
              (sorted_by c_name (class_cases_of (group_cases (cases data)) s k)))
    as (rows & ->).
  2: { eexists. reflexivity. }
  intros c Hin'. apply sorted_by_In in Hin'.
  rewrite class_cases_filter in Hin'. apply filter_In in Hin'.
  apply row_ok, Hc, Hin'.
Qed.

(* ================================================================= *)
(** ** Two files, one suite name *)

(** C4: when two input files each declare a suite of the same name,
    parse_files keeps one summary for every suite element of either file,
    in order, and counts them all; _build_main_content has one section
    for each suite name, and the rows of the cases of both suites are in
    the section of their common name.  The main content is returned
    whenever the times it shows can be formatted, and whenever it is
    returned it holds that section with these rows. *)
Theorem C4_same_suite_name (fromfile : Files) (p1 p2 : string)
    (xml1 xml2 : list TestSuite) (s1 s2 : TestSuite) (n : string) :
  fromfile p1 = Some xml1 -> fromfile p2 = Some xml2 ->
  In s1 xml1 -> In s2 xml2 ->
  suite_name p1 s1 = n -> suite_name p2 s2 = n ->
  exists data,
    parse_files fromfile [p1; p2] = Ok data
    /\ suites data = (map (suite_summary p1) xml1 ++ map (suite_summary p2) xml2)%list
    /\ t_suites (totals data) = len xml1 + len xml2
    /\ NoDup (sorted (dict_keys (group_cases (cases data))))
    /\ (forall c, In c (suite_records p1 s1 ++ suite_records p2 s2)%list ->
          In c (suite_cases_of (group_cases (cases data)) n))
    /\ (forall html c,
          _build_main_content data = Ok html ->
          In c (suite_records p1 s1 ++ suite_records p2 s2)%list ->
          exists section row,
            suite_section_html (group_cases (cases data)) n = Ok section
            /\ Substring section html
            /\ _build_row_html c = Ok row
            /\ Substring row section)
    /\ (times_formattable (cases data) = true ->
        exists html,
          _build_main_content data = Ok html
          /\ forall c,
               In c (suite_records p1 s1 ++ suite_records p2 s2)%list ->
               exists section row,
                 suite_section_html (group_cases (cases data)) n = Ok section
                 /\ Substring section html
                 /\ _build_row_html c = Ok row
                 /\ Substring row section).
Proof.
  intros H1 H2 Hs1 Hs2 Hn1 Hn2.
  assert (Hl : load fromfile [p1; p2] = Some [(p1, xml1); (p2, xml2)]).
  { simpl. now rewrite H1, H2. }
  eexists. split; [apply (parse_files_ok _ _ _ Hl)|].
  cbn [suites cases totals make_totals t_suites flat_map file_summaries fst snd].
  rewrite !app_nil_r.
  assert (Hin : forall c, In c (suite_records p1 s1 ++ suite_records p2 s2)%list ->
                  In c (file_records (p1, xml1) ++ file_records (p2, xml2))%list
                  /\ c_suite c = n).
  { intros c Hc. apply in_app_or in Hc. destruct Hc as [Hc|Hc].
    - split; [|now rewrite (suite_records_suite _ _ _ Hc)].
      apply in_or_app. left. apply in_flat_map. eauto.
    - split; [|now rewrite (suite_records_suite _ _ _ Hc)].
      apply in_or_app. right. apply in_flat_map. eauto. }
  assert (Hrows : forall html c,
            _build_main_content
              {| suites := (file_summaries (p1, xml1) ++ file_summaries (p2, xml2))%list;
                 cases := (file_records (p1, xml1) ++ file_records (p2, xml2))%list;
                 totals := make_totals
                             (file_summaries (p1, xml1) ++ file_summaries (p2, xml2))%list |}
            = Ok html ->
            In c (suite_records p1 s1 ++ suite_records p2 s2)%list ->
            exists section row,
              suite_section_html
                (group_cases (file_records (p1, xml1) ++ file_records (p2, xml2))%list) n
              = Ok section
              /\ Substring section html
              /\ _build_row_html c = Ok row
              /\ Substring row section).
  { intros html c Hhtml Hc. destruct (Hin c Hc) as [Hcases Hsuite].
    destruct (row_in_main_content _ html c Hhtml Hcases)
      as (section & cls & row & Hsec & Hcls & Hrow & Hsub1 & Hsub2 & Hsub3).
    cbn [cases] in Hsec. rewrite Hsuite in Hsec.
    exists section, row. repeat split; try assumption.
    eapply Substring_trans; eassumption. }
  split; [reflexivity|]. split.
  { rewrite len_app. unfold len, file_summaries. now rewrite !length_map. }
  split; [|split; [|split]].
  - apply sorted_NoDup. rewrite group_cases_with. apply suite_keys_NoDup. constructor.
  - intros c Hc. destruct (Hin c Hc) as [Hcases Hsuite].
    eapply Permutation_in; [symmetry; apply suite_cases_perm|].
    apply filter_In. split; [assumption|].
    unfold in_suite. rewrite Hsuite. apply String.eqb_refl.
  - exact Hrows.
  - intros Htimes.
    destruct (main_content_ok
                {| suites := (file_summaries (p1, xml1) ++ file_summaries (p2, xml2))%list;
                   cases := (file_records (p1, xml1) ++ file_records (p2, xml2))%list;
                   totals := make_totals
                               (file_summaries (p1, xml1) ++ file_summaries (p2, xml2))%list |}
                Htimes) as (html & Hhtml).
    exists html. split; [exact Hhtml|]. intros c Hc. exact (Hrows html c Hhtml Hc).
Qed.

Lemma C4_same_suite_name_witness :
  exists data html section row_a row_b,
    parse_files split_files ["a.xml"; "b.xml"] = Ok data
    /\ map s_name (suites data) = ["Suite1"; "Suite1"]
    /\ map s_tests (suites data) = [1; 1]
    /\ t_suites (totals data) = 2
    /\ sorted (dict_keys (group_cases (cases data))) = ["Suite1"]
    /\ _build_main_content data = Ok html
    /\ suite_section_html (group_cases (cases data)) "Suite1" = Ok section
    /\ Substring section html
    /\ _build_row_html (case_record "Suite1" test_a) = Ok row_a
    /\ Substring row_a section
    /\ _build_row_html (case_record "Suite1" test_b) = Ok row_b
    /\ Substring row_b section.
Proof.
  destruct (C4_same_suite_name split_files "a.xml" "b.xml"
              [suite_of 1 0 [CaseElem test_a]] [suite_of 1 1 [CaseElem test_b]]
              (suite_of 1 0 [CaseElem test_a]) (suite_of 1 1 [CaseElem test_b])
              "Suite1" eq_refl eq_refl (or_introl eq_refl) (or_introl eq_refl)
              eq_refl eq_refl)
    as (data & Hparse & Hsuites & Hcount & _ & _ & _ & Hrender).
  assert (Hcases : cases data = [case_record "Suite1" test_a;
                                 case_record "Suite1" test_b]).
  { vm_compute in Hparse. apply Ok_inj in Hparse. rewrite <- Hparse. reflexivity. }
  destruct Hrender as (html & Hhtml & Hrows).
  { rewrite Hcases. vm_compute. reflexivity. }
  destruct (Hrows (case_record "Suite1" test_a)) as (section & row_a & Hsec & Hsub & Ha & Hra).
  { simpl. auto. }
  destruct (Hrows (case_record "Suite1" test_b)) as (section' & row_b & Hsec' & _ & Hb & Hrb).
  { simpl. auto. }
  rewrite Hsec in Hsec'. apply Ok_inj in Hsec'. subst section'.
  exists data, html, section, row_a, row_b.
  split; [exact Hparse|].
  rewrite Hsuites. split; [reflexivity|]. split; [reflexivity|].
  split; [exact Hcount|].
  split; [rewrite Hcases; vm_compute; reflexivity|].
  repeat split; assumption.
Defined.

(* ================================================================= *)
(** ** The placeholder class of a case without a class name *)

(** C10: the record of a test case without a class name has the empty
    class name; its section heading and its sidebar entry are those of
    the class Default and carry data-classname="Default", while its row,
    which is in that class section, carries data-classname="" and an
    empty class name cell.  The main content with that heading and row is
    returned whenever the times it shows can be formatted. *)
Theorem C10_default_class_placeholder (sname : string) (case : TestCase) :
  tc_classname case = None ->
  let c := case_record sname case in
  c_classname c = ""
  /\ class_key c = "Default"
  /\ (forall data html,
        In c (cases data) -> _build_main_content data = Ok html ->
        exists cls elapsed rest row,
          class_section_html (group_cases (cases data)) sname "Default" = Ok cls
          /\ cls = class_header sname "Default"
                     (subtotals_of (class_cases_of (group_cases (cases data)) sname "Default"))
                     elapsed ++ rest
          /\ Substring default_class_attr
               (class_header sname "Default"
                  (subtotals_of (class_cases_of (group_cases (cases data)) sname "Default"))
                  elapsed)
          /\ Substring cls html
          /\ _build_row_html c = Ok row
          /\ Substring row cls
          /\ Substring empty_classname_attr row
          /\ Substring empty_classname_cell row)
  /\ (forall data title,
        In c (cases data) ->
        Substring (sidebar_case sname "Default" (c_name c)) (_build_sidebar data title)
        /\ Substring default_class_attr (sidebar_case sname "Default" (c_name c)))
  /\ (forall data,
        In c (cases data) -> times_formattable (cases data) = true ->
        exists html cls elapsed rest row,
          _build_main_content data = Ok html
          /\ class_section_html (group_cases (cases data)) sname "Default" = Ok cls
          /\ cls = class_header sname "Default"
                     (subtotals_of (class_cases_of (group_cases (cases data)) sname "Default"))
                     elapsed ++ rest
          /\ Substring default_class_attr
               (class_header sname "Default"
                  (subtotals_of (class_cases_of (group_cases (cases data)) sname "Default"))
                  elapsed)
          /\ Substring cls html
          /\ _build_row_html c = Ok row
          /\ Substring row cls
          /\ Substring empty_classname_attr row
          /\ Substring empty_classname_cell row).
Proof.
  intros Hnone c.
  assert (Hcn : c_classname c = "") by (unfold c; simpl; now rewrite Hnone).
  assert (Hkey : class_key c = "Default") by (unfold class_key; now rewrite Hcn).
  assert (Hshown : forall data html,
            In c (cases data) -> _build_main_content data = Ok html ->
            exists cls elapsed rest row,
              class_section_html (group_cases (cases data)) sname "Default" = Ok cls
              /\ cls = class_header sname "Default"
                         (subtotals_of
                            (class_cases_of (group_cases (cases data)) sname "Default"))
                         elapsed ++ rest
              /\ Substring default_class_attr
                   (class_header sname "Default"
                      (subtotals_of
                         (class_cases_of (group_cases (cases data)) sname "Default"))
                      elapsed)
              /\ Substring cls html
              /\ _build_row_html c = Ok row
              /\ Substring row cls
              /\ Substring empty_classname_attr row
              /\ Substring empty_classname_cell row).
  { intros data html Hc Hhtml.
    destruct (row_in_main_content data html c Hhtml Hc)
      as (section & cls & row & Hsec & Hcls & Hrow & Hsub1 & Hsub2 & Hsub3).
    rewrite Hkey in Hcls. change (c_suite c) with sname in Hcls.
    pose proof Hcls as Hcl. unfold class_section_html in Hcl.
    apply bind_ok in Hcl. destruct Hcl as (elapsed & _ & Hcl).
    apply bind_ok in Hcl. destruct Hcl as (rows & _ & Hcl).
    apply Ok_inj in Hcl.
    exists cls, elapsed, (join rows ++ class_footer), row.
    split; [exact Hcls|]. split; [now symmetry|].
    split; [apply class_header_default|].
    split; [eapply Substring_trans; eassumption|].
    split; [exact Hrow|]. split; [exact Hsub1|].
    exact (row_of_empty_classname c row Hcn Hrow). }
  split; [exact Hcn|]. split; [exact Hkey|]. split; [exact Hshown|]. split.
  - intros data title Hc. split; [|apply sidebar_case_default].
    pose proof (name_in_sidebar data title c Hc) as H.
    now rewrite Hkey in H.
  - intros data Hc Htimes.
    destruct (main_content_ok data Htimes) as (html & Hhtml).
    destruct (Hshown data html Hc Hhtml) as (cls & elapsed & rest & row & H).
    exists html, cls, elapsed, rest, row. split; [exact Hhtml|exact H].
Qed.

Lemma C10_default_class_placeholder_witness :
  exists data html cls row,
    tc_classname test_a = None
    /\ parse_files scenario_files ["a.xml"] = Ok data
    /\ In (case_record "Suite1" test_a) (cases data)
    /\ c_classname (case_record "Suite1" test_a) = ""
    /\ _build_main_content data = Ok html
    /\ class_section_html (group_cases (cases data)) "Suite1" "Default" = Ok cls
    /\ Substring default_class_attr cls
    /\ Substring cls html
    /\ _build_row_html (case_record "Suite1" test_a) = Ok row
    /\ Substring row cls
    /\ Substring empty_classname_attr row
    /\ Substring empty_classname_cell row
    /\ Substring (sidebar_case "Suite1" "Default" "test_a")
         (_build_sidebar data "Report").
Proof.
  destruct (parse_files scenario_files ["a.xml"]) as [data|e] eqn:Hparse;
    [|vm_compute in Hparse; discriminate Hparse].
  assert (Hcases : cases data = [case_record "Suite1" test_a;
                                 case_record "Suite1" test_b]).
  { vm_compute in Hparse. apply Ok_inj in Hparse. rewrite <- Hparse. reflexivity. }
  assert (Hin : In (case_record "Suite1" test_a) (cases data))
    by (rewrite Hcases; now left).
  destruct (C10_default_class_placeholder "Suite1" test_a eq_refl)
    as (Hcn & _ & _ & Hside & Hrender).
  destruct (Hrender data Hin) as (html & cls & elapsed & rest & row & Hhtml & Hcls
                                  & Heq & Hattr & Hsub & Hrow & Hrc & Ha & Hcell).
  { rewrite Hcases. vm_compute. reflexivity. }
  exists data, html, cls, row.
  split; [reflexivity|]. split; [reflexivity|]. split; [exact Hin|].
  split; [exact Hcn|]. split; [exact Hhtml|]. split; [exact Hcls|].
  split; [rewrite Heq; apply Substring_app_l; exact Hattr|].
  split; [exact Hsub|]. split; [exact Hrow|]. split; [exact Hrc|].
  split; [exact Ha|]. split; [exact Hcell|].
  exact (proj1 (Hside data "Report" Hin)).
Defined.

(* ================================================================= *)
(** * Attributes that a suite element omits

    junitparser is not part of the repository.  What follows is how its
    attribute descriptors read a suite element: when a numeric attribute
    (tests, failures, errors, skipped, time) is read and the element does
    not have it, the library first computes the statistics of the suite
    from its test cases and stores all five in the element
    ([update_statistics]), so that this read and every later one return
    the computed values; an attribute that is present with an empty text
    reads as [None]. *)

(** An attribute as it is written in the element. *)
Inductive Written (A : Type) : Type :=
| Omitted
| Blank
| Given (v : A).

Arguments Omitted {A}.
Arguments Blank {A}.
Arguments Given {A} v.

Record SuiteElement : Type := {
  el_name : option string;
  el_tests : Written Z;
  el_failures : Written Z;
  el_errors : Written Z;
  el_skipped : Written Z;
  el_disabled : option Z;      (* getattr(suite, "disabled", 0) *)
  el_time : Written float;
  el_cases : list TestCase     (* list(suite) *)
}.

(** [round(x, 3)]: the float nearest to the decimal with three fractional
    digits that is nearest to [x], ties to even both times. *)
Definition round3 (x : float) : float :=
  match x with
  | S754_finite s m (Zneg p) =>
      match PyFloat.div_round_even (1000 * Zpos m) (Z.pow_pos 2 p) with
      | Zpos t => PyFloat.div (S754_finite s t 0) (S754_finite false 1000 0)
      | _ => S754_zero s
      end
  | _ => x
  end.

(** The number of result entries of class [k] in the cases. *)
Definition count_entries (k : ResultKind) (cases : list TestCase) : Z :=
  sum_int (map (fun case =>
                  len (filter (fun r => kind_eqb (r_kind r) k) (tc_result case)))
             cases).

(** The times of the cases that have one. *)
Definition case_times (cases : list TestCase) : list float :=
  flat_map (fun case =>
              match tc_time case with
              | Some t => [t]
              | None => []
              end) cases.

(** The time [update_statistics] stores. *)
Definition statistics_time (cases : list TestCase) : float :=
  round3 (sum_float (case_times cases)).

Definition is_omitted {A : Type} (w : Written A) : bool :=
  match w with
  | Omitted => true
  | _ => false
  end.

(** The read of a numeric attribute; [refreshed] says that the
    statistics have been stored by an earlier read. *)
Definition read_written {A : Type} (refreshed : bool) (computed : A)
    (w : Written A) : option A :=
  if refreshed then Some computed
  else
    match w with
    | Omitted => Some computed
    | Blank => None
    | Given v => Some v
    end.

(** What the reads of parse_files return for an element, in their order:
    tests, failures, errors, skipped, time. *)
Definition read_suite (el : SuiteElement) : TestSuite :=
  let cs := el_cases el in
  let after_tests := is_omitted (el_tests el) in
  let after_failures := after_tests || is_omitted (el_failures el) in
  let after_errors := after_failures || is_omitted (el_errors el) in
  let after_skipped := after_errors || is_omitted (el_skipped el) in
  {| ts_name := el_name el;
     ts_tests := read_written false (len cs) (el_tests el);
     ts_failures := read_written after_tests (count_entries Failure cs) (el_failures el);
     ts_errors := read_written after_failures (count_entries Error cs) (el_errors el);
     ts_skipped := read_written after_errors (count_entries Skipped cs) (el_skipped el);
     ts_disabled := el_disabled el;
     ts_time := read_written after_skipped (statistics_time cs) (el_time el);
     ts_children := map CaseElem cs |}.

(** The files as they are written. *)
Definition XmlFiles : Type := string -> option (list SuiteElement).

Definition read_files (xml : XmlFiles) : Files :=
  fun p =>
    match xml p with
    | Some els => Some (map read_suite els)
    | None => None
    end.

(** Every path with each of its suite elements, in the order in which
    parse_files meets them. *)
Definition elements (xml : XmlFiles) (paths : list string)
    : list (string * SuiteElement) :=
  flat_map (fun p =>
              match xml p with
              | Some els => map (pair p) els
              | None => []
              end) paths.

(** No numeric attribute of the element is omitted. *)
Definition all_written (el : SuiteElement) : bool :=
  negb (is_omitted (el_tests el) || is_omitted (el_failures el)
        || is_omitted (el_errors el) || is_omitted (el_skipped el)
        || is_omitted (el_time el)).

(** One failing test case that took 3.5 seconds, in a suite element that
    has a name and no other attribute. *)
Definition slow_failure : TestCase :=
  {| tc_classname := Some "pkg.Cls";
     tc_name := Some "test_slow";
     tc_time := Some (S754_finite false 7881299347898368 (-51));
     tc_result := [{| r_kind := Failure; r_message := Some "boom"; r_text := None |}] |}.

Definition unattributed_element : SuiteElement :=
  {| el_name := Some "S";
     el_tests := Omitted;
     el_failures := Omitted;
     el_errors := Omitted;
     el_skipped := Omitted;
     el_disabled := None;
     el_time := Omitted;
     el_cases := [slow_failure] |}.

Definition unattributed_xml : XmlFiles :=
  fun p => if String.eqb p "s.xml" then Some [unattributed_element] else None.

Lemma count_entries_nil k cases :
  (forall c, In c cases -> tc_result c = []) -> count_entries k cases = 0.
Proof.
  unfold count_entries, sum_int. intros H.
  assert (G : forall acc,
             fold_left Z.add
               (map (fun case =>
                       len (filter (fun r => kind_eqb (r_kind r) k) (tc_result case)))
                  cases) acc = acc).
  { induction cases as [|c cases IH]; intros acc; simpl; [reflexivity|].
    rewrite (H c (or_introl eq_refl)). simpl.
    rewrite IH by (intros c' Hc'; apply H; now right).
    unfold len. simpl. lia. }
  apply G.
Qed.

Lemma load_read_files xml paths pxs :
  load (read_files xml) paths = Some pxs ->
  flat_map file_summaries pxs =
  map (fun pe => suite_summary (fst pe) (read_suite (snd pe))) (elements xml paths)
  /\ flat_map file_records pxs =
     flat_map (fun pe => suite_records (fst pe) (read_suite (snd pe)))
       (elements xml paths).
Proof.
  revert pxs. induction paths as [|p paths IH]; intros pxs H; simpl in H.
  - injection H as <-. split; reflexivity.
  - unfold read_files at 1 in H. unfold elements. simpl.
    destruct (xml p) as [els|]; [|discriminate].
    destruct (load (read_files xml) paths) as [pxs'|]; [|discriminate].
    injection H as <-. destruct (IH pxs' eq_refl) as (IH1 & IH2).
    simpl. rewrite IH1, IH2. fold (elements xml paths).
    rewrite map_app, flat_map_app. split; f_equal.
    + unfold file_summaries. simpl. rewrite !map_map. reflexivity.
    + unfold file_records. simpl. rewrite flat_map_concat_map, map_map.
      rewrite <- flat_map_concat_map. rewrite flat_map_concat_map.
      rewrite (flat_map_concat_map _ (map (pair p) els)), map_map. reflexivity.
Qed.

Lemma Forall2_map_r {A B : Type} (P : A -> B -> Prop) (f : A -> B) (l : list A) :
  (forall x, In x l -> P x (f x)) -> Forall2 P l (map f l).
Proof.
  induction l as [|x l IH]; intros H; simpl; constructor.
  - apply H. now left.
  - apply IH. intros y Hy. apply H. now right.
Qed.

Lemma len_map {A B : Type} (f : A -> B) (l : list A) : len (map f l) = len l.
Proof. unfold len. now rewrite length_map. Qed.

Lemma or_int_self v : or_int (Some v) 0 = v.
Proof. unfold or_int. destruct (Z.eqb_spec v 0); congruence. Qed.

Lemma case_times_nil_zero cases :
  case_times cases = [] -> statistics_time cases = PyFloat.zero.
Proof. unfold statistics_time. now intros ->. Qed.

(** C6, as stated, fails: a suite element that omits every numeric
    attribute and holds one failing test case of 3.5 seconds gives a
    summary with 1 failure and a time that formats as 3.50s. *)
Lemma C6_omitted_failures_counted :
  exists data,
    parse_files (read_files unattributed_xml) ["s.xml"] = Ok data
    /\ map s_name (suites data) = ["S"]
    /\ map s_tests (suites data) = [1]
    /\ map s_failures (suites data) = [1]
    /\ map (fun s => seconds_fmt (s_time s)) (suites data) = [Ok "3.50s"].
Proof.
  eexists. split; [reflexivity|]. repeat split.
Qed.

(** C6, amended: parse_files returns data whenever every path can be read,
    whatever attributes the suite elements omit, and the summaries it
    returns are those of the elements, in their order.  In the summary of
    an element: an omitted tests is the number of its test cases, each of
    which has its record in the data; an omitted failures, errors or
    skipped (the latter when the count is not 0 or there is no disabled
    attribute) is the number of result entries of that kind in its cases,
    hence 0 when no case has a result entry; an omitted time is the sum of
    the times of its cases rounded to three decimals, hence 0.0, which
    formats as 0.00s, when no case has a time.  When no numeric attribute
    is omitted, one that is present with an empty text gives the number of
    test cases for tests and 0 for the others. *)
Theorem C6_omitted_attributes_computed (xml : XmlFiles) (paths : list string) :
  (forall q, In q paths -> xml q <> None) ->
  exists data,
    parse_files (read_files xml) paths = Ok data
    /\ Forall2
         (fun (pe : string * SuiteElement) (s : SuiteSummary) =>
            let el := snd pe in
            let cs := el_cases el in
            s_file s = basename (fst pe)
            /\ (forall case, In case cs -> In (case_record (s_name s) case) (cases data))
            /\ (el_tests el = Omitted -> s_tests s = len cs)
            /\ (el_failures el = Omitted -> s_failures s = count_entries Failure cs)
            /\ (el_errors el = Omitted -> s_errors s = count_entries Error cs)
            /\ (el_skipped el = Omitted ->
                count_entries Skipped cs <> 0 \/ el_disabled el = None ->
                s_skipped s = count_entries Skipped cs)
            /\ (el_time el = Omitted ->
                (PyFloat.truthy (statistics_time cs) = true ->
                 s_time s = statistics_time cs)
                /\ (PyFloat.truthy (statistics_time cs) = false ->
                    s_time s = PyFloat.zero))
            /\ ((forall case, In case cs -> tc_result case = []) ->
                (el_failures el = Omitted -> s_failures s = 0)
                /\ (el_errors el = Omitted -> s_errors s = 0)
                /\ (el_skipped el = Omitted -> el_disabled el = None -> s_skipped s = 0))
            /\ ((forall case, In case cs -> tc_time case = None) ->
                el_time el = Omitted ->
                s_time s = PyFloat.zero /\ seconds_fmt (s_time s) = Ok "0.00s")
            /\ (all_written el = true ->
                (el_tests el = Blank -> s_tests s = len cs)
                /\ (el_failures el = Blank -> s_failures s = 0)
                /\ (el_errors el = Blank -> s_errors s = 0)
                /\ (el_skipped el = Blank -> el_disabled el = None -> s_skipped s = 0)
                /\ (el_time el = Blank ->
                    s_time s = PyFloat.zero /\ seconds_fmt (s_time s) = Ok "0.00s")))
         (elements xml paths) (suites data).
Proof.
  intros Hread.
  assert (Hread' : forall q, In q paths -> read_files xml q <> None).
  { intros q Hq. unfold read_files. specialize (Hread q Hq).
    destruct (xml q); [discriminate|contradiction]. }
  apply load_some_iff in Hread'. destruct Hread' as (pxs & Hl).
  destruct (load_read_files _ _ _ Hl) as (Hs & Hc).
  eexists. split; [apply (parse_files_ok _ _ _ Hl)|].
  cbn [suites cases]. rewrite Hs, Hc.
  apply Forall2_map_r. intros [p el] Hin. cbn [fst snd].
  assert (Hsk : el_skipped el = Omitted ->
                s_skipped (suite_summary p (read_suite el)) =
                (if count_entries Skipped (el_cases el) =? 0
                 then or_int (el_disabled el) 0
                 else count_entries Skipped (el_cases el))).
  { intros E. cbn. rewrite E.
    destruct (is_omitted (el_tests el) || is_omitted (el_failures el)
              || is_omitted (el_errors el)); reflexivity. }
  assert (Hf : el_failures el = Omitted ->
               s_failures (suite_summary p (read_suite el)) =
               count_entries Failure (el_cases el)).
  { intros E. cbn. rewrite E.
    destruct (is_omitted (el_tests el)); cbn; apply or_int_self. }
  assert (He : el_errors el = Omitted ->
               s_errors (suite_summary p (read_suite el)) =
               count_entries Error (el_cases el)).
  { intros E. cbn. rewrite E.
    destruct (is_omitted (el_tests el) || is_omitted (el_failures el));
      cbn; apply or_int_self. }
  assert (Ht : el_time el = Omitted ->
               s_time (suite_summary p (read_suite el)) =
               or_float (Some (statistics_time (el_cases el)))).
  { intros E. cbn. rewrite E.
    destruct (is_omitted (el_tests el) || is_omitted (el_failures el)
              || is_omitted (el_errors el) || is_omitted (el_skipped el));
      reflexivity. }
  split; [reflexivity|].
  split.
  { intros case Hcase. apply in_flat_map. exists (p, el). split; [exact Hin|].
    cbn [fst snd]. unfold suite_records. apply in_flat_map.
    exists (CaseElem case). split; [|now left].
    cbn. now apply in_map. }
  split.
  { intros E. cbn. rewrite E. cbn. rewrite len_map.
    unfold or_int. destruct (Z.eqb_spec (len (el_cases el)) 0); congruence. }
  split; [exact Hf|]. split; [exact He|].
  split.
  { intros E Hd. rewrite (Hsk E).
    destruct (Z.eqb_spec (count_entries Skipped (el_cases el)) 0) as [E0|]; [|reflexivity].
    destruct Hd as [Hd|Hd]; [contradiction|]. rewrite Hd, E0. reflexivity. }
  split.
  { intros E. rewrite (Ht E). unfold or_float.
    split; intros Hz; rewrite Hz; reflexivity. }
  split.
  { intros Hnone. split; [|split].
    - intros E. rewrite (Hf E). now apply count_entries_nil.
    - intros E. rewrite (He E). now apply count_entries_nil.
    - intros E Hd. rewrite (Hsk E), Hd, (count_entries_nil Skipped _ Hnone).
      reflexivity. }
  split.
  { intros Hnone E. rewrite (Ht E).
    assert (Hct : case_times (el_cases el) = []).
    { unfold case_times. clear -Hnone.
      induction (el_cases el) as [|c cs IH]; [reflexivity|].
      simpl. rewrite (Hnone c (or_introl eq_refl)). simpl.
      apply IH. intros c' Hc'. apply Hnone. now right. }
    rewrite (case_times_nil_zero _ Hct). split; reflexivity. }
  intros Hall. unfold all_written in Hall. apply negb_true_iff in Hall.
  repeat (apply orb_false_iff in Hall; destruct Hall as (Hall & ?)).
  split; [|split; [|split; [|split]]].
  - intros E. cbn. rewrite E. cbn. apply len_map.
  - intros E. cbn. rewrite E, Hall. reflexivity.
  - intros E. cbn. rewrite E, Hall. cbn.
    destruct (is_omitted (el_failures el)); [discriminate|reflexivity].
  - intros E Hd. cbn. rewrite E, Hall, Hd. cbn.
    destruct (is_omitted (el_failures el)); [discriminate|].
    destruct (is_omitted (el_errors el)); [discriminate|reflexivity].
  - intros E. cbn. rewrite E, Hall. cbn.
    destruct (is_omitted (el_failures el)); [discriminate|].
    destruct (is_omitted (el_errors el)); [discriminate|].
    destruct (is_omitted (el_skipped el)); [discriminate|].
    split; reflexivity.
Qed.

(** A file with two suite elements: the one above, which omits every
    numeric attribute, and one in which each is present with an empty
    text, holding two test cases without a result entry or a time. *)
Definition quiet_case (name : string) : TestCase :=
  {| tc_classname := Some "pkg.Cls";
     tc_name := Some name;
     tc_time := None;
     tc_result := [] |}.

Definition blank_element : SuiteElement :=
  {| el_name := Some "B";
     el_tests := Blank;
     el_failures := Blank;
     el_errors := Blank;
     el_skipped := Blank;
     el_disabled := None;
     el_time := Blank;
     el_cases := [quiet_case "test_one"; quiet_case "test_two"] |}.

Definition mixed_xml : XmlFiles :=
  fun p =>
    if String.eqb p "s.xml" then Some [unattributed_element; blank_element]
    else None.

Lemma C6_omitted_attributes_computed_witness :
  (forall q, In q ["s.xml"] -> mixed_xml q <> None)
  /\ exists data,
       parse_files (read_files mixed_xml) ["s.xml"] = Ok data
       /\ map s_file (suites data) = ["s.xml"; "s.xml"]
       /\ map s_tests (suites data) = [1; 2]
       /\ map s_failures (suites data) = [1; 0]
       /\ map s_errors (suites data) = [0; 0]
       /\ map s_skipped (suites data) = [0; 0]
       /\ map (fun s => seconds_fmt (s_time s)) (suites data)
          = [Ok "3.50s"; Ok "0.00s"]
       /\ In (case_record "S" slow_failure) (cases data).
Proof.
  assert (H : forall q, In q ["s.xml"] -> mixed_xml q <> None).
  { intros q [<-|[]]. discriminate. }
  split; [exact H|].
  destruct (C6_omitted_attributes_computed mixed_xml ["s.xml"] H)
    as (data & Hok & HF).
  exists data. split; [exact Hok|].
  assert (Hname : map s_name (suites data) = ["S"; "B"]).
  { vm_compute in Hok. injection Hok as <-. reflexivity. }
  change (elements mixed_xml ["s.xml"])
    with [("s.xml", unattributed_element); ("s.xml", blank_element)] in HF.
  inversion HF as [|pe1 s1 l1 l1' H1 HF1 E1 E2].
  inversion HF1 as [|pe2 s2 l2 l2' H2 HF2 E3 E4].
  inversion HF2 as [E5 E6|].
  rewrite <- E2, <- E4, <- E6 in Hname. injection Hname as N1 N2.
  cbn [fst snd] in H1, H2.
  destruct H1 as (F1 & R1 & T1 & Fa1 & Er1 & Sk1 & Tm1 & _).
  destruct H2 as (F2 & _ & _ & _ & _ & _ & _ & _ & _ & B2).
  destruct (B2 eq_refl) as (T2 & Fa2 & Er2 & Sk2 & Tm2).
  cbn [map].
  rewrite F1, F2, (T1 eq_refl), (T2 eq_refl), (Fa1 eq_refl), (Fa2 eq_refl),
    (Er1 eq_refl), (Er2 eq_refl), (Sk1 eq_refl (or_intror eq_refl)),
    (Sk2 eq_refl eq_refl), (proj1 (Tm1 eq_refl) eq_refl), (proj2 (Tm2 eq_refl)).
  repeat split.
  rewrite <- N1. apply R1. now left.
Defined.
